(** * fly: telemetry log manager interface and settings loader

    A shallow embedding of [log_manager.h] (the [LOG_TABLE] field table and
    the struct generated from it) and of [settings.c] (the JSON settings
    loader with its file-scope globals), followed by the properties proved
    about them. *)

From Stdlib Require Import ZArith List String Bool Lia Floats.
Import ListNotations.

Open Scope string_scope.
Open Scope Z_scope.

#[local] Set Warnings "-inexact-float".
#[local] Set Warnings "-register-all".
#[local] Set Warnings "-notation-overridden".

(* ================================================================== *)
(** ** log_manager.h : the field table                                 *)
(* ================================================================== *)

Module LogSchema.

(** The two C types that occur in the first column of [LOG_TABLE]. *)
Inductive ctype : Type := uint64_t | double.

(** Width in bits of each of the two types. *)
Definition bits (t : ctype) : Z :=
  match t with
  | uint64_t => 64
  | double => 64
  end.

Definition is_floating (t : ctype) : bool :=
  match t with
  | uint64_t => false
  | double => true
  end.

(** One [X(type, fmt, name)] line of the table. *)
Record table_row : Type := X {
  x_type : ctype;
  x_fmt : string;
  x_name : string
}.

(** [#define LOG_TABLE ...], line by line. *)
Definition LOG_TABLE : list table_row :=
  [ X uint64_t "%lld" "loop_index";
    X uint64_t "%lld" "last_step_us";

    X double "%f" "altitude";
    X double "%f" "roll";
    X double "%f" "pitch";
    X double "%f" "yaw";

    X double "%f" "u_X";
    X double "%f" "u_Y";
    X double "%f" "u_Z";
    X double "%f" "u_roll";
    X double "%f" "u_pitch";
    X double "%f" "u_yaw";

    X double "%f" "mot_1";
    X double "%f" "mot_2";
    X double "%f" "mot_3";
    X double "%f" "mot_4";
    X double "%f" "mot_5";
    X double "%f" "mot_6";
    X double "%f" "v_batt" ].

(** A member declaration [type name ;] of a C struct. *)
Record member : Type := Member {
  m_type : ctype;
  m_name : string
}.

(** [#define X(type, fmt, name) type name ;] *)
Definition X_member (r : table_row) : member :=
  Member (x_type r) (x_name r).

(** [typedef struct log_entry_t { LOG_TABLE } log_entry_t;] : the member
    list is the table expanded under the definition of [X] above. *)
Definition log_entry_t_members : list member := map X_member LOG_TABLE.

(** Byte offsets of the members of a struct all of whose members are
    eight bytes wide: each member starts where the previous one ends. *)
Fixpoint offsets_from (off : Z) (ms : list member) : list (string * Z) :=
  match ms with
  | [] => []
  | m :: rest => (m_name m, off) :: offsets_from (off + bits (m_type m) / 8) rest
  end.

Definition log_entry_t_offsets : list (string * Z) :=
  offsets_from 0 log_entry_t_members.

Definition log_entry_t_sizeof : Z :=
  fold_right (fun m acc => bits (m_type m) / 8 + acc) 0 log_entry_t_members.

(** The struct as a record: [uint64_t] members are integers in
    [0, 2^64), [double] members are binary64 floats. *)
Record log_entry_t : Type := Build_log_entry_t {
  loop_index : Z;
  last_step_us : Z;
  altitude : float;
  roll : float;
  pitch : float;
  yaw : float;
  u_X : float;
  u_Y : float;
  u_Z : float;
  u_roll : float;
  u_pitch : float;
  u_yaw : float;
  mot_1 : float;
  mot_2 : float;
  mot_3 : float;
  mot_4 : float;
  mot_5 : float;
  mot_6 : float;
  v_batt : float
}.

(** A value of one of the two member types. *)
Inductive value : Type :=
| VU64 (n : Z)
| VF64 (d : float).

Definition value_type (v : value) : ctype :=
  match v with
  | VU64 _ => uint64_t
  | VF64 _ => double
  end.

(** The members of an entry, read in declaration order. *)
Definition log_entry_values (e : log_entry_t) : list value :=
  [ VU64 (loop_index e); VU64 (last_step_us e);
    VF64 (altitude e); VF64 (roll e); VF64 (pitch e); VF64 (yaw e);
    VF64 (u_X e); VF64 (u_Y e); VF64 (u_Z e);
    VF64 (u_roll e); VF64 (u_pitch e); VF64 (u_yaw e);
    VF64 (mot_1 e); VF64 (mot_2 e); VF64 (mot_3 e);
    VF64 (mot_4 e); VF64 (mot_5 e); VF64 (mot_6 e);
    VF64 (v_batt e) ].

End LogSchema.

(* ================================================================== *)
(** ** The log manager behind log_manager.h                            *)
(* ================================================================== *)

Module LogManager.
Import LogSchema.

(** Modelled from the spec: [log_manager.c], which holds the bodies of
    [start_log_manager], [add_log_entry], [print_entry],
    [join_log_manager_thread] and of the writer thread, is missing; only
    their declarations in [log_manager.h] are available.  The definitions
    of this module follow sections 3 to 7 of the specification. *)
Inductive LoggerState : Type :=
| Uninitialized | Running | Draining | Stopped | Failed.

(** Modelled from the spec: log_manager.c is missing; the error taxonomy
    of section 7. *)
Inductive LogError : Type :=
| FileCreateError | AlreadyRunning | NotRunning | BufferFull
| WriteFault | ShutdownTimeout.

Inductive Result : Type :=
| Ok
| Err (e : LogError).

(** [0] on success, [-1] on failure, as the header documents for each of
    the four functions. *)
Definition code (r : Result) : Z :=
  match r with
  | Ok => 0
  | Err _ => -1
  end.

(** Modelled from the spec: the LogFile of section 3 (log_manager.c is
    missing): one header line, then one row per entry, closed once. *)
Record LogFile : Type := Build_LogFile {
  header : list string;
  rows : list (list value);
  closed : bool
}.

(** The header line and a data row, both read off the field table. *)
Definition csv_header : list string := map x_name LOG_TABLE.
Definition csv_row (e : log_entry_t) : list value := log_entry_values e.



(** Modelled from the spec: the process-wide log manager instance
    (log_manager.c is missing): lifecycle state, the bounded FIFO with
    its capacity (oldest entry first), the file, the dropped-entry and
    write-fault counters of section 5 and the lost-entry count reported
    by a timed-out shutdown. *)
Record manager : Type := Build_manager {
  state : LoggerState;
  capacity : nat;
  buffer : list log_entry_t;
  file : option LogFile;
  dropped : nat;
  faults : nat;
  lost : nat
}.

Definition initial_manager : manager :=
  Build_manager Uninitialized 0 [] None 0 0 0.

(** Modelled from the spec: [start] of section 4.1 (log_manager.c is
    missing).  [cap] is the configured capacity; [file_ok] tells whether
    the environment lets the file be created. *)
Definition start (cap : nat) (file_ok : bool) (m : manager)
  : Result * manager :=
  match state m with
  | Running | Draining => (Err AlreadyRunning, m)
  | Failed => (Err NotRunning, m)
  | Uninitialized | Stopped =>
      if file_ok then
        (Ok, Build_manager Running cap []
               (Some (Build_LogFile csv_header [] false))
               (dropped m) (faults m) (lost m))
      else
        (Err FileCreateError,
         Build_manager Failed (capacity m) (buffer m) (file m)
                       (dropped m) (faults m) (lost m))
  end.

(** Modelled from the spec: [submit] of section 4.1 (log_manager.c is
    missing): reject-and-count when the buffer is at capacity, enqueue at
    the tail otherwise. *)
Definition submit (entry : log_entry_t) (m : manager) : Result * manager :=
  match state m with
  | Running =>
      if (capacity m <=? List.length (buffer m))%nat then
        (Err BufferFull,
         Build_manager (state m) (capacity m) (buffer m) (file m)
                       (S (dropped m)) (faults m) (lost m))
      else
        (Ok,
         Build_manager (state m) (capacity m) (buffer m ++ [entry])%list (file m)
                       (dropped m) (faults m) (lost m))
  | _ => (Err NotRunning, m)
  end.

Definition close_file (f : option LogFile) : option LogFile :=
  match f with
  | Some f => Some (Build_LogFile (header f) (rows f) true)
  | None => None
  end.

(** Modelled from the spec: what the disk makes of one attempt to append
    a row (sections 4.3 and 7; log_manager.c is missing): the row is
    written; the write faults and the session goes on; or the fault is
    fatal (disk full) or one fault too many, which the specification
    lets escalate. *)
Inductive write_outcome : Type :=
| Written
| WriteFailed
| WriteFailedFatally.

(** Modelled from the spec: one cycle of the Writer Thread of section 4.3
    (log_manager.c is missing): dequeue the oldest entry and append its
    row to the open file.  On a write fault the fault is recorded, the
    row is lost and the thread goes on with the next entry; on a fatal
    fault the log manager becomes [Failed] and the thread stops, closing
    the file it owns. *)
Definition writer_step (o : write_outcome) (m : manager) : manager :=
  match state m, buffer m, file m with
  | (Running | Draining), e :: rest, Some f =>
      match o with
      | Written =>
          Build_manager (state m) (capacity m) rest
            (Some (Build_LogFile (header f) (rows f ++ [csv_row e])%list
                     (closed f)))
            (dropped m) (faults m) (lost m)
      | WriteFailed =>
          Build_manager (state m) (capacity m) rest (Some f)
            (dropped m) (S (faults m)) (lost m)
      | WriteFailedFatally =>
          Build_manager Failed (capacity m) rest (close_file (Some f))
            (dropped m) (S (faults m)) (lost m)
      end
  | _, _, _ => m
  end.




Definition add_log_entry (new_entry : log_entry_t) (m : manager)
  : Z * manager :=
  let (r, m') := submit new_entry m in (code r, m').



(** What happens between [start] and [shutdown]: the control loop submits
    an entry, or the Writer Thread runs one cycle, with what the disk
    makes of its write. *)
Inductive event : Type :=
| Submit (e : log_entry_t)
| Write (o : write_outcome).

(** Runs a schedule; the second component lists every submitted entry
    with the code [add_log_entry] returned for it, in call order. *)
Fixpoint run (evs : list event) (m : manager)
  : manager * list (log_entry_t * Z) :=
  match evs with
  | [] => (m, [])
  | Submit e :: rest =>
      let (c, m') := add_log_entry e m in
      let (m'', log) := run rest m' in
      (m'', (e, c) :: log)
  | Write o :: rest => run rest (writer_step o m)
  end.







(** The manager right after a successful [start] from the initial state. *)
Definition started (cap : nat) : manager :=
  snd (start cap true initial_manager).

Definition entry_with_index (i : Z) : log_entry_t :=
  Build_log_entry_t i 0 0 0 0 0 0 0 0 0 0 0 0 0 0 0 0 0 0.










(** A running manager of capacity 2 holding two entries. *)
Definition full_manager : manager :=
  fst (run [Submit (entry_with_index 1); Submit (entry_with_index 2)]
           (started 2)).


End LogManager.

(* ================================================================== *)
(** ** json-c, as far as settings.c uses it                            *)
(* ================================================================== *)

Module Json.

Inductive json_type : Type :=
| json_type_null | json_type_boolean | json_type_double | json_type_int
| json_type_object | json_type_array | json_type_string.

(** A [json_object*].  [JNull] is the [NULL] pointer, which is also how
    json-c represents the JSON value [null].  An object keeps its members
    in insertion order; integers are stored as [int64_t]. *)
#[local] Unset Elimination Schemes.
Inductive json_object : Type :=
| JNull
| JBoolean (b : bool)
| JDouble (d : float)
| JInt (i : Z)
| JObject (members : list (string * json_object))
| JArray (elems : list json_object)
| JString (s : string).
#[local] Set Elimination Schemes.

Definition json_type_eqb (a b : json_type) : bool :=
  match a, b with
  | json_type_null, json_type_null
  | json_type_boolean, json_type_boolean
  | json_type_double, json_type_double
  | json_type_int, json_type_int
  | json_type_object, json_type_object
  | json_type_array, json_type_array
  | json_type_string, json_type_string => true
  | _, _ => false
  end.

Definition json_object_get_type (j : json_object) : json_type :=
  match j with
  | JNull => json_type_null
  | JBoolean _ => json_type_boolean
  | JDouble _ => json_type_double
  | JInt _ => json_type_int
  | JObject _ => json_type_object
  | JArray _ => json_type_array
  | JString _ => json_type_string
  end.

Definition json_object_is_type (j : json_object) (t : json_type) : bool :=
  json_type_eqb (json_object_get_type j) t.

(** The C string a [char *] denotes: the characters before the first
    NUL.  A json-c string has a length of its own and can hold NUL
    characters (written [\u0000] in the file); the string functions of C
    see only what precedes the first of them. *)
Fixpoint c_str (s : string) : string :=
  match s with
  | EmptyString => EmptyString
  | String c rest =>
      if Ascii.eqb c Ascii.zero then EmptyString else String c (c_str rest)
  end.

(** [strcmp], up to the sign of the result: the comparison of the two
    C strings. *)
Definition strcmp (a b : string) : Z :=
  match String.compare (c_str a) (c_str b) with
  | Eq => 0
  | Lt => -1
  | Gt => 1
  end.

(** The member stored under [key]: json-c compares the keys of an
    object, which are C strings, with [strcmp]. *)
Fixpoint lookup (key : string) (ms : list (string * json_object))
  : option json_object :=
  match ms with
  | [] => None
  | (k, v) :: rest => if strcmp k key =? 0 then Some v else lookup key rest
  end.

(** [json_object_object_get_ex(obj, key, &value)]: [Some value] when the
    call returns true, [None] when it returns 0 (key missing, or [obj]
    not an object). *)
Definition json_object_object_get_ex (obj : json_object) (key : string)
  : option json_object :=
  match obj with
  | JObject ms => lookup key ms
  | _ => None
  end.

Fixpoint object_add (ms : list (string * json_object)) (key : string)
  (val : json_object) : list (string * json_object) :=
  match ms with
  | [] => [(key, val)]
  | (k, v) :: rest =>
      if strcmp k key =? 0 then (k, val) :: rest
      else (k, v) :: object_add rest key val
  end.

Definition json_object_object_add (obj : json_object) (key : string)
  (val : json_object) : json_object :=
  match obj with
  | JObject ms => JObject (object_add ms key val)
  | _ => obj
  end.

Definition json_object_new_object : json_object := JObject [].
Definition json_object_new_array : json_object := JArray [].
Definition json_object_new_string (s : string) : json_object := JString s.
Definition json_object_new_double (d : float) : json_object := JDouble d.
Definition json_object_new_int (i : Z) : json_object := JInt i.
Definition json_object_new_boolean (b : bool) : json_object := JBoolean b.

Definition json_object_array_add (arr val : json_object) : json_object :=
  match arr with
  | JArray l => JArray (l ++ [val])%list
  | _ => arr
  end.

(** Stores at [idx], padding with [NULL] when the array is shorter. *)
Fixpoint array_put (l : list json_object) (idx : nat) (val : json_object)
  : list json_object :=
  match idx, l with
  | O, [] => [val]
  | O, _ :: rest => val :: rest
  | S i, [] => JNull :: array_put [] i val
  | S i, x :: rest => x :: array_put rest i val
  end.

Definition json_object_array_put_idx (arr : json_object) (idx : nat)
  (val : json_object) : json_object :=
  match arr with
  | JArray l => JArray (array_put l idx val)
  | _ => arr
  end.

Definition json_object_array_length (arr : json_object) : Z :=
  match arr with
  | JArray l => Z.of_nat (List.length l)
  | _ => 0
  end.

Definition json_object_array_get_idx (arr : json_object) (idx : nat)
  : json_object :=
  match arr with
  | JArray l => nth idx l JNull
  | _ => JNull
  end.

Definition INT32_MAX : Z := 2147483647.
Definition INT32_MIN : Z := -2147483648.

(** The [(double)] conversion of a C [int]. *)
Definition double_of_int (z : Z) : float :=
  if z <? 0
  then PrimFloat.opp (PrimFloat.of_uint63 (Uint63.of_Z (- z)))
  else PrimFloat.of_uint63 (Uint63.of_Z z).

Definition json_object_get_boolean (j : json_object) : bool :=
  match j with
  | JBoolean b => b
  | JInt i => negb (i =? 0)
  | JDouble d => negb (PrimFloat.eqb d 0%float)
  | JString s => negb (Nat.eqb (String.length s) 0)
  | _ => false
  end.

(** [json_object_get_int] returns an [int32_t]: the stored 64-bit value
    saturated to the 32-bit range.  settings.c only calls it on objects
    it has checked to be of [json_type_int]; of the conversions json-c
    applies to other types only the boolean one is written out. *)
Definition json_object_get_int (j : json_object) : Z :=
  match j with
  | JInt i =>
      if i <? INT32_MIN then INT32_MIN
      else if INT32_MAX <? i then INT32_MAX
      else i
  | JBoolean b => if b then 1 else 0
  | _ => 0
  end.

(** settings.c uses the result of [json_object_get_double] only on
    objects it has checked to be of [json_type_double]; the parse of a
    string that json-c attempts is not written out. *)
Definition json_object_get_double (j : json_object) : float :=
  match j with
  | JDouble d => d
  | JInt i => double_of_int i
  | JBoolean b => if b then 1%float else 0%float
  | _ => 0%float
  end.

(** Only called on objects checked to be of [json_type_string]. *)
Definition json_object_get_string (j : json_object) : string :=
  match j with
  | JString s => s
  | _ => ""
  end.

End Json.

(* ================================================================== *)
(** ** C function bodies with early [return]                           *)
(* ================================================================== *)

Module CStmt.

(** What running a statement yields: control falls through to the next
    statement with a value, or the enclosing function returns. *)
Inductive outcome (A : Type) : Type :=
| Next (a : A)
| Return (z : Z).
Arguments Next {A} a.
Arguments Return {A} z.

(** A statement over the mutable objects [S] it can reach. *)
Definition stmt (S A : Type) : Type := S -> outcome A * S.

Definition ret {S A : Type} (a : A) : stmt S A :=
  fun s => (Next a, s).

Definition bind {S A B : Type} (m : stmt S A) (k : A -> stmt S B)
  : stmt S B :=
  fun s =>
    match m s with
    | (Next a, s') => k a s'
    | (Return z, s') => (Return z, s')
    end.

(** [return z;] *)
Definition c_return {S A : Type} (z : Z) : stmt S A :=
  fun s => (Return z, s).

(** Reading an object, or a member of one. *)
Definition gets {S A : Type} (p : S -> A) : stmt S A :=
  fun s => (Next (p s), s).

Definition modify {S : Type} (f : S -> S) : stmt S unit :=
  fun s => (Next tt, f s).

(** [if (b) body] without an else branch. *)
Definition c_if {S : Type} (b : bool) (body : stmt S unit) : stmt S unit :=
  if b then body else ret tt.

(** A call of a function, used as an expression. *)
Definition call {S A : Type} (f : S -> A * S) : stmt S A :=
  fun s => let (a, s') := f s in (Next a, s').

(** An [int] function every path of whose body ends in [return]. *)
Definition fn {S : Type} (body : stmt S Empty_set) : S -> Z * S :=
  fun s =>
    match body s with
    | (Return z, s') => (z, s')
    | (Next e, _) => match e with end
    end.

(** An [int] function whose body can reach its closing brace without a
    [return]: the caller then reads a value the language leaves
    indeterminate, here [indeterminate]. *)
Definition fn_falls_off {S : Type} (body : stmt S unit) (indeterminate : Z)
  : S -> Z * S :=
  fun s =>
    match body s with
    | (Return z, s') => (z, s')
    | (Next tt, s') => (indeterminate, s')
    end.

(** The statement [m], run from [s], ends in a state that satisfies [Q]
    when control falls through and [R] when the function returns. *)
Definition wp {S A : Type} (m : stmt S A)
  (Q : A -> S -> Prop) (R : Z -> S -> Prop) (s : S) : Prop :=
  match m s with
  | (Next a, s') => Q a s'
  | (Return z, s') => R z s'
  end.

(** [m] moves every state to a [Rel]-related one, and returns only
    values in [P]. *)
Definition quiet {S A : Type} (Rel : S -> S -> Prop) (P : Z -> Prop)
  (m : stmt S A) : Prop :=
  forall s, wp m (fun _ s' => Rel s s') (fun z s' => P z /\ Rel s s') s.

(** [m] neither reads nor writes what [g] changes: running [m] after [g]
    is running it before [g]. *)
Definition commutes {S A : Type} (g : S -> S) (m : stmt S A) : Prop :=
  forall s, m (g s) = (fst (m s), g (snd (m s))).

End CStmt.

Declare Scope stmt_scope.
Delimit Scope stmt_scope with stmt.
Notation "x <- m ;; k" := (CStmt.bind m (fun x => k))
  (at level 61, m at next level, right associativity) : stmt_scope.
Notation "m ;; k" := (CStmt.bind m (fun _ => k))
  (at level 61, right associativity) : stmt_scope.

(* ================================================================== *)
(** ** settings.c                                                      *)
(* ================================================================== *)

(** The part of librobotcontrol's [rc/math/filter.h] and
    [rc/math/vector.h] that settings.c calls.  A vector is its array of
    doubles; a filter is left abstract. *)
Definition rc_vector_t : Type := list float.
Definition rc_vector_empty : rc_vector_t := [].
Definition rc_vector_alloc (len : Z) : rc_vector_t :=
  repeat 0%float (Z.to_nat len).

(** [v.d[i] = x] *)
Fixpoint vector_store (v : rc_vector_t) (i : nat) (x : float) : rc_vector_t :=
  match v, i with
  | [], _ => []
  | _ :: rest, O => x :: rest
  | y :: rest, S i' => y :: vector_store rest i' x
  end.

Class RcFilterLib : Type := {
  rc_filter_t : Type;
  (** a filter object of static storage, before anything is stored in it *)
  rc_filter_static : rc_filter_t;
  (** [rc_filter_free(&f)]: the filter afterwards *)
  rc_filter_free : rc_filter_t -> rc_filter_t;
  (** [rc_filter_c2d_tustin(&f, dt, num, den, w)]: result and filter *)
  rc_filter_c2d_tustin :
    float -> rc_vector_t -> rc_vector_t -> float ->
    rc_filter_t -> Z * rc_filter_t;
  (** [rc_filter_alloc(&f, num, den, dt)]: result and filter *)
  rc_filter_alloc :
    rc_vector_t -> rc_vector_t -> float -> rc_filter_t -> Z * rc_filter_t
}.

Module Settings.
Import Json CStmt.
Local Open Scope stmt_scope.

(** Enumerations of [settings.h] and [rc_pilot_defs.h], which are not
    among the sources: the enumerators are those settings.c names. *)
Inductive rotor_layout_t : Type :=
| LAYOUT_6DOF_ROTORBITS | LAYOUT_4X | LAYOUT_4PLUS | LAYOUT_6X | LAYOUT_8X.

Inductive thrust_map_t : Type :=
| MN1806_1400KV_4S | F20_2300KV_2S | RX2206_4S.

Inductive flight_mode_t : Type :=
| TEST_BENCH_4DOF | TEST_BENCH_6DOF
| DIRECT_THROTTLE_4DOF | DIRECT_THROTTLE_6DOF
| ALT_HOLD_4DOF | ALT_HOLD_6DOF.

Inductive dsm_kill_mode_t : Type :=
| DSM_KILL_DEDICATED_SWITCH | DSM_KILL_NEGATIVE_THROTTLE.

(** [settings_t] of [settings.h] (not among the sources): the members
    settings.c assigns.  The flags that receive a [json_bool] are [bool]
    here. *)
#[projections(primitive)]
Record settings_t : Type := Build_settings_t {
  num_rotors : Z;
  layout : rotor_layout_t;
  thrust_map : thrust_map_t;
  v_nominal : float;
  enable_logging : bool;
  flight_mode_1 : flight_mode_t;
  flight_mode_2 : flight_mode_t;
  flight_mode_3 : flight_mode_t;
  num_dsm_modes : Z;
  dsm_thr_ch : Z;
  dsm_thr_pol : Z;
  dsm_roll_ch : Z;
  dsm_roll_pol : Z;
  dsm_pitch_ch : Z;
  dsm_pitch_pol : Z;
  dsm_yaw_ch : Z;
  dsm_yaw_pol : Z;
  dsm_mode_ch : Z;
  dsm_mode_pol : Z;
  dsm_kill_mode : dsm_kill_mode_t;
  dsm_kill_ch : Z;
  dsm_kill_pol : Z;
  feedback_hz : Z;
  printf_arm : bool;
  printf_altitude : bool;
  printf_rpy : bool;
  printf_sticks : bool;
  printf_setpoint : bool;
  printf_u : bool;
  printf_motors : bool;
  printf_mode : bool
}.

Definition set_num_rotors (v : Z) (s : settings_t) : settings_t :=
  let '(Build_settings_t x0 x1 x2 x3 x4 x5 x6 x7 x8 x9 x10 x11 x12 x13 x14 x15
      x16 x17 x18 x19 x20 x21 x22 x23 x24 x25 x26 x27 x28 x29 x30) := s in
  Build_settings_t v x1 x2 x3 x4 x5 x6 x7 x8 x9 x10 x11 x12 x13 x14 x15 x16
    x17 x18 x19 x20 x21 x22 x23 x24 x25 x26 x27 x28 x29 x30.
Definition set_layout (v : rotor_layout_t) (s : settings_t) : settings_t :=
  let '(Build_settings_t x0 x1 x2 x3 x4 x5 x6 x7 x8 x9 x10 x11 x12 x13 x14 x15
      x16 x17 x18 x19 x20 x21 x22 x23 x24 x25 x26 x27 x28 x29 x30) := s in
  Build_settings_t x0 v x2 x3 x4 x5 x6 x7 x8 x9 x10 x11 x12 x13 x14 x15 x16
    x17 x18 x19 x20 x21 x22 x23 x24 x25 x26 x27 x28 x29 x30.
Definition set_thrust_map (v : thrust_map_t) (s : settings_t) : settings_t :=
  let '(Build_settings_t x0 x1 x2 x3 x4 x5 x6 x7 x8 x9 x10 x11 x12 x13 x14 x15
      x16 x17 x18 x19 x20 x21 x22 x23 x24 x25 x26 x27 x28 x29 x30) := s in
  Build_settings_t x0 x1 v x3 x4 x5 x6 x7 x8 x9 x10 x11 x12 x13 x14 x15 x16
    x17 x18 x19 x20 x21 x22 x23 x24 x25 x26 x27 x28 x29 x30.
Definition set_v_nominal (v : float) (s : settings_t) : settings_t :=
  let '(Build_settings_t x0 x1 x2 x3 x4 x5 x6 x7 x8 x9 x10 x11 x12 x13 x14 x15
      x16 x17 x18 x19 x20 x21 x22 x23 x24 x25 x26 x27 x28 x29 x30) := s in
  Build_settings_t x0 x1 x2 v x4 x5 x6 x7 x8 x9 x10 x11 x12 x13 x14 x15 x16
    x17 x18 x19 x20 x21 x22 x23 x24 x25 x26 x27 x28 x29 x30.
Definition set_enable_logging (v : bool) (s : settings_t) : settings_t :=
  let '(Build_settings_t x0 x1 x2 x3 x4 x5 x6 x7 x8 x9 x10 x11 x12 x13 x14 x15
      x16 x17 x18 x19 x20 x21 x22 x23 x24 x25 x26 x27 x28 x29 x30) := s in
  Build_settings_t x0 x1 x2 x3 v x5 x6 x7 x8 x9 x10 x11 x12 x13 x14 x15 x16
    x17 x18 x19 x20 x21 x22 x23 x24 x25 x26 x27 x28 x29 x30.
Definition set_flight_mode_1 (v : flight_mode_t) (s : settings_t) : settings_t :=
  let '(Build_settings_t x0 x1 x2 x3 x4 x5 x6 x7 x8 x9 x10 x11 x12 x13 x14 x15
      x16 x17 x18 x19 x20 x21 x22 x23 x24 x25 x26 x27 x28 x29 x30) := s in
  Build_settings_t x0 x1 x2 x3 x4 v x6 x7 x8 x9 x10 x11 x12 x13 x14 x15 x16
    x17 x18 x19 x20 x21 x22 x23 x24 x25 x26 x27 x28 x29 x30.
Definition set_flight_mode_2 (v : flight_mode_t) (s : settings_t) : settings_t :=
  let '(Build_settings_t x0 x1 x2 x3 x4 x5 x6 x7 x8 x9 x10 x11 x12 x13 x14 x15
      x16 x17 x18 x19 x20 x21 x22 x23 x24 x25 x26 x27 x28 x29 x30) := s in
  Build_settings_t x0 x1 x2 x3 x4 x5 v x7 x8 x9 x10 x11 x12 x13 x14 x15 x16
    x17 x18 x19 x20 x21 x22 x23 x24 x25 x26 x27 x28 x29 x30.
Definition set_flight_mode_3 (v : flight_mode_t) (s : settings_t) : settings_t :=
  let '(Build_settings_t x0 x1 x2 x3 x4 x5 x6 x7 x8 x9 x10 x11 x12 x13 x14 x15
      x16 x17 x18 x19 x20 x21 x22 x23 x24 x25 x26 x27 x28 x29 x30) := s in
  Build_settings_t x0 x1 x2 x3 x4 x5 x6 v x8 x9 x10 x11 x12 x13 x14 x15 x16
    x17 x18 x19 x20 x21 x22 x23 x24 x25 x26 x27 x28 x29 x30.
Definition set_num_dsm_modes (v : Z) (s : settings_t) : settings_t :=
  let '(Build_settings_t x0 x1 x2 x3 x4 x5 x6 x7 x8 x9 x10 x11 x12 x13 x14 x15
      x16 x17 x18 x19 x20 x21 x22 x23 x24 x25 x26 x27 x28 x29 x30) := s in
  Build_settings_t x0 x1 x2 x3 x4 x5 x6 x7 v x9 x10 x11 x12 x13 x14 x15 x16
    x17 x18 x19 x20 x21 x22 x23 x24 x25 x26 x27 x28 x29 x30.
Definition set_dsm_thr_ch (v : Z) (s : settings_t) : settings_t :=
  let '(Build_settings_t x0 x1 x2 x3 x4 x5 x6 x7 x8 x9 x10 x11 x12 x13 x14 x15
      x16 x17 x18 x19 x20 x21 x22 x23 x24 x25 x26 x27 x28 x29 x30) := s in
  Build_settings_t x0 x1 x2 x3 x4 x5 x6 x7 x8 v x10 x11 x12 x13 x14 x15 x16
    x17 x18 x19 x20 x21 x22 x23 x24 x25 x26 x27 x28 x29 x30.
Definition set_dsm_thr_pol (v : Z) (s : settings_t) : settings_t :=
  let '(Build_settings_t x0 x1 x2 x3 x4 x5 x6 x7 x8 x9 x10 x11 x12 x13 x14 x15
      x16 x17 x18 x19 x20 x21 x22 x23 x24 x25 x26 x27 x28 x29 x30) := s in
  Build_settings_t x0 x1 x2 x3 x4 x5 x6 x7 x8 x9 v x11 x12 x13 x14 x15 x16 x17
    x18 x19 x20 x21 x22 x23 x24 x25 x26 x27 x28 x29 x30.
Definition set_dsm_roll_ch (v : Z) (s : settings_t) : settings_t :=
  let '(Build_settings_t x0 x1 x2 x3 x4 x5 x6 x7 x8 x9 x10 x11 x12 x13 x14 x15
      x16 x17 x18 x19 x20 x21 x22 x23 x24 x25 x26 x27 x28 x29 x30) := s in
  Build_settings_t x0 x1 x2 x3 x4 x5 x6 x7 x8 x9 x10 v x12 x13 x14 x15 x16 x17
    x18 x19 x20 x21 x22 x23 x24 x25 x26 x27 x28 x29 x30.
Definition set_dsm_roll_pol (v : Z) (s : settings_t) : settings_t :=
  let '(Build_settings_t x0 x1 x2 x3 x4 x5 x6 x7 x8 x9 x10 x11 x12 x13 x14 x15
      x16 x17 x18 x19 x20 x21 x22 x23 x24 x25 x26 x27 x28 x29 x30) := s in
  Build_settings_t x0 x1 x2 x3 x4 x5 x6 x7 x8 x9 x10 x11 v x13 x14 x15 x16 x17
    x18 x19 x20 x21 x22 x23 x24 x25 x26 x27 x28 x29 x30.
Definition set_dsm_pitch_ch (v : Z) (s : settings_t) : settings_t :=
  let '(Build_settings_t x0 x1 x2 x3 x4 x5 x6 x7 x8 x9 x10 x11 x12 x13 x14 x15
      x16 x17 x18 x19 x20 x21 x22 x23 x24 x25 x26 x27 x28 x29 x30) := s in
  Build_settings_t x0 x1 x2 x3 x4 x5 x6 x7 x8 x9 x10 x11 x12 v x14 x15 x16 x17
    x18 x19 x20 x21 x22 x23 x24 x25 x26 x27 x28 x29 x30.
Definition set_dsm_pitch_pol (v : Z) (s : settings_t) : settings_t :=
  let '(Build_settings_t x0 x1 x2 x3 x4 x5 x6 x7 x8 x9 x10 x11 x12 x13 x14 x15
      x16 x17 x18 x19 x20 x21 x22 x23 x24 x25 x26 x27 x28 x29 x30) := s in
  Build_settings_t x0 x1 x2 x3 x4 x5 x6 x7 x8 x9 x10 x11 x12 x13 v x15 x16 x17
    x18 x19 x20 x21 x22 x23 x24 x25 x26 x27 x28 x29 x30.
Definition set_dsm_yaw_ch (v : Z) (s : settings_t) : settings_t :=
  let '(Build_settings_t x0 x1 x2 x3 x4 x5 x6 x7 x8 x9 x10 x11 x12 x13 x14 x15
      x16 x17 x18 x19 x20 x21 x22 x23 x24 x25 x26 x27 x28 x29 x30) := s in
  Build_settings_t x0 x1 x2 x3 x4 x5 x6 x7 x8 x9 x10 x11 x12 x13 x14 v x16 x17
    x18 x19 x20 x21 x22 x23 x24 x25 x26 x27 x28 x29 x30.
Definition set_dsm_yaw_pol (v : Z) (s : settings_t) : settings_t :=
  let '(Build_settings_t x0 x1 x2 x3 x4 x5 x6 x7 x8 x9 x10 x11 x12 x13 x14 x15
      x16 x17 x18 x19 x20 x21 x22 x23 x24 x25 x26 x27 x28 x29 x30) := s in
  Build_settings_t x0 x1 x2 x3 x4 x5 x6 x7 x8 x9 x10 x11 x12 x13 x14 x15 v x17
    x18 x19 x20 x21 x22 x23 x24 x25 x26 x27 x28 x29 x30.
Definition set_dsm_mode_ch (v : Z) (s : settings_t) : settings_t :=
  let '(Build_settings_t x0 x1 x2 x3 x4 x5 x6 x7 x8 x9 x10 x11 x12 x13 x14 x15
      x16 x17 x18 x19 x20 x21 x22 x23 x24 x25 x26 x27 x28 x29 x30) := s in
  Build_settings_t x0 x1 x2 x3 x4 x5 x6 x7 x8 x9 x10 x11 x12 x13 x14 x15 x16 v
    x18 x19 x20 x21 x22 x23 x24 x25 x26 x27 x28 x29 x30.
Definition set_dsm_mode_pol (v : Z) (s : settings_t) : settings_t :=
  let '(Build_settings_t x0 x1 x2 x3 x4 x5 x6 x7 x8 x9 x10 x11 x12 x13 x14 x15
      x16 x17 x18 x19 x20 x21 x22 x23 x24 x25 x26 x27 x28 x29 x30) := s in
  Build_settings_t x0 x1 x2 x3 x4 x5 x6 x7 x8 x9 x10 x11 x12 x13 x14 x15 x16
    x17 v x19 x20 x21 x22 x23 x24 x25 x26 x27 x28 x29 x30.
Definition set_dsm_kill_mode (v : dsm_kill_mode_t) (s : settings_t) : settings_t :=
  let '(Build_settings_t x0 x1 x2 x3 x4 x5 x6 x7 x8 x9 x10 x11 x12 x13 x14 x15
      x16 x17 x18 x19 x20 x21 x22 x23 x24 x25 x26 x27 x28 x29 x30) := s in
  Build_settings_t x0 x1 x2 x3 x4 x5 x6 x7 x8 x9 x10 x11 x12 x13 x14 x15 x16
    x17 x18 v x20 x21 x22 x23 x24 x25 x26 x27 x28 x29 x30.
Definition set_dsm_kill_ch (v : Z) (s : settings_t) : settings_t :=
  let '(Build_settings_t x0 x1 x2 x3 x4 x5 x6 x7 x8 x9 x10 x11 x12 x13 x14 x15
      x16 x17 x18 x19 x20 x21 x22 x23 x24 x25 x26 x27 x28 x29 x30) := s in
  Build_settings_t x0 x1 x2 x3 x4 x5 x6 x7 x8 x9 x10 x11 x12 x13 x14 x15 x16
    x17 x18 x19 v x21 x22 x23 x24 x25 x26 x27 x28 x29 x30.
Definition set_dsm_kill_pol (v : Z) (s : settings_t) : settings_t :=
  let '(Build_settings_t x0 x1 x2 x3 x4 x5 x6 x7 x8 x9 x10 x11 x12 x13 x14 x15
      x16 x17 x18 x19 x20 x21 x22 x23 x24 x25 x26 x27 x28 x29 x30) := s in
  Build_settings_t x0 x1 x2 x3 x4 x5 x6 x7 x8 x9 x10 x11 x12 x13 x14 x15 x16
    x17 x18 x19 x20 v x22 x23 x24 x25 x26 x27 x28 x29 x30.
Definition set_feedback_hz (v : Z) (s : settings_t) : settings_t :=
  let '(Build_settings_t x0 x1 x2 x3 x4 x5 x6 x7 x8 x9 x10 x11 x12 x13 x14 x15
      x16 x17 x18 x19 x20 x21 x22 x23 x24 x25 x26 x27 x28 x29 x30) := s in
  Build_settings_t x0 x1 x2 x3 x4 x5 x6 x7 x8 x9 x10 x11 x12 x13 x14 x15 x16
    x17 x18 x19 x20 x21 v x23 x24 x25 x26 x27 x28 x29 x30.
Definition set_printf_arm (v : bool) (s : settings_t) : settings_t :=
  let '(Build_settings_t x0 x1 x2 x3 x4 x5 x6 x7 x8 x9 x10 x11 x12 x13 x14 x15
      x16 x17 x18 x19 x20 x21 x22 x23 x24 x25 x26 x27 x28 x29 x30) := s in
  Build_settings_t x0 x1 x2 x3 x4 x5 x6 x7 x8 x9 x10 x11 x12 x13 x14 x15 x16
    x17 x18 x19 x20 x21 x22 v x24 x25 x26 x27 x28 x29 x30.
Definition set_printf_altitude (v : bool) (s : settings_t) : settings_t :=
  let '(Build_settings_t x0 x1 x2 x3 x4 x5 x6 x7 x8 x9 x10 x11 x12 x13 x14 x15
      x16 x17 x18 x19 x20 x21 x22 x23 x24 x25 x26 x27 x28 x29 x30) := s in
  Build_settings_t x0 x1 x2 x3 x4 x5 x6 x7 x8 x9 x10 x11 x12 x13 x14 x15 x16
    x17 x18 x19 x20 x21 x22 x23 v x25 x26 x27 x28 x29 x30.
Definition set_printf_rpy (v : bool) (s : settings_t) : settings_t :=
  let '(Build_settings_t x0 x1 x2 x3 x4 x5 x6 x7 x8 x9 x10 x11 x12 x13 x14 x15
      x16 x17 x18 x19 x20 x21 x22 x23 x24 x25 x26 x27 x28 x29 x30) := s in
  Build_settings_t x0 x1 x2 x3 x4 x5 x6 x7 x8 x9 x10 x11 x12 x13 x14 x15 x16
    x17 x18 x19 x20 x21 x22 x23 x24 v x26 x27 x28 x29 x30.
Definition set_printf_sticks (v : bool) (s : settings_t) : settings_t :=
  let '(Build_settings_t x0 x1 x2 x3 x4 x5 x6 x7 x8 x9 x10 x11 x12 x13 x14 x15
      x16 x17 x18 x19 x20 x21 x22 x23 x24 x25 x26 x27 x28 x29 x30) := s in
  Build_settings_t x0 x1 x2 x3 x4 x5 x6 x7 x8 x9 x10 x11 x12 x13 x14 x15 x16
    x17 x18 x19 x20 x21 x22 x23 x24 x25 v x27 x28 x29 x30.
Definition set_printf_setpoint (v : bool) (s : settings_t) : settings_t :=
  let '(Build_settings_t x0 x1 x2 x3 x4 x5 x6 x7 x8 x9 x10 x11 x12 x13 x14 x15
      x16 x17 x18 x19 x20 x21 x22 x23 x24 x25 x26 x27 x28 x29 x30) := s in
  Build_settings_t x0 x1 x2 x3 x4 x5 x6 x7 x8 x9 x10 x11 x12 x13 x14 x15 x16
    x17 x18 x19 x20 x21 x22 x23 x24 x25 x26 v x28 x29 x30.
Definition set_printf_u (v : bool) (s : settings_t) : settings_t :=
  let '(Build_settings_t x0 x1 x2 x3 x4 x5 x6 x7 x8 x9 x10 x11 x12 x13 x14 x15
      x16 x17 x18 x19 x20 x21 x22 x23 x24 x25 x26 x27 x28 x29 x30) := s in
  Build_settings_t x0 x1 x2 x3 x4 x5 x6 x7 x8 x9 x10 x11 x12 x13 x14 x15 x16
    x17 x18 x19 x20 x21 x22 x23 x24 x25 x26 x27 v x29 x30.
Definition set_printf_motors (v : bool) (s : settings_t) : settings_t :=
  let '(Build_settings_t x0 x1 x2 x3 x4 x5 x6 x7 x8 x9 x10 x11 x12 x13 x14 x15
      x16 x17 x18 x19 x20 x21 x22 x23 x24 x25 x26 x27 x28 x29 x30) := s in
  Build_settings_t x0 x1 x2 x3 x4 x5 x6 x7 x8 x9 x10 x11 x12 x13 x14 x15 x16
    x17 x18 x19 x20 x21 x22 x23 x24 x25 x26 x27 x28 v x30.
Definition set_printf_mode (v : bool) (s : settings_t) : settings_t :=
  let '(Build_settings_t x0 x1 x2 x3 x4 x5 x6 x7 x8 x9 x10 x11 x12 x13 x14 x15
      x16 x17 x18 x19 x20 x21 x22 x23 x24 x25 x26 x27 x28 x29 x30) := s in
  Build_settings_t x0 x1 x2 x3 x4 x5 x6 x7 x8 x9 x10 x11 x12 x13 x14 x15 x16
    x17 x18 x19 x20 x21 x22 x23 x24 x25 x26 x27 x28 x29 v.

Section WithRcFilter.
Context {L : RcFilterLib}.

(** The objects of file scope in settings.c, and the settings file on
    disk: [SETTINGS_FILE] is [None] while the file does not exist and
    otherwise what [json_object_from_file] makes of it ([JNull] when it
    cannot be read or parsed). *)
Record state : Type := Build_state {
  jobj : json_object;
  settings : settings_t;
  roll_controller : rc_filter_t;
  pitch_controller : rc_filter_t;
  yaw_controller : rc_filter_t;
  altitude_controller : rc_filter_t;
  was_load_successful : Z;
  SETTINGS_FILE : option json_object
}.

Definition set_jobj (v : json_object) (st : state) : state :=
  Build_state v (settings st) (roll_controller st) (pitch_controller st)
    (yaw_controller st) (altitude_controller st) (was_load_successful st)
    (SETTINGS_FILE st).

Definition set_settings (v : settings_t) (st : state) : state :=
  Build_state (jobj st) v (roll_controller st) (pitch_controller st)
    (yaw_controller st) (altitude_controller st) (was_load_successful st)
    (SETTINGS_FILE st).

Definition set_roll_controller (v : rc_filter_t) (st : state) : state :=
  Build_state (jobj st) (settings st) v (pitch_controller st)
    (yaw_controller st) (altitude_controller st) (was_load_successful st)
    (SETTINGS_FILE st).

Definition set_pitch_controller (v : rc_filter_t) (st : state) : state :=
  Build_state (jobj st) (settings st) (roll_controller st) v
    (yaw_controller st) (altitude_controller st) (was_load_successful st)
    (SETTINGS_FILE st).

Definition set_yaw_controller (v : rc_filter_t) (st : state) : state :=
  Build_state (jobj st) (settings st) (roll_controller st)
    (pitch_controller st) v (altitude_controller st)
    (was_load_successful st) (SETTINGS_FILE st).

Definition set_altitude_controller (v : rc_filter_t) (st : state) : state :=
  Build_state (jobj st) (settings st) (roll_controller st)
    (pitch_controller st) (yaw_controller st) v (was_load_successful st)
    (SETTINGS_FILE st).

Definition set_was_load_successful (v : Z) (st : state) : state :=
  Build_state (jobj st) (settings st) (roll_controller st)
    (pitch_controller st) (yaw_controller st) (altitude_controller st) v
    (SETTINGS_FILE st).

Definition set_SETTINGS_FILE (v : option json_object) (st : state) : state :=
  Build_state (jobj st) (settings st) (roll_controller st)
    (pitch_controller st) (yaw_controller st) (altitude_controller st)
    (was_load_successful st) v.

(** [settings.name = v;] *)
Definition assign (set : settings_t -> settings_t) : stmt state unit :=
  modify (fun st => set_settings (set (settings st)) st).

(** What the environment decides during one call of
    [settings_load_from_file]: the result of [json_object_to_file_ext];
    what a write that failed leaves on disk, as [json_object_from_file]
    would read it back (nothing when the file could not be created, else
    what stands in a file that was created, truncated and written in
    part); and the values the callers of [__parse_layout],
    [__parse_thrust_map] and [__parse_kill_mode] read when those
    functions reach their closing brace without a [return]. *)
Record env : Type := Build_env {
  to_file_ext_result : Z;
  left_by_failed_write : option json_object;
  parse_layout_falls_off : Z;
  parse_thrust_map_falls_off : Z;
  parse_kill_mode_falls_off : Z
}.

(** [#define PARSE_BOOL(name)]: [name] is the key [#name]; [set] is the
    assignment to [settings.name]. *)
Definition PARSE_BOOL (name : string) (set : bool -> settings_t -> settings_t)
  : stmt state unit :=
  obj <- gets jobj ;;
  match json_object_object_get_ex obj name with
  | None => c_return (-1)
  | Some tmp =>
      if json_object_is_type tmp json_type_boolean then
        assign (set (json_object_get_boolean tmp))
      else c_return (-1)
  end.

(** [#define PARSE_INT(name)] *)
Definition PARSE_INT (name : string) (set : Z -> settings_t -> settings_t)
  : stmt state unit :=
  obj <- gets jobj ;;
  match json_object_object_get_ex obj name with
  | None => c_return (-1)
  | Some tmp =>
      if json_object_is_type tmp json_type_int then
        assign (set (json_object_get_int tmp))
      else c_return (-1)
  end.

(** [#define PARSE_INT_MIN_MAX(name,min,max)]: the member is assigned
    before its range is checked. *)
Definition PARSE_INT_MIN_MAX (name : string)
  (set : Z -> settings_t -> settings_t) (min max : Z) : stmt state unit :=
  obj <- gets jobj ;;
  match json_object_object_get_ex obj name with
  | None => c_return (-1)
  | Some tmp =>
      if json_object_is_type tmp json_type_int then
        let v := json_object_get_int tmp in
        assign (set v) ;;
        c_if ((v <? min) || (max <? v)) (c_return (-1))
      else c_return (-1)
  end.

(** [#define PARSE_POLARITY(name)] *)
Definition PARSE_POLARITY (name : string)
  (set : Z -> settings_t -> settings_t) : stmt state unit :=
  obj <- gets jobj ;;
  match json_object_object_get_ex obj name with
  | None => c_return (-1)
  | Some tmp =>
      if json_object_is_type tmp json_type_int then
        let v := json_object_get_int tmp in
        assign (set v) ;;
        c_if (negb (v =? -1) && negb (v =? 1)) (c_return (-1))
      else c_return (-1)
  end.

(** [#define PARSE_DOUBLE_MIN_MAX(name,min,max)]: whatever [name] is, the
    macro assigns and checks [settings.v_nominal]. *)
Definition PARSE_DOUBLE_MIN_MAX (name : string) (min max : float)
  : stmt state unit :=
  obj <- gets jobj ;;
  match json_object_object_get_ex obj name with
  | None => c_return (-1)
  | Some tmp =>
      if json_object_is_type tmp json_type_double then
        let v := json_object_get_double tmp in
        assign (set_v_nominal v) ;;
        c_if (PrimFloat.ltb v min || PrimFloat.ltb max v) (c_return (-1))
      else c_return (-1)
  end.

(** [int __parse_layout()]: no [return] on the paths that accept the
    layout string. *)
Definition __parse_layout (e : env) : state -> Z * state :=
  fn_falls_off
    (obj <- gets jobj ;;
     match json_object_object_get_ex obj "layout" with
     | None => c_return (-1)
     | Some tmp =>
         if json_object_is_type tmp json_type_string then
           let tmp_str := json_object_get_string tmp in
           if strcmp tmp_str "LAYOUT_6DOF_ROTORBITS" =? 0 then
             assign (set_num_rotors 6) ;;
             assign (set_layout LAYOUT_6DOF_ROTORBITS)
           else if strcmp tmp_str "LAYOUT_4X" =? 0 then
             assign (set_num_rotors 4) ;;
             assign (set_layout LAYOUT_4X)
           else if strcmp tmp_str "LAYOUT_4PLUS" =? 0 then
             assign (set_num_rotors 4) ;;
             assign (set_layout LAYOUT_4PLUS)
           else if strcmp tmp_str "LAYOUT_6X" =? 0 then
             assign (set_num_rotors 6) ;;
             assign (set_layout LAYOUT_6X)
           else if strcmp tmp_str "LAYOUT_8X" =? 0 then
             assign (set_num_rotors 8) ;;
             assign (set_layout LAYOUT_8X)
           else c_return (-1)
         else c_return (-1)
     end)
    (parse_layout_falls_off e).

(** [int __parse_thrust_map()]: as above, no [return] on success. *)
Definition __parse_thrust_map (e : env) : state -> Z * state :=
  fn_falls_off
    (obj <- gets jobj ;;
     match json_object_object_get_ex obj "thrust_map" with
     | None => c_return (-1)
     | Some tmp =>
         if json_object_is_type tmp json_type_string then
           let tmp_str := json_object_get_string tmp in
           if strcmp tmp_str "MN1806_1400KV_4S" =? 0 then
             assign (set_thrust_map MN1806_1400KV_4S)
           else if strcmp tmp_str "F20_2300KV_2S" =? 0 then
             assign (set_thrust_map F20_2300KV_2S)
           else if strcmp tmp_str "RX2206_4S" =? 0 then
             assign (set_thrust_map RX2206_4S)
           else c_return (-1)
         else c_return (-1)
     end)
    (parse_thrust_map_falls_off e).

(** [int __parse_flight_mode(json_object* jobj_str, flight_mode_t* mode)]:
    the result and the object [mode] points to. *)
Definition __parse_flight_mode (jobj_str : json_object)
  : flight_mode_t -> Z * flight_mode_t :=
  fn
    (if json_object_is_type jobj_str json_type_string then
       let tmp_str := json_object_get_string jobj_str in
       (if strcmp tmp_str "TEST_BENCH_4DOF" =? 0 then
          modify (fun _ => TEST_BENCH_4DOF)
        else if strcmp tmp_str "TEST_BENCH_6DOF" =? 0 then
          modify (fun _ => TEST_BENCH_6DOF)
        else if strcmp tmp_str "DIRECT_THROTTLE_4DOF" =? 0 then
          modify (fun _ => DIRECT_THROTTLE_4DOF)
        else if strcmp tmp_str "DIRECT_THROTTLE_6DOF" =? 0 then
          modify (fun _ => DIRECT_THROTTLE_6DOF)
        else if strcmp tmp_str "ALT_HOLD_4DOF" =? 0 then
          modify (fun _ => ALT_HOLD_4DOF)
        else if strcmp tmp_str "ALT_HOLD_6DOF" =? 0 then
          modify (fun _ => ALT_HOLD_6DOF)
        else c_return (-1)) ;;
       c_return 0
     else c_return (-1)).

(** [int __parse_kill_mode()]: no [return] on success; both accepted
    strings store [DSM_KILL_DEDICATED_SWITCH]. *)
Definition __parse_kill_mode (e : env) : state -> Z * state :=
  fn_falls_off
    (obj <- gets jobj ;;
     match json_object_object_get_ex obj "dsm_kill_mode" with
     | None => c_return (-1)
     | Some tmp =>
         if json_object_is_type tmp json_type_string then
           let tmp_str := json_object_get_string tmp in
           if strcmp tmp_str "DSM_KILL_DEDICATED_SWITCH" =? 0 then
             assign (set_dsm_kill_mode DSM_KILL_DEDICATED_SWITCH)
           else if strcmp tmp_str "DSM_KILL_NEGATIVE_THROTTLE" =? 0 then
             assign (set_dsm_kill_mode DSM_KILL_DEDICATED_SWITCH)
           else c_return (-1)
         else c_return (-1)
     end)
    (parse_kill_mode_falls_off e).

(** The two [for] loops of [__parse_controller]: [n] iterations are left,
    [i] is the index; [None] when an entry is not a double, on which the
    function returns -1. *)
Fixpoint read_doubles (array : json_object) (n i : nat) (vec : rc_vector_t)
  : option rc_vector_t :=
  match n with
  | O => Some vec
  | S n' =>
      let tmp := json_object_array_get_idx array i in
      if json_object_is_type tmp json_type_double then
        read_doubles array n' (S i)
          (vector_store vec i (json_object_get_double tmp))
      else None
  end.

(** [int __parse_controller(json_object* jobj_ctl, rc_filter_t* filter,
    int feedback_hz)]: the result and the object [filter] points to.  The
    value read from "gain" is overwritten before any use, so only the
    presence of the key matters; the type check on it is commented out in
    the source. *)
Definition __parse_controller (jobj_ctl : json_object) (feedback_hz : Z)
  : rc_filter_t -> Z * rc_filter_t :=
  fn
    (let dt := PrimFloat.div 1%float (double_of_int feedback_hz) in
     modify rc_filter_free ;;
     match json_object_object_get_ex jobj_ctl "gain" with
     | None => c_return (-1)
     | Some _ =>
     match json_object_object_get_ex jobj_ctl "numerator" with
     | None => c_return (-1)
     | Some array =>
     if negb (json_object_is_type array json_type_array) then c_return (-1)
     else
     let num_len := json_object_array_length array in
     if num_len <? 1 then c_return (-1) else
     match read_doubles array (Z.to_nat num_len) 0 (rc_vector_alloc num_len)
     with
     | None => c_return (-1)
     | Some num_vec =>
     match json_object_object_get_ex jobj_ctl "denominator" with
     | None => c_return (-1)
     | Some array =>
     if negb (json_object_is_type array json_type_array) then c_return (-1)
     else
     let den_len := json_object_array_length array in
     if den_len <? 1 then c_return (-1) else
     match read_doubles array (Z.to_nat den_len) 0 (rc_vector_alloc den_len)
     with
     | None => c_return (-1)
     | Some den_vec =>
     if den_len <? num_len then c_return (-1) else
     match json_object_object_get_ex jobj_ctl "CT_or_DT" with
     | None => c_return (-1)
     | Some tmp =>
     if negb (json_object_is_type tmp json_type_string) then c_return (-1)
     else
     let tmp_str := json_object_get_string tmp in
     (if strcmp tmp_str "CT" =? 0 then
        match
          json_object_object_get_ex jobj_ctl "crossover_freq_rad_per_sec"
        with
        | None => c_return (-1)
        | Some tmp =>
            if json_object_is_type tmp json_type_double then
              let tmp_flt := json_object_get_double tmp in
              r <- call (rc_filter_c2d_tustin dt num_vec den_vec tmp_flt) ;;
              c_if (negb (r =? 0)) (c_return (-1))
            else c_return (-1)
        end
      else if strcmp tmp_str "DT" =? 0 then
        r <- call (rc_filter_alloc num_vec den_vec dt) ;;
        c_if (negb (r =? 0)) (c_return (-1))
      else c_return (-1)) ;;
     c_return 0
     end end end end end end).

(** [json_object_to_file_ext(SETTINGS_FILE, jobj, flags)]: when it
    succeeds the file holds [jobj].  The function creates and truncates
    the file before it writes, so a call that fails need not leave the
    disk as it found it. *)
Definition json_object_to_file_ext (e : env) : stmt state Z :=
  fun st =>
    (Next (to_file_ext_result e),
     set_SETTINGS_FILE
       (if to_file_ext_result e =? 0
        then Some (jobj st)
        else left_by_failed_write e) st).

(** [int __write_settings_to_disk()] *)
Definition __write_settings_to_disk (e : env) : state -> Z * state :=
  fn
    (out <- json_object_to_file_ext e ;;
     c_if (negb (out =? 0)) (c_return (-1)) ;;
     c_return 0).

(** The numerator and the denominator array every default controller
    gets: one [json_object_array_add], two [json_object_array_put_idx]. *)
Definition default_coefficients : json_object :=
  let array := json_object_new_array in
  let array := json_object_array_add array (json_object_new_double 0.1) in
  let array := json_object_array_put_idx array 1 (json_object_new_double 0.2) in
  let array := json_object_array_put_idx array 2 (json_object_new_double 0.3) in
  array.

(** The four blocks "roll controller" ... "altitude controller" of
    [__load_default_settings] differ only in the crossover frequency. *)
Definition default_controller (crossover : float) : json_object :=
  let tmp2 := json_object_new_object in
  let tmp2 := json_object_object_add tmp2 "gain" (json_object_new_double 1) in
  let tmp2 := json_object_object_add tmp2 "CT_or_DT"
                (json_object_new_string "CT") in
  let tmp2 := json_object_object_add tmp2 "crossover_freq_rad_per_sec"
                (json_object_new_double crossover) in
  let tmp2 := json_object_object_add tmp2 "numerator" default_coefficients in
  let tmp2 := json_object_object_add tmp2 "denominator" default_coefficients in
  tmp2.

(** The object [__load_default_settings] builds, one
    [json_object_object_add] per line in source order. *)
Definition default_settings : json_object :=
  fold_left (fun o kv => json_object_object_add o (fst kv) (snd kv))
    [ ("layout", json_object_new_string "LAYOUT_6DOF_ROTORBITS");
      ("thrust_map", json_object_new_string "RX2206_4S");
      ("orientation", json_object_new_string "ORIENTATION_X_FORWARD");
      ("v_nominal", json_object_new_double 7.4);
      ("feedback_hz", json_object_new_int 100);
      ("enable_logging", json_object_new_boolean false);
      ("num_dsm_modes", json_object_new_int 3);
      ("flight_mode_1", json_object_new_string "TEST_BENCH_4DOF");
      ("flight_mode_2", json_object_new_string "TEST_BENCH_6DOF");
      ("flight_mode_3", json_object_new_string "DIRECT_THROTTLE_4DOF");
      ("dsm_thr_ch", json_object_new_int 1);
      ("dsm_thr_pol", json_object_new_int 1);
      ("dsm_roll_ch", json_object_new_int 2);
      ("dsm_roll_pol", json_object_new_int 1);
      ("dsm_pitch_ch", json_object_new_int 3);
      ("dsm_pitch_pol", json_object_new_int 1);
      ("dsm_yaw_ch", json_object_new_int 4);
      ("dsm_yaw_pol", json_object_new_int 1);
      ("dsm_mode_ch", json_object_new_int 5);
      ("dsm_mode_pol", json_object_new_int 1);
      ("dsm_kill_mode", json_object_new_string "DSM_KILL_NEGATIVE_THROTTLE");
      ("dsm_kill_ch", json_object_new_int 6);
      ("dsm_kill_pol", json_object_new_int 1);
      ("printf_arm", json_object_new_boolean true);
      ("printf_altitude", json_object_new_boolean false);
      ("printf_rpy", json_object_new_boolean false);
      ("printf_sticks", json_object_new_boolean false);
      ("printf_setpoint", json_object_new_boolean true);
      ("printf_u", json_object_new_boolean false);
      ("printf_motors", json_object_new_boolean false);
      ("printf_mode", json_object_new_boolean true);
      ("roll_controller", default_controller 6.283);
      ("pitch_controller", default_controller 6.283);
      ("yaw_controller", default_controller 3.141);
      ("altitude_controller", default_controller 0.6283) ]
    json_object_new_object.

(** [int __load_default_settings()] *)
Definition __load_default_settings : state -> Z * state :=
  fn
    (modify (set_jobj default_settings) ;;
     c_return 0).

(** [__parse_controller(tmp, &c, settings.feedback_hz)] for each of the
    four file-scope controllers. *)
Definition parse_roll_controller (tmp : json_object) : state -> Z * state :=
  fun st =>
    let (r, c) :=
      __parse_controller tmp (feedback_hz (settings st)) (roll_controller st)
    in (r, set_roll_controller c st).

Definition parse_pitch_controller (tmp : json_object) : state -> Z * state :=
  fun st =>
    let (r, c) :=
      __parse_controller tmp (feedback_hz (settings st)) (pitch_controller st)
    in (r, set_pitch_controller c st).

Definition parse_yaw_controller (tmp : json_object) : state -> Z * state :=
  fun st =>
    let (r, c) :=
      __parse_controller tmp (feedback_hz (settings st)) (yaw_controller st)
    in (r, set_yaw_controller c st).

Definition parse_altitude_controller (tmp : json_object)
  : state -> Z * state :=
  fun st =>
    let (r, c) :=
      __parse_controller tmp (feedback_hz (settings st))
        (altitude_controller st)
    in (r, set_altitude_controller c st).

(** [__parse_flight_mode(tmp, &settings.flight_mode_N)] *)
Definition parse_flight_mode_into (tmp : json_object)
  (member : settings_t -> flight_mode_t)
  (set : flight_mode_t -> settings_t -> settings_t) : state -> Z * state :=
  fun st =>
    let (r, mode) := __parse_flight_mode tmp (member (settings st)) in
    (r, set_settings (set mode (settings st)) st).

(** The body of [settings_load_from_file], cut at its comments into the
    blocks below; [settings_load_from_file] runs them in order. *)

(** "// read in file contents".  In the branch for a missing file the
    statement [if(__write_settings_to_disk()!=0) -1;] evaluates the
    constant [-1] and discards it. *)
Definition read_in_file_contents (e : env) : stmt state unit :=
  on_disk <- gets SETTINGS_FILE ;;
  match on_disk with
  | None =>
      _ <- call __load_default_settings ;;
      r <- call (__write_settings_to_disk e) ;;
      c_if (negb (r =? 0)) (ret tt)
  | Some file =>
      modify (set_jobj file) ;;
      c_if (json_object_is_type file json_type_null) (c_return (-1))
  end.

(** "// start parsing data": layout, thrust map, nominal voltage. *)
Definition parse_physical (e : env) : stmt state unit :=
  r <- call (__parse_layout e) ;;
  c_if (r =? -1) (c_return (-1)) ;;
  r <- call (__parse_thrust_map e) ;;
  c_if (r =? -1) (c_return (-1)) ;;
  PARSE_DOUBLE_MIN_MAX "v_nominal" 7.0 18.0.

(** "// parse enable_logging" *)
Definition parse_enable_logging : stmt state unit :=
  obj <- gets jobj ;;
  match json_object_object_get_ex obj "enable_logging" with
  | None => c_return (-1)
  | Some tmp =>
      if json_object_is_type tmp json_type_boolean then
        assign (set_enable_logging (json_object_get_boolean tmp))
      else c_return (-1)
  end.

(** "// parse flight_mode_1" to "// parse flight_mode_3" *)
Definition parse_flight_mode_N (key : string)
  (member : settings_t -> flight_mode_t)
  (set : flight_mode_t -> settings_t -> settings_t) : stmt state unit :=
  obj <- gets jobj ;;
  match json_object_object_get_ex obj key with
  | None => c_return (-1)
  | Some tmp =>
      r <- call (parse_flight_mode_into tmp member set) ;;
      c_if (negb (r =? 0)) (c_return (-1))
  end.

Definition parse_flight_modes : stmt state unit :=
  parse_flight_mode_N "flight_mode_1" flight_mode_1 set_flight_mode_1 ;;
  parse_flight_mode_N "flight_mode_2" flight_mode_2 set_flight_mode_2 ;;
  parse_flight_mode_N "flight_mode_3" flight_mode_3 set_flight_mode_3.

(** "// parse DSM config" *)
Definition parse_DSM_config (e : env) : stmt state unit :=
  PARSE_INT_MIN_MAX "num_dsm_modes" set_num_dsm_modes 1 3 ;;
  PARSE_INT_MIN_MAX "dsm_thr_ch" set_dsm_thr_ch 1 9 ;;
  PARSE_POLARITY "dsm_thr_pol" set_dsm_thr_pol ;;
  PARSE_INT_MIN_MAX "dsm_roll_ch" set_dsm_roll_ch 1 9 ;;
  PARSE_POLARITY "dsm_roll_pol" set_dsm_roll_pol ;;
  PARSE_INT_MIN_MAX "dsm_pitch_ch" set_dsm_pitch_ch 1 9 ;;
  PARSE_POLARITY "dsm_pitch_pol" set_dsm_pitch_pol ;;
  PARSE_INT_MIN_MAX "dsm_yaw_ch" set_dsm_yaw_ch 1 9 ;;
  PARSE_POLARITY "dsm_yaw_pol" set_dsm_yaw_pol ;;
  PARSE_INT_MIN_MAX "dsm_mode_ch" set_dsm_mode_ch 1 9 ;;
  PARSE_POLARITY "dsm_mode_pol" set_dsm_mode_pol ;;
  r <- call (__parse_kill_mode e) ;;
  c_if (r =? -1) (c_return (-1)) ;;
  PARSE_INT_MIN_MAX "dsm_kill_ch" set_dsm_kill_ch 1 9 ;;
  PARSE_POLARITY "dsm_kill_pol" set_dsm_kill_pol.

(** "// parse feedback_hz" *)
Definition parse_feedback_hz : stmt state unit :=
  PARSE_INT "feedback_hz" set_feedback_hz ;;
  hz <- gets (fun st => feedback_hz (settings st)) ;;
  c_if (negb (hz =? 50) && negb (hz =? 100) && negb (hz =? 200))
    (c_return (-1)).

(** "// parse printf options" *)
Definition parse_printf_options : stmt state unit :=
  PARSE_BOOL "printf_arm" set_printf_arm ;;
  PARSE_BOOL "printf_altitude" set_printf_altitude ;;
  PARSE_BOOL "printf_rpy" set_printf_rpy ;;
  PARSE_BOOL "printf_sticks" set_printf_sticks ;;
  PARSE_BOOL "printf_setpoint" set_printf_setpoint ;;
  PARSE_BOOL "printf_u" set_printf_u ;;
  PARSE_BOOL "printf_motors" set_printf_motors ;;
  PARSE_BOOL "printf_mode" set_printf_mode.

(** "// parse roll controller" to "// parse altitude controller" *)
Definition parse_controller_N (key : string)
  (parse : json_object -> state -> Z * state) : stmt state unit :=
  obj <- gets jobj ;;
  match json_object_object_get_ex obj key with
  | None => c_return (-1)
  | Some tmp =>
      r <- call (parse tmp) ;;
      c_if (negb (r =? 0)) (c_return (-1))
  end.

Definition parse_controllers : stmt state unit :=
  parse_controller_N "roll_controller" parse_roll_controller ;;
  parse_controller_N "pitch_controller" parse_pitch_controller ;;
  parse_controller_N "yaw_controller" parse_yaw_controller ;;
  parse_controller_N "altitude_controller" parse_altitude_controller.

(** Everything from "// parse flight_mode_1" to the final [return 0;].
    [json_object_put(jobj)] releases the object; the pointer [jobj]
    itself is left as it is. *)
Definition after_enable_logging (e : env) : stmt state Empty_set :=
  parse_flight_modes ;;
  parse_DSM_config e ;;
  parse_feedback_hz ;;
  parse_printf_options ;;
  parse_controllers ;;
  modify (set_was_load_successful 1) ;;
  c_return 0.

(** Everything from "// start parsing data" to the final [return 0;]. *)
Definition start_parsing_data (e : env) : stmt state Empty_set :=
  parse_physical e ;;
  parse_enable_logging ;;
  after_enable_logging e.

(** [int settings_load_from_file()] *)
Definition settings_load_from_file (e : env) : state -> Z * state :=
  fn
    (modify (set_was_load_successful 0) ;;
     read_in_file_contents e ;;
     start_parsing_data e).

(** [int settings_get(settings_t* set)]: the result and the object [set]
    points to. *)
Definition settings_get (st : state) : settings_t -> Z * settings_t :=
  fn
    (c_if (was_load_successful st =? 0) (c_return (-1)) ;;
     modify (fun _ => settings st) ;;
     c_return 0).

(** [int settings_get_roll_controller(rc_filter_t* ctrl)] and its three
    siblings: the result and the object [ctrl] points to. *)
Definition settings_get_roll_controller (st : state)
  : rc_filter_t -> Z * rc_filter_t :=
  fn
    (c_if (was_load_successful st =? 0) (c_return (-1)) ;;
     modify (fun _ => roll_controller st) ;;
     c_return 0).

Definition settings_get_pitch_controller (st : state)
  : rc_filter_t -> Z * rc_filter_t :=
  fn
    (c_if (was_load_successful st =? 0) (c_return (-1)) ;;
     modify (fun _ => pitch_controller st) ;;
     c_return 0).

Definition settings_get_yaw_controller (st : state)
  : rc_filter_t -> Z * rc_filter_t :=
  fn
    (c_if (was_load_successful st =? 0) (c_return (-1)) ;;
     modify (fun _ => yaw_controller st) ;;
     c_return 0).

Definition settings_get_altitude_controller (st : state)
  : rc_filter_t -> Z * rc_filter_t :=
  fn
    (c_if (was_load_successful st =? 0) (c_return (-1)) ;;
     modify (fun _ => altitude_controller st) ;;
     c_return 0).

(** The program before its first call into settings.c: [jobj] is [NULL],
    [was_load_successful] is 0, the filters are untouched.  [s0] is the
    zero-initialised [settings] and [file] the settings file, if any. *)
Definition initial_state (s0 : settings_t) (file : option json_object)
  : state :=
  Build_state JNull s0 rc_filter_static rc_filter_static rc_filter_static
    rc_filter_static 0 file.

(** The states in which no call of [settings_load_from_file] has
    completed successfully yet: the initial ones, those after a call
    that did not return 0, and those after the file changed on disk. *)
Inductive never_loaded : state -> Prop :=
| nl_initial (s0 : settings_t) (file : option json_object) :
    never_loaded (initial_state s0 file)
| nl_failed_load (e : env) (st st' : state) (r : Z) :
    never_loaded st ->
    settings_load_from_file e st = (r, st') ->
    r <> 0 ->
    never_loaded st'
| nl_file_changed (st : state) (file : option json_object) :
    never_loaded st ->
    never_loaded (set_SETTINGS_FILE file st).

(** The states in which the most recent call of
    [settings_load_from_file] returned 0: the state that call left, and
    those after the file changed on disk since. *)
Inductive last_load_succeeded : state -> Prop :=
| lls_loaded (e : env) (st : state) :
    fst (settings_load_from_file e st) = 0 ->
    last_load_succeeded (snd (settings_load_from_file e st))
| lls_file_changed (st : state) (file : option json_object) :
    last_load_succeeded st ->
    last_load_succeeded (set_SETTINGS_FILE file st).

(** What the blocks of [settings_load_from_file] other than
    "parse enable_logging" and "parse feedback_hz" leave alone: the
    object being parsed, the success flag, and the two members those
    blocks assign. *)
Definition unchanged (st st' : state) : Prop :=
  jobj st' = jobj st
  /\ was_load_successful st' = was_load_successful st
  /\ enable_logging (settings st') = enable_logging (settings st)
  /\ feedback_hz (settings st') = feedback_hz (settings st).

(** [set] assigns a member other than [enable_logging] and
    [feedback_hz]. *)
Definition other_member {A : Type} (set : A -> settings_t -> settings_t)
  : Prop :=
  forall v s,
    enable_logging (set v s) = enable_logging s
    /\ feedback_hz (set v s) = feedback_hz s.

(** Two states with the same objects of file scope; the file on disk
    may differ. *)
Definition same_globals (st st' : state) : Prop :=
  jobj st' = jobj st
  /\ settings st' = settings st
  /\ roll_controller st' = roll_controller st
  /\ pitch_controller st' = pitch_controller st
  /\ yaw_controller st' = yaw_controller st
  /\ altitude_controller st' = altitude_controller st
  /\ was_load_successful st' = was_load_successful st.

(** [e] with another result for the disk write. *)
Definition with_to_file_ext_result (w : Z) (e : env) : env :=
  Build_env w (left_by_failed_write e) (parse_layout_falls_off e)
    (parse_thrust_map_falls_off e) (parse_kill_mode_falls_off e).

(** The object [settings_load_from_file] parses: the file when there is
    one, the defaults otherwise. *)
Definition parsed_object (st : state) : json_object :=
  match SETTINGS_FILE st with
  | Some file => file
  | None => default_settings
  end.

(** The state in which "start parsing data" begins when the file holds
    [file]. *)
Definition ready_to_parse (file : json_object) (st : state) : state :=
  set_jobj file (set_was_load_successful 0 st).

(** The object is a string whose characters before the first NUL are
    [name]: what [strcmp] takes for [name]. *)
Definition reads_as (j : json_object) (name : string) : Prop :=
  exists s, j = JString s /\ c_str s = name.

(** The string [__parse_flight_mode] compares against for each
    enumerator it stores. *)
Definition flight_mode_name (m : flight_mode_t) : string :=
  match m with
  | TEST_BENCH_4DOF => "TEST_BENCH_4DOF"
  | TEST_BENCH_6DOF => "TEST_BENCH_6DOF"
  | DIRECT_THROTTLE_4DOF => "DIRECT_THROTTLE_4DOF"
  | DIRECT_THROTTLE_6DOF => "DIRECT_THROTTLE_6DOF"
  | ALT_HOLD_4DOF => "ALT_HOLD_4DOF"
  | ALT_HOLD_6DOF => "ALT_HOLD_6DOF"
  end.

(** The string [__parse_layout] compares against for each layout, and
    the rotor count it stores with it. *)
Definition layout_name (l : rotor_layout_t) : string :=
  match l with
  | LAYOUT_6DOF_ROTORBITS => "LAYOUT_6DOF_ROTORBITS"
  | LAYOUT_4X => "LAYOUT_4X"
  | LAYOUT_4PLUS => "LAYOUT_4PLUS"
  | LAYOUT_6X => "LAYOUT_6X"
  | LAYOUT_8X => "LAYOUT_8X"
  end.

Definition rotors_of_layout (l : rotor_layout_t) : Z :=
  match l with
  | LAYOUT_6DOF_ROTORBITS => 6
  | LAYOUT_4X => 4
  | LAYOUT_4PLUS => 4
  | LAYOUT_6X => 6
  | LAYOUT_8X => 8
  end.

(** The string [__parse_thrust_map] compares against for each map. *)
Definition thrust_map_name (t : thrust_map_t) : string :=
  match t with
  | MN1806_1400KV_4S => "MN1806_1400KV_4S"
  | F20_2300KV_2S => "F20_2300KV_2S"
  | RX2206_4S => "RX2206_4S"
  end.

(** The two strings [__parse_kill_mode] accepts. *)
Definition kill_mode_name (k : dsm_kill_mode_t) : string :=
  match k with
  | DSM_KILL_DEDICATED_SWITCH => "DSM_KILL_DEDICATED_SWITCH"
  | DSM_KILL_NEGATIVE_THROTTLE => "DSM_KILL_NEGATIVE_THROTTLE"
  end.

(** [settings.layout = l; settings.num_rotors = n;] as one update. *)
Definition store_layout (l : rotor_layout_t) (st : state) : state :=
  set_settings
    (set_layout l (set_num_rotors (rotors_of_layout l) (settings st))) st.

(** [json_object_is_type(tmp, json_type_double)], the test both loops
    of [__parse_controller] apply to every entry. *)
Definition is_double (j : json_object) : bool :=
  json_object_is_type j json_type_double.

(** [dt] as [__parse_controller] computes it: [1.0/feedback_hz]. *)
Definition controller_dt (feedback_hz : Z) : float :=
  PrimFloat.div 1%float (double_of_int feedback_hz).

(** The checks [__parse_controller] makes on a controller object before
    it looks at "CT_or_DT": a "gain" key, "numerator" and "denominator"
    arrays of doubles, the first not empty and not longer than the
    second. *)
Definition proper_transfer_function (j : json_object)
  (num den : list json_object) : Prop :=
  json_object_object_get_ex j "gain" <> None
  /\ json_object_object_get_ex j "numerator" = Some (JArray num)
  /\ json_object_object_get_ex j "denominator" = Some (JArray den)
  /\ forallb is_double num = true
  /\ forallb is_double den = true
  /\ (1 <= List.length num <= List.length den)%nat.

(** The result of [__parse_controller] after a library constructor
    returned [r]: 0 when [r] is 0, else -1. *)
Definition constructor_result (r : Z * rc_filter_t) : Z * rc_filter_t :=
  (if fst r =? 0 then 0 else -1, snd r).

(** Every range [settings_load_from_file] checks on the scalar members
    before it returns 0, as the conditions are written in the source. *)
Definition valid_settings (s : settings_t) : Prop :=
  num_rotors s = rotors_of_layout (layout s)
  /\ PrimFloat.ltb (v_nominal s) 7.0 = false
  /\ PrimFloat.ltb 18.0 (v_nominal s) = false
  /\ 1 <= num_dsm_modes s <= 3
  /\ 1 <= dsm_thr_ch s <= 9
  /\ (dsm_thr_pol s = -1 \/ dsm_thr_pol s = 1)
  /\ 1 <= dsm_roll_ch s <= 9
  /\ (dsm_roll_pol s = -1 \/ dsm_roll_pol s = 1)
  /\ 1 <= dsm_pitch_ch s <= 9
  /\ (dsm_pitch_pol s = -1 \/ dsm_pitch_pol s = 1)
  /\ 1 <= dsm_yaw_ch s <= 9
  /\ (dsm_yaw_pol s = -1 \/ dsm_yaw_pol s = 1)
  /\ 1 <= dsm_mode_ch s <= 9
  /\ (dsm_mode_pol s = -1 \/ dsm_mode_pol s = 1)
  /\ dsm_kill_mode s = DSM_KILL_DEDICATED_SWITCH
  /\ 1 <= dsm_kill_ch s <= 9
  /\ (dsm_kill_pol s = -1 \/ dsm_kill_pol s = 1)
  /\ (feedback_hz s = 50 \/ feedback_hz s = 100 \/ feedback_hz s = 200).

(** The object [obj] holds, under the key each scalar member but
    [dsm_kill_mode] is parsed from, the value of that member in [s]: an
    enumerator by a string C reads as its name, a number or a boolean by
    itself.  Under "dsm_kill_mode" it holds a string read as the name of
    either kill mode, whatever the member is. *)
Definition mirrors (obj : json_object) (s : settings_t) : Prop :=
  let holds key v := json_object_object_get_ex obj key = Some v in
  let names key name :=
    exists tmp,
      json_object_object_get_ex obj key = Some tmp /\ reads_as tmp name in
  names "layout" (layout_name (layout s))
  /\ names "thrust_map" (thrust_map_name (thrust_map s))
  /\ holds "v_nominal" (JDouble (v_nominal s))
  /\ holds "enable_logging" (JBoolean (enable_logging s))
  /\ names "flight_mode_1" (flight_mode_name (flight_mode_1 s))
  /\ names "flight_mode_2" (flight_mode_name (flight_mode_2 s))
  /\ names "flight_mode_3" (flight_mode_name (flight_mode_3 s))
  /\ holds "num_dsm_modes" (JInt (num_dsm_modes s))
  /\ holds "dsm_thr_ch" (JInt (dsm_thr_ch s))
  /\ holds "dsm_thr_pol" (JInt (dsm_thr_pol s))
  /\ holds "dsm_roll_ch" (JInt (dsm_roll_ch s))
  /\ holds "dsm_roll_pol" (JInt (dsm_roll_pol s))
  /\ holds "dsm_pitch_ch" (JInt (dsm_pitch_ch s))
  /\ holds "dsm_pitch_pol" (JInt (dsm_pitch_pol s))
  /\ holds "dsm_yaw_ch" (JInt (dsm_yaw_ch s))
  /\ holds "dsm_yaw_pol" (JInt (dsm_yaw_pol s))
  /\ holds "dsm_mode_ch" (JInt (dsm_mode_ch s))
  /\ holds "dsm_mode_pol" (JInt (dsm_mode_pol s))
  /\ (exists k, names "dsm_kill_mode" (kill_mode_name k))
  /\ holds "dsm_kill_ch" (JInt (dsm_kill_ch s))
  /\ holds "dsm_kill_pol" (JInt (dsm_kill_pol s))
  /\ holds "feedback_hz" (JInt (feedback_hz s))
  /\ holds "printf_arm" (JBoolean (printf_arm s))
  /\ holds "printf_altitude" (JBoolean (printf_altitude s))
  /\ holds "printf_rpy" (JBoolean (printf_rpy s))
  /\ holds "printf_sticks" (JBoolean (printf_sticks s))
  /\ holds "printf_setpoint" (JBoolean (printf_setpoint s))
  /\ holds "printf_u" (JBoolean (printf_u s))
  /\ holds "printf_motors" (JBoolean (printf_motors s))
  /\ holds "printf_mode" (JBoolean (printf_mode s)).

(** The blocks of [settings_load_from_file] between "start parsing
    data" and "parse feedback_hz". *)
Definition before_feedback_hz (e : env) : stmt state unit :=
  parse_physical e ;;
  parse_enable_logging ;;
  parse_flight_modes ;;
  parse_DSM_config e.

(** Each of the four controller keys of [obj] holds an object on which
    [__parse_controller] returns 0 when called, as
    [settings_load_from_file] calls it, with the loop frequency [hz] and
    the filter of file scope that [st] holds for that key. *)
Definition controllers_accepted (obj : json_object) (hz : Z) (st : state)
  : Prop :=
  (exists tmp,
     json_object_object_get_ex obj "roll_controller" = Some tmp
     /\ fst (__parse_controller tmp hz (roll_controller st)) = 0)
  /\ (exists tmp,
        json_object_object_get_ex obj "pitch_controller" = Some tmp
        /\ fst (__parse_controller tmp hz (pitch_controller st)) = 0)
  /\ (exists tmp,
        json_object_object_get_ex obj "yaw_controller" = Some tmp
        /\ fst (__parse_controller tmp hz (yaw_controller st)) = 0)
  /\ (exists tmp,
        json_object_object_get_ex obj "altitude_controller" = Some tmp
        /\ fst (__parse_controller tmp hz (altitude_controller st)) = 0).

(** None of the three values read after a function that falls off its
    end is the -1 their callers test for. *)
Definition falls_off_not_minus_1 (e : env) : Prop :=
  parse_layout_falls_off e <> -1
  /\ parse_thrust_map_falls_off e <> -1
  /\ parse_kill_mode_falls_off e <> -1.

(** The scalar members as the object of [__load_default_settings]
    gives them, with the kill mode [__parse_kill_mode] stores for
    "DSM_KILL_NEGATIVE_THROTTLE". *)
Definition default_settings_members : settings_t :=
  Build_settings_t 6 LAYOUT_6DOF_ROTORBITS RX2206_4S 7.4 false
    TEST_BENCH_4DOF TEST_BENCH_6DOF DIRECT_THROTTLE_4DOF
    3 1 1 2 1 3 1 4 1 5 1 DSM_KILL_DEDICATED_SWITCH 6 1 100
    true false false false true false false true.

End WithRcFilter.
End Settings.

(* ================================================================== *)
(** ** Concrete inputs                                                 *)
(* ================================================================== *)

Module Example.
Import Json Settings.

(** A stand-in for librobotcontrol whose filter constructors always
    succeed and record what they were given. *)
Definition filter : Type := option (rc_vector_t * rc_vector_t * float).

Definition lib : RcFilterLib :=
  {| rc_filter_t := filter;
     rc_filter_static := None;
     rc_filter_free := fun _ => None;
     rc_filter_c2d_tustin :=
       fun dt num den _ _ => (0, Some (num, den, dt));
     rc_filter_alloc :=
       fun num den dt _ => (0, Some (num, den, dt)) |}.

(** A stand-in that, like librobotcontrol, refuses a time step that is
    not positive, and otherwise records what it was given. *)
Definition picky_lib : RcFilterLib :=
  {| rc_filter_t := filter;
     rc_filter_static := None;
     rc_filter_free := fun _ => None;
     rc_filter_c2d_tustin :=
       fun dt num den _ _ =>
         if PrimFloat.ltb 0 dt then (0, Some (num, den, dt)) else (-1, None);
     rc_filter_alloc :=
       fun num den dt _ =>
         if PrimFloat.ltb 0 dt then (0, Some (num, den, dt)) else (-1, None)
  |}.

Definition zero_settings : settings_t :=
  Build_settings_t 0 LAYOUT_6DOF_ROTORBITS MN1806_1400KV_4S 0 false
    TEST_BENCH_4DOF TEST_BENCH_4DOF TEST_BENCH_4DOF
    0 0 0 0 0 0 0 0 0 0 0 DSM_KILL_DEDICATED_SWITCH 0 0 0
    false false false false false false false false.

(** The disk write succeeds; the three functions without a final
    [return] hand back 0. *)
Definition env_ok : env := Build_env 0 None 0 0 0.

(** The disk write fails before the file is created. *)
Definition env_write_fails : env := Build_env (-1) None 0 0 0.


(** No settings file on disk. *)
Definition fresh : @state lib := initial_state zero_settings None.

(** The settings file holds [file]. *)
Definition with_file (file : json_object) : @state lib :=
  initial_state zero_settings (Some file).

(** A settings file that turns logging on and runs the loop at 200 Hz. *)
Definition logging_on_200hz : json_object :=
  json_object_object_add
    (json_object_object_add default_settings
       "enable_logging" (JBoolean true))
    "feedback_hz" (JInt 200).

(** A settings file with nothing but the logging flag in it. *)
Definition only_enable_logging : json_object :=
  JObject [("enable_logging", JBoolean true)].

(** A settings file without the logging flag. *)
Definition no_enable_logging : json_object :=
  JObject [("layout", JString "LAYOUT_4X")].

(** The default file with the loop frequency changed to 60 Hz. *)
Definition feedback_60hz : json_object :=
  json_object_object_add default_settings "feedback_hz" (JInt 60).

(** The settings [logging_on_200hz] parses to. *)
Definition logging_on_200hz_members : settings_t :=
  set_feedback_hz 200 (set_enable_logging true default_settings_members).

(** The default file with the loop frequency changed to 2^32 + 50. *)
Definition feedback_too_large : json_object :=
  json_object_object_add default_settings "feedback_hz" (JInt 4294967346).

(** A string with a NUL in it: C reads "ALT_HOLD_6DOF". *)
Definition alt_hold_then_junk : string :=
  "ALT_HOLD_6DOF" ++ String Ascii.zero "junk".

(** A settings object whose layout and kill mode carry characters behind
    a NUL. *)
Definition names_with_nul : json_object :=
  JObject [ ("layout", JString ("LAYOUT_4X" ++ String Ascii.zero "8"));
            ("dsm_kill_mode",
             JString ("DSM_KILL_NEGATIVE_THROTTLE"
                      ++ String Ascii.zero "!")) ].

(** A discrete-time controller object with one coefficient over two. *)
Definition proper_controller : json_object :=
  JObject [ ("gain", JDouble 1);
            ("numerator", JArray [JDouble 0.5]);
            ("denominator", JArray [JDouble 1; JDouble 0.25]);
            ("CT_or_DT", JString "DT") ].

(** The same with numerator and denominator swapped: more numerator than
    denominator coefficients. *)
Definition improper_controller : json_object :=
  JObject [ ("gain", JDouble 1);
            ("numerator", JArray [JDouble 1; JDouble 0.25]);
            ("denominator", JArray [JDouble 0.5]);
            ("CT_or_DT", JString "DT") ].

End Example.

(* ================================================================== *)
(** * Properties                                                       *)
(* ================================================================== *)

Module LogSchemaFacts.
Import LogSchema.

(** C1. The struct [log_entry_t] has exactly the 19 members
    loop_index, last_step_us, altitude, roll, pitch, yaw, u_X, u_Y, u_Z,
    u_roll, u_pitch, u_yaw, mot_1 .. mot_6, v_batt, in that order; the
    first two are 64-bit unsigned integers and the other seventeen 64-bit
    floating-point values; and the member list, with the layout it
    induces, is the expansion of the one table [LOG_TABLE]. *)
Theorem log_entry_t_is_LOG_TABLE :
  map m_name log_entry_t_members =
    [ "loop_index"; "last_step_us"; "altitude"; "roll"; "pitch"; "yaw";
      "u_X"; "u_Y"; "u_Z"; "u_roll"; "u_pitch"; "u_yaw";
      "mot_1"; "mot_2"; "mot_3"; "mot_4"; "mot_5"; "mot_6"; "v_batt" ]
  /\ List.length log_entry_t_members = 19%nat
  /\ map m_type log_entry_t_members
     = ([uint64_t; uint64_t] ++ repeat double 17)%list
  /\ Forall (fun m => bits (m_type m) = 64) log_entry_t_members
  /\ map is_floating (map m_type log_entry_t_members)
     = ([false; false] ++ repeat true 17)%list
  /\ log_entry_t_members = map X_member LOG_TABLE
  /\ (forall e : log_entry_t,
        map value_type (log_entry_values e) = map x_type LOG_TABLE)
  /\ map fst log_entry_t_offsets = map x_name LOG_TABLE
  /\ map snd log_entry_t_offsets
     = map (fun i => 8 * Z.of_nat i) (seq 0 (List.length LOG_TABLE))
  /\ log_entry_t_sizeof = 8 * Z.of_nat (List.length LOG_TABLE).
Proof.
  repeat split; try reflexivity.
  unfold log_entry_t_members, LOG_TABLE; simpl.
  repeat (constructor; [reflexivity |]); constructor.
Qed.

End LogSchemaFacts.

Module LogManagerFacts.
Import LogSchema LogManager.










Lemma submit_cases (e : log_entry_t) (m : manager) :
  state m = Running ->
  (((capacity m <= List.length (buffer m))%nat
    /\ submit e m =
       (Err BufferFull,
        Build_manager Running (capacity m) (buffer m) (file m)
                      (S (dropped m)) (faults m) (lost m)))
   \/ ((List.length (buffer m) < capacity m)%nat
       /\ submit e m =
          (Ok,
           Build_manager Running (capacity m) (buffer m ++ [e])%list (file m)
                         (dropped m) (faults m) (lost m)))).
Proof.
  intros Hrun. unfold submit. rewrite Hrun.
  destruct (Nat.leb_spec (capacity m) (List.length (buffer m))); [left | right];
    split; auto.
Qed.












(** C4. A submission made while the logger runs with its buffer at
    capacity fails at once with [BufferFull] ([add_log_entry] returns
    -1): the entry is dropped, the buffer and the file are left as they
    were, and the dropped-entry counter goes up by one; any number of
    such calls in a row raise the counter by exactly that number and
    leave the buffered entries untouched. *)
Theorem submit_at_capacity (m : manager) (e : log_entry_t) :
  state m = Running ->
  (capacity m <= List.length (buffer m))%nat ->
  fst (submit e m) = Err BufferFull
  /\ add_log_entry e m = (-1, snd (submit e m))
  /\ buffer (snd (submit e m)) = buffer m
  /\ file (snd (submit e m)) = file m
  /\ state (snd (submit e m)) = Running
  /\ dropped (snd (submit e m)) = S (dropped m)
  /\ forall es : list log_entry_t,
       buffer (fst (run (map Submit es) m)) = buffer m
       /\ file (fst (run (map Submit es) m)) = file m
       /\ dropped (fst (run (map Submit es) m))
          = (dropped m + List.length es)%nat
       /\ snd (run (map Submit es) m) = map (fun x => (x, -1)) es.
Proof.
  intros Hrun Hfull.
  assert (Hone : forall (m : manager) (x : log_entry_t),
             state m = Running ->
             (capacity m <= List.length (buffer m))%nat ->
             submit x m =
               (Err BufferFull,
                Build_manager Running (capacity m) (buffer m) (file m)
                              (S (dropped m)) (faults m) (lost m))).
  { intros m0 x H1 H2. destruct (submit_cases x m0 H1) as [[_ E] | [Hlt _]];
      [exact E | lia]. }
  unfold add_log_entry. rewrite (Hone m e Hrun Hfull); simpl.
  repeat split; auto.
  all: revert m Hrun Hfull; induction es as [| x es IH]; intros m Hrun Hfull;
    simpl; auto; unfold add_log_entry; rewrite (Hone m x Hrun Hfull); simpl;
    match goal with
    | |- context [run (map Submit es) ?m1] =>
        specialize (IH m1 eq_refl Hfull);
        destruct (run (map Submit es) m1) as [mk lg]; simpl in *
    end.
  - exact IH.
  - exact IH.
  - rewrite IH. lia.
  - rewrite IH. reflexivity.
Qed.

Lemma submit_at_capacity_witness :
  fst (submit (entry_with_index 3) full_manager) = Err BufferFull
  /\ add_log_entry (entry_with_index 3) full_manager
     = (-1, snd (submit (entry_with_index 3) full_manager))
  /\ buffer (snd (submit (entry_with_index 3) full_manager))
     = buffer full_manager.
Proof.
  destruct (submit_at_capacity full_manager (entry_with_index 3))
    as (H1 & H2 & H3 & _).
  - reflexivity.
  - simpl. lia.
  - auto.
Defined.







End LogManagerFacts.

Module CStmtFacts.
Import CStmt.

Section Wp.
Context {S : Type}.

Lemma wp_bind {A B : Type} (m : stmt S A) (k : A -> stmt S B)
  (Q : B -> S -> Prop) (R : Z -> S -> Prop) (s : S) :
  wp m (fun a => wp (k a) Q R) R s -> wp (bind m k) Q R s.
Proof.
  unfold wp, bind. destruct (m s) as [[a | z] s']; auto.
Qed.

Lemma wp_mono {A : Type} (m : stmt S A)
  (Q Q' : A -> S -> Prop) (R R' : Z -> S -> Prop) (s : S) :
  wp m Q R s ->
  (forall a s', Q a s' -> Q' a s') ->
  (forall z s', R z s' -> R' z s') ->
  wp m Q' R' s.
Proof.
  unfold wp. destruct (m s) as [[a | z] s']; auto.
Qed.

(** Sequencing with an intermediate assertion. *)
Lemma wp_seq {A B : Type} (m : stmt S A) (k : A -> stmt S B)
  (Q0 : A -> S -> Prop) (R0 : Z -> S -> Prop)
  (Q : B -> S -> Prop) (R : Z -> S -> Prop) (s : S) :
  wp m Q0 R0 s ->
  (forall a s1, Q0 a s1 -> wp (k a) Q R s1) ->
  (forall z s1, R0 z s1 -> R z s1) ->
  wp (bind m k) Q R s.
Proof.
  intros Hm Hk Hr. apply wp_bind. eapply wp_mono; eauto.
Qed.

Lemma wp_ret {A : Type} (a : A)
  (Q : A -> S -> Prop) (R : Z -> S -> Prop) (s : S) :
  Q a s -> wp (ret a) Q R s.
Proof. auto. Qed.

Lemma wp_c_return {A : Type} (z : Z)
  (Q : A -> S -> Prop) (R : Z -> S -> Prop) (s : S) :
  R z s -> wp (c_return z) Q R s.
Proof. auto. Qed.

Lemma wp_gets {A : Type} (p : S -> A)
  (Q : A -> S -> Prop) (R : Z -> S -> Prop) (s : S) :
  Q (p s) s -> wp (gets p) Q R s.
Proof. auto. Qed.

Lemma wp_modify (f : S -> S)
  (Q : unit -> S -> Prop) (R : Z -> S -> Prop) (s : S) :
  Q tt (f s) -> wp (modify f) Q R s.
Proof. auto. Qed.

Lemma wp_c_if (b : bool) (body : stmt S unit)
  (Q : unit -> S -> Prop) (R : Z -> S -> Prop) (s : S) :
  (b = true -> wp body Q R s) ->
  (b = false -> Q tt s) ->
  wp (c_if b body) Q R s.
Proof.
  intros Ht Hf. destruct b; simpl;
    [apply Ht | apply wp_ret, Hf]; reflexivity.
Qed.

Lemma wp_call {A : Type} (f : S -> A * S)
  (Q : A -> S -> Prop) (R : Z -> S -> Prop) (s : S) :
  Q (fst (f s)) (snd (f s)) -> wp (call f) Q R s.
Proof. unfold wp, call. destruct (f s); auto. Qed.

(** The result of a function is what its body returns. *)
Lemma wp_fn (body : stmt S Empty_set) (R : Z -> S -> Prop) (s : S) :
  wp body (fun _ _ => False) R s ->
  R (fst (fn body s)) (snd (fn body s)).
Proof.
  unfold wp, fn. destruct (body s) as [[[] | z] s']; auto.
Qed.

Lemma wp_fn_falls_off (body : stmt S unit) (indeterminate : Z)
  (R : Z -> S -> Prop) (s : S) :
  wp body (fun _ s' => R indeterminate s') R s ->
  R (fst (fn_falls_off body indeterminate s))
    (snd (fn_falls_off body indeterminate s)).
Proof.
  unfold wp, fn_falls_off. destruct (body s) as [[[] | z] s']; auto.
Qed.

End Wp.

Section Quiet.
Context {S : Type} (Rel : S -> S -> Prop) (P : Z -> Prop).
Hypothesis Rel_refl : forall s, Rel s s.
Hypothesis Rel_trans : forall s1 s2 s3, Rel s1 s2 -> Rel s2 s3 -> Rel s1 s3.

Lemma quiet_ret {A : Type} (a : A) : quiet Rel P (ret a).
Proof. intros s. apply wp_ret. auto. Qed.

Lemma quiet_c_return {A : Type} (z : Z) :
  P z -> quiet Rel P (@c_return S A z).
Proof. intros Hz s. apply wp_c_return. auto. Qed.

Lemma quiet_gets {A : Type} (p : S -> A) : quiet Rel P (gets p).
Proof. intros s. apply wp_gets. auto. Qed.

Lemma quiet_modify (f : S -> S) :
  (forall s, Rel s (f s)) -> quiet Rel P (modify f).
Proof. intros Hf s. apply wp_modify. auto. Qed.

Lemma quiet_call {A : Type} (f : S -> A * S) :
  (forall s, Rel s (snd (f s))) -> quiet Rel P (call f).
Proof. intros Hf s. apply wp_call. auto. Qed.

Lemma quiet_bind {A B : Type} (m : stmt S A) (k : A -> stmt S B) :
  quiet Rel P m -> (forall a, quiet Rel P (k a)) -> quiet Rel P (bind m k).
Proof.
  intros Hm Hk s. eapply wp_seq; [apply Hm | |].
  - intros a s1 H1. simpl in H1.
    eapply wp_mono; [apply Hk | |]; simpl.
    + intros b s' H2. exact (Rel_trans _ _ _ H1 H2).
    + intros z s' [Hz H2]. split; [exact Hz | exact (Rel_trans _ _ _ H1 H2)].
  - auto.
Qed.

Lemma quiet_c_if (b : bool) (body : stmt S unit) :
  quiet Rel P body -> quiet Rel P (c_if b body).
Proof. intros Hb. destruct b; simpl; [exact Hb | apply quiet_ret]. Qed.

(** A function whose body is quiet relates the states around a call,
    whatever it returns. *)
Lemma quiet_fn_falls_off (body : stmt S unit) (indeterminate : Z) (s : S) :
  quiet Rel P body -> Rel s (snd (fn_falls_off body indeterminate s)).
Proof.
  intros Hb.
  apply (wp_fn_falls_off body indeterminate (fun _ s' => Rel s s')).
  eapply wp_mono; [apply Hb | |]; simpl; auto. intros z s' [_ H]; auto.
Qed.

End Quiet.

Section Commutes.
Context {S : Type} (g : S -> S).

Lemma commutes_ret {A : Type} (a : A) : commutes g (@ret S A a).
Proof. intros s. reflexivity. Qed.

Lemma commutes_c_return {A : Type} (z : Z) : commutes g (@c_return S A z).
Proof. intros s. reflexivity. Qed.

Lemma commutes_gets {A : Type} (p : S -> A) :
  (forall s, p (g s) = p s) -> commutes g (gets p).
Proof. intros Hp s. unfold gets. rewrite Hp. reflexivity. Qed.

Lemma commutes_modify (f : S -> S) :
  (forall s, f (g s) = g (f s)) -> commutes g (modify f).
Proof. intros Hf s. unfold modify. rewrite Hf. reflexivity. Qed.

Lemma commutes_call {A : Type} (f : S -> A * S) :
  (forall s, f (g s) = (fst (f s), g (snd (f s)))) -> commutes g (call f).
Proof.
  intros Hf s. unfold call. rewrite Hf. destruct (f s); reflexivity.
Qed.

Lemma commutes_bind {A B : Type} (m : stmt S A) (k : A -> stmt S B) :
  commutes g m -> (forall a, commutes g (k a)) -> commutes g (bind m k).
Proof.
  intros Hm Hk s. unfold bind. rewrite Hm.
  destruct (m s) as [[a | z] s']; simpl; [apply Hk | reflexivity].
Qed.

Lemma commutes_c_if (b : bool) (body : stmt S unit) :
  commutes g body -> commutes g (c_if b body).
Proof. intros Hb. destruct b; simpl; [exact Hb | apply commutes_ret]. Qed.

Lemma commutes_fn (body : stmt S Empty_set) (s : S) :
  commutes g body ->
  fn body (g s) = (fst (fn body s), g (snd (fn body s))).
Proof.
  intros Hb. unfold fn. rewrite Hb.
  destruct (body s) as [[[] | z] s']; reflexivity.
Qed.

Lemma commutes_fn_falls_off (body : stmt S unit) (indeterminate : Z)
  (s : S) :
  commutes g body ->
  fn_falls_off body indeterminate (g s)
  = (fst (fn_falls_off body indeterminate s),
     g (snd (fn_falls_off body indeterminate s))).
Proof.
  intros Hb. unfold fn_falls_off. rewrite Hb.
  destruct (body s) as [[[] | z] s']; reflexivity.
Qed.

End Commutes.

End CStmtFacts.

Module SettingsFacts.
Import Json CStmt CStmtFacts Settings.
Local Open Scope stmt_scope.

#[local] Arguments json_object_get_int : simpl never.

Section WithRcFilter.
Context {L : RcFilterLib}.

Lemma unchanged_refl (st : state) : unchanged st st.
Proof. unfold unchanged; auto. Qed.

Lemma unchanged_trans (s1 s2 s3 : state) :
  unchanged s1 s2 -> unchanged s2 s3 -> unchanged s1 s3.
Proof.
  unfold unchanged. intros (A1 & A2 & A3 & A4) (B1 & B2 & B3 & B4).
  repeat split; congruence.
Qed.

Section Blocks.
Variable P : Z -> Prop.

Lemma q_ret {A : Type} (a : A) : quiet unchanged P (@ret state A a).
Proof. apply quiet_ret, unchanged_refl. Qed.

Lemma q_gets {A : Type} (p : state -> A) : quiet unchanged P (gets p).
Proof. apply quiet_gets, unchanged_refl. Qed.

Lemma q_return {A : Type} (z : Z) :
  P z -> quiet unchanged P (@c_return state A z).
Proof. apply quiet_c_return, unchanged_refl. Qed.

Lemma q_bind {A B : Type} (m : stmt state A) (k : A -> stmt state B) :
  quiet unchanged P m -> (forall a, quiet unchanged P (k a)) ->
  quiet unchanged P (bind m k).
Proof. apply quiet_bind, unchanged_trans. Qed.

Lemma q_c_if (b : bool) (body : stmt state unit) :
  quiet unchanged P body -> quiet unchanged P (c_if b body).
Proof. apply quiet_c_if, unchanged_refl. Qed.

Lemma q_call {A : Type} (f : state -> A * state) :
  (forall st, unchanged st (snd (f st))) -> quiet unchanged P (call f).
Proof. apply quiet_call. Qed.

Lemma q_assign (set : settings_t -> settings_t) :
  (forall s, enable_logging (set s) = enable_logging s
             /\ feedback_hz (set s) = feedback_hz s) ->
  quiet unchanged P (assign set).
Proof.
  intros Hset. apply quiet_modify. intros st.
  destruct (Hset (settings st)) as [H1 H2].
  unfold unchanged; simpl. auto.
Qed.

End Blocks.

(** Symbolic execution of a block that touches neither of the two
    members. *)
Ltac quiet_go :=
  repeat first
    [ apply q_bind; [| intros ? ]
    | apply q_ret
    | apply q_gets
    | apply q_return; solve [reflexivity | exact I]
    | apply q_c_if
    | apply q_assign; intros ?; solve [split; reflexivity | auto]
    | progress cbv zeta
    | match goal with
      | |- quiet _ _ (match ?x with _ => _ end) => destruct x
      end ].

Lemma quiet_PARSE_BOOL (name : string)
  (set : bool -> settings_t -> settings_t) :
  other_member set ->
  quiet unchanged (fun z => z = -1) (PARSE_BOOL name set).
Proof. intros Hset. unfold PARSE_BOOL. quiet_go. Qed.

Lemma quiet_PARSE_INT_MIN_MAX (name : string)
  (set : Z -> settings_t -> settings_t) (min max : Z) :
  other_member set ->
  quiet unchanged (fun z => z = -1) (PARSE_INT_MIN_MAX name set min max).
Proof. intros Hset. unfold PARSE_INT_MIN_MAX. quiet_go. Qed.

Lemma quiet_PARSE_POLARITY (name : string)
  (set : Z -> settings_t -> settings_t) :
  other_member set ->
  quiet unchanged (fun z => z = -1) (PARSE_POLARITY name set).
Proof. intros Hset. unfold PARSE_POLARITY. quiet_go. Qed.

Lemma quiet_PARSE_DOUBLE_MIN_MAX (name : string) (min max : float) :
  quiet unchanged (fun z => z = -1) (PARSE_DOUBLE_MIN_MAX name min max).
Proof. unfold PARSE_DOUBLE_MIN_MAX. quiet_go. Qed.

Lemma parse_layout_unchanged (e : env) (st : state) :
  unchanged st (snd (__parse_layout e st)).
Proof.
  unfold __parse_layout.
  apply (quiet_fn_falls_off unchanged (fun z => z = -1)).
  quiet_go.
Qed.

Lemma parse_thrust_map_unchanged (e : env) (st : state) :
  unchanged st (snd (__parse_thrust_map e st)).
Proof.
  unfold __parse_thrust_map.
  apply (quiet_fn_falls_off unchanged (fun z => z = -1)).
  quiet_go.
Qed.

Lemma parse_kill_mode_unchanged (e : env) (st : state) :
  unchanged st (snd (__parse_kill_mode e st)).
Proof.
  unfold __parse_kill_mode.
  apply (quiet_fn_falls_off unchanged (fun z => z = -1)).
  quiet_go.
Qed.


Lemma parse_flight_mode_into_unchanged (tmp : json_object)
  (member : settings_t -> flight_mode_t)
  (set : flight_mode_t -> settings_t -> settings_t) (st : state) :
  other_member set ->
  unchanged st (snd (parse_flight_mode_into tmp member set st)).
Proof.
  intros Hset. unfold parse_flight_mode_into.
  destruct (__parse_flight_mode tmp (member (settings st))) as [r mode].
  destruct (Hset mode (settings st)) as [H1 H2].
  unfold unchanged; simpl. auto.
Qed.

Lemma parse_controller_unchanged (tmp : json_object) (st : state) :
  unchanged st (snd (parse_roll_controller tmp st))
  /\ unchanged st (snd (parse_pitch_controller tmp st))
  /\ unchanged st (snd (parse_yaw_controller tmp st))
  /\ unchanged st (snd (parse_altitude_controller tmp st)).
Proof.
  unfold parse_roll_controller, parse_pitch_controller,
    parse_yaw_controller, parse_altitude_controller.
  repeat split;
    match goal with
    | |- context [__parse_controller ?t ?hz ?c] =>
        destruct (__parse_controller t hz c)
    end; simpl; auto.
Qed.

Lemma quiet_parse_physical (e : env) :
  quiet unchanged (fun z => z = -1) (parse_physical e).
Proof.
  unfold parse_physical.
  apply q_bind; [apply q_call, parse_layout_unchanged | intros r1].
  apply q_bind; [quiet_go | intros _].
  apply q_bind; [apply q_call, parse_thrust_map_unchanged | intros r2].
  apply q_bind; [quiet_go | intros _].
  apply quiet_PARSE_DOUBLE_MIN_MAX.
Qed.

Lemma quiet_parse_flight_mode_N (key : string)
  (member : settings_t -> flight_mode_t)
  (set : flight_mode_t -> settings_t -> settings_t) :
  other_member set ->
  quiet unchanged (fun z => z = -1) (parse_flight_mode_N key member set).
Proof.
  intros Hset. unfold parse_flight_mode_N.
  apply q_bind; [apply q_gets | intros obj].
  destruct (json_object_object_get_ex obj key) as [tmp |];
    [| quiet_go].
  apply q_bind; [| intros r; quiet_go].
  apply q_call. intros st'. apply parse_flight_mode_into_unchanged, Hset.
Qed.

Lemma quiet_parse_flight_modes :
  quiet unchanged (fun z => z = -1) parse_flight_modes.
Proof.
  unfold parse_flight_modes.
  repeat (apply q_bind; [| intros _]);
    apply quiet_parse_flight_mode_N; intros v s; split; reflexivity.
Qed.

Lemma quiet_parse_DSM_config (e : env) :
  quiet unchanged (fun z => z = -1) (parse_DSM_config e).
Proof.
  unfold parse_DSM_config.
  repeat (apply q_bind; [| intros ?]);
    first
      [ apply quiet_PARSE_INT_MIN_MAX; intros v s; split; reflexivity
      | apply quiet_PARSE_POLARITY; intros v s; split; reflexivity
      | apply q_call, parse_kill_mode_unchanged
      | quiet_go ].
Qed.

Lemma quiet_parse_printf_options :
  quiet unchanged (fun z => z = -1) parse_printf_options.
Proof.
  unfold parse_printf_options.
  repeat (apply q_bind; [| intros _]);
    apply quiet_PARSE_BOOL; intros v s; split; reflexivity.
Qed.

Lemma quiet_parse_controller_N (key : string)
  (parse : json_object -> state -> Z * state) :
  (forall tmp st, unchanged st (snd (parse tmp st))) ->
  quiet unchanged (fun z => z = -1) (parse_controller_N key parse).
Proof.
  intros Hparse. unfold parse_controller_N.
  apply q_bind; [apply q_gets | intros obj].
  destruct (json_object_object_get_ex obj key) as [tmp |];
    [| quiet_go].
  apply q_bind; [| intros r; quiet_go].
  apply q_call. intros st'. apply Hparse.
Qed.

Lemma quiet_parse_controllers :
  quiet unchanged (fun z => z = -1) parse_controllers.
Proof.
  unfold parse_controllers.
  repeat (apply q_bind; [| intros _]);
    apply quiet_parse_controller_N; intros tmp st;
    apply (parse_controller_unchanged tmp st).
Qed.

(** "parse enable_logging": the block falls through exactly when the
    key holds a boolean, which it stores; otherwise it returns -1 and
    changes nothing. *)
Lemma parse_enable_logging_spec (st : state) :
  wp parse_enable_logging
    (fun _ st' =>
       exists b,
         json_object_object_get_ex (jobj st) "enable_logging"
         = Some (JBoolean b)
         /\ st' = set_settings (set_enable_logging b (settings st)) st)
    (fun z st' =>
       z = -1 /\ st' = st
       /\ forall b,
            json_object_object_get_ex (jobj st) "enable_logging"
            <> Some (JBoolean b))
    st.
Proof.
  unfold parse_enable_logging, wp, bind, gets; simpl.
  destruct (json_object_object_get_ex (jobj st) "enable_logging")
    as [tmp |]; simpl.
  - destruct tmp; simpl; eauto; repeat split; auto; intros; discriminate.
  - repeat split; auto; intros; discriminate.
Qed.

(** A 32-bit value among 50, 100 and 200 read through
    [json_object_get_int] is the stored 64-bit value itself. *)
Lemma get_int_exact (v : Z) :
  json_object_get_int (JInt v) = 50
  \/ json_object_get_int (JInt v) = 100
  \/ json_object_get_int (JInt v) = 200 ->
  json_object_get_int (JInt v) = v.
Proof.
  unfold json_object_get_int, INT32_MIN, INT32_MAX.
  destruct (Z.ltb_spec v (-2147483648)); [lia |].
  destruct (Z.ltb_spec 2147483647 v); lia.
Qed.

(** "parse feedback_hz": the block falls through exactly when the key
    holds an integer equal to 50, 100 or 200, which it stores; otherwise
    it returns -1, having touched at most [settings.feedback_hz]. *)
Lemma parse_feedback_hz_spec (st : state) :
  wp parse_feedback_hz
    (fun _ st' =>
       exists v,
         json_object_object_get_ex (jobj st) "feedback_hz" = Some (JInt v)
         /\ (v = 50 \/ v = 100 \/ v = 200)
         /\ st' = set_settings (set_feedback_hz v (settings st)) st)
    (fun z st' =>
       z = -1
       /\ jobj st' = jobj st
       /\ was_load_successful st' = was_load_successful st
       /\ enable_logging (settings st') = enable_logging (settings st)
       /\ forall v,
            json_object_object_get_ex (jobj st) "feedback_hz"
            = Some (JInt v) ->
            feedback_hz (settings st') = json_object_get_int (JInt v)
            /\ v <> 50 /\ v <> 100 /\ v <> 200)
    st.
Proof.
  unfold parse_feedback_hz, PARSE_INT, wp, bind, gets, assign, modify, c_if;
    simpl.
  destruct (json_object_object_get_ex (jobj st) "feedback_hz")
    as [tmp |]; simpl; [| repeat split; auto; intros; discriminate].
  destruct tmp as [| b | d | v | ms | l | s]; simpl;
    try (repeat split; auto; intros; discriminate).
  pose proof (get_int_exact v) as Hexact.
  remember (json_object_get_int (JInt v)) as hz eqn:Hhz.
  destruct (Z.eqb_spec hz 50) as [E50 | N50]; simpl.
  { exists v. assert (hz = v) by auto; subst v; auto. }
  destruct (Z.eqb_spec hz 100) as [E100 | N100]; simpl.
  { exists v.
    assert (hz = v) by auto; subst v; auto. }
  destruct (Z.eqb_spec hz 200) as [E200 | N200]; simpl.
  { exists v.
    assert (hz = v) by auto; subst v; auto. }
  repeat split; auto; inversion H; subst v0; rewrite <- ?Hhz;
    try reflexivity; intros ->; rewrite Hhz in *;
    unfold json_object_get_int in *; simpl in *; congruence.
Qed.


(** Everything after "parse enable_logging": the object parsed and
    [settings.enable_logging] are left alone; the function returns -1
    with the success flag untouched, or it returns 0 with the flag set,
    and then "feedback_hz" held 50, 100 or 200, now stored. *)
Lemma after_enable_logging_spec (e : env) (st : state) :
  wp (after_enable_logging e) (fun _ _ => False)
    (fun z st' =>
       jobj st' = jobj st
       /\ enable_logging (settings st') = enable_logging (settings st)
       /\ ((z = -1 /\ was_load_successful st' = was_load_successful st)
           \/ (z = 0 /\ was_load_successful st' = 1
               /\ exists v,
                    json_object_object_get_ex (jobj st) "feedback_hz"
                    = Some (JInt v)
                    /\ (v = 50 \/ v = 100 \/ v = 200)
                    /\ feedback_hz (settings st') = v)))
    st.
Proof.
  unfold after_enable_logging.
  eapply wp_seq; [apply quiet_parse_flight_modes | | ]; simpl.
  2: { intros z s1 (-> & J & W & E & _). auto. }
  intros _ s1 (J1 & W1 & E1 & _).
  eapply wp_seq; [apply quiet_parse_DSM_config | | ]; simpl.
  2: { intros z s2 (-> & J & W & E & _).
       repeat split; try congruence. left; split; congruence. }
  intros _ s2 (J2 & W2 & E2 & _).
  eapply wp_seq; [apply parse_feedback_hz_spec | | ]; simpl.
  2: { intros z s3 (-> & J & W & E & _).
       repeat split; try congruence. left; split; congruence. }
  intros _ s3 (v & Hv & Hin & ->).
  eapply wp_seq; [apply quiet_parse_printf_options | | ]; simpl.
  2: { intros z s4 (-> & J & W & E & _). simpl in *.
       repeat split; try congruence. left; split; congruence. }
  intros _ s4 (J4 & W4 & E4 & F4). simpl in *.
  eapply wp_seq; [apply quiet_parse_controllers | | ]; simpl.
  2: { intros z s5 (-> & J & W & E & _).
       repeat split; try congruence. left; split; congruence. }
  intros _ s5 (J5 & W5 & E5 & F5).
  apply wp_bind, wp_modify, wp_c_return; simpl.
  repeat split; try congruence.
  right. repeat split; auto.
  exists v. repeat split; auto; congruence.
Qed.

(** "read in file contents": with a file on disk the block falls
    through with [jobj] set to it, unless the file cannot be read. *)
Lemma read_in_file_contents_file (e : env) (file : json_object)
  (st : state) :
  SETTINGS_FILE st = Some file ->
  wp (read_in_file_contents e)
    (fun _ st' => st' = set_jobj file st /\ file <> JNull)
    (fun z st' => z = -1 /\ st' = set_jobj file st /\ file = JNull)
    st.
Proof.
  intros Hfile. unfold read_in_file_contents.
  apply wp_bind, wp_gets. rewrite Hfile.
  apply wp_bind, wp_modify.
  destruct file; simpl; unfold wp; simpl; repeat split; auto; discriminate.
Qed.

(** "read in file contents": without a file the block falls through
    with [jobj] set to the defaults, whatever the disk write did. *)
Lemma read_in_file_contents_missing (e : env) (st : state) :
  SETTINGS_FILE st = None ->
  wp (read_in_file_contents e)
    (fun _ st' =>
       exists f,
         st' = set_SETTINGS_FILE f (set_jobj default_settings st))
    (fun _ _ => False)
    st.
Proof.
  intros Hfile. unfold read_in_file_contents.
  apply wp_bind, wp_gets. rewrite Hfile.
  cbv [wp bind call __load_default_settings __write_settings_to_disk
       fn json_object_to_file_ext c_if modify c_return ret].
  destruct (to_file_ext_result e =? 0); simpl; eauto.
Qed.

(** The body of [settings_load_from_file] from "start parsing data" on,
    started with [jobj] in place and the success flag cleared. *)
Lemma parse_all_spec (e : env) (st : state) :
  wp (start_parsing_data e)
    (fun _ _ => False)
    (fun z st' =>
       jobj st' = jobj st
       /\ ((z = -1 /\ was_load_successful st' = was_load_successful st)
           \/ (z = 0 /\ was_load_successful st' = 1
               /\ exists b v,
                    json_object_object_get_ex (jobj st) "enable_logging"
                    = Some (JBoolean b)
                    /\ enable_logging (settings st') = b
                    /\ json_object_object_get_ex (jobj st) "feedback_hz"
                       = Some (JInt v)
                    /\ (v = 50 \/ v = 100 \/ v = 200)
                    /\ feedback_hz (settings st') = v)))
    st.
Proof.
  unfold start_parsing_data.
  eapply wp_seq; [apply quiet_parse_physical | | ]; simpl.
  2: { intros z s1 (-> & J & W & _). auto. }
  intros _ s1 (J1 & W1 & _).
  eapply wp_seq; [apply parse_enable_logging_spec | | ]; simpl.
  2: { intros z s2 (-> & -> & _). auto. }
  intros _ s2 (b & Hb & ->).
  eapply wp_mono; [apply after_enable_logging_spec | | ]; simpl; auto.
  intros z s3 (J3 & E3 & [[-> W3] | (-> & W3 & v & Hv & Hin & F3)]).
  - split; [congruence |]. left. split; congruence.
  - split; [congruence |]. right. repeat split; auto. exists b, v.
    rewrite <- J1. repeat split; auto.
Qed.

(** [settings_load_from_file] leaves in [jobj] the object it parsed.  It
    returns -1 and leaves the success flag at 0, or returns 0 with the
    flag at 1; in the second case the object holds a boolean
    "enable_logging" and an integer "feedback_hz" equal to 50, 100 or
    200, and both are stored in [settings]. *)
Lemma settings_load_from_file_spec (e : env) (st : state) :
  jobj (snd (settings_load_from_file e st)) = parsed_object st
  /\ ((fst (settings_load_from_file e st) = -1
       /\ was_load_successful (snd (settings_load_from_file e st)) = 0)
      \/ (fst (settings_load_from_file e st) = 0
          /\ was_load_successful (snd (settings_load_from_file e st)) = 1
          /\ exists b v,
               json_object_object_get_ex (parsed_object st) "enable_logging"
               = Some (JBoolean b)
               /\ enable_logging
                    (settings (snd (settings_load_from_file e st))) = b
               /\ json_object_object_get_ex (parsed_object st) "feedback_hz"
                  = Some (JInt v)
               /\ (v = 50 \/ v = 100 \/ v = 200)
               /\ feedback_hz
                    (settings (snd (settings_load_from_file e st))) = v)).
Proof.
  unfold settings_load_from_file.
  apply (wp_fn _
    (fun z st' =>
       jobj st' = parsed_object st
       /\ ((z = -1 /\ was_load_successful st' = 0)
           \/ (z = 0 /\ was_load_successful st' = 1
               /\ exists b v,
                    json_object_object_get_ex (parsed_object st)
                      "enable_logging" = Some (JBoolean b)
                    /\ enable_logging (settings st') = b
                    /\ json_object_object_get_ex (parsed_object st)
                         "feedback_hz" = Some (JInt v)
                    /\ (v = 50 \/ v = 100 \/ v = 200)
                    /\ feedback_hz (settings st') = v)))).
  apply wp_bind, wp_modify.
  unfold parsed_object.
  destruct (SETTINGS_FILE st) as [file |] eqn:Hfile.
  - eapply wp_seq;
      [apply (read_in_file_contents_file e file); exact Hfile | | ]; simpl.
    2: { intros z s1 (-> & -> & _). auto. }
    intros _ s1 (-> & _).
    eapply wp_mono; [apply parse_all_spec | | ]; simpl; auto.
  - eapply wp_seq;
      [apply (read_in_file_contents_missing e); exact Hfile | | ]; simpl.
    2: { intros z s1 []. }
    intros _ s1 [f ->].
    eapply wp_mono; [apply parse_all_spec | | ]; simpl; auto.
Qed.

(** Symbolic execution of a block that does not look at the file on
    disk. *)
Ltac commute_call :=
  first
    [ unfold __parse_layout; apply commutes_fn_falls_off
    | unfold __parse_thrust_map; apply commutes_fn_falls_off
    | unfold __parse_kill_mode; apply commutes_fn_falls_off
    | unfold parse_flight_mode_into; simpl;
      match goal with
      | |- context [__parse_flight_mode ?a ?b] =>
          destruct (__parse_flight_mode a b)
      end; reflexivity
    | unfold parse_roll_controller, parse_pitch_controller,
        parse_yaw_controller, parse_altitude_controller; simpl;
      match goal with
      | |- context [__parse_controller ?a ?b ?c] =>
          destruct (__parse_controller a b c)
      end; reflexivity ].

Ltac commute_go :=
  repeat first
    [ apply commutes_bind; [| intros ? ]
    | apply commutes_ret
    | apply commutes_c_return
    | apply commutes_gets; intros ?; reflexivity
    | apply commutes_c_if
    | apply commutes_modify; intros ?; reflexivity
    | apply commutes_call; intros ?; commute_call
    | progress cbv zeta
    | match goal with
      | |- commutes _ (match ?x with _ => _ end) => destruct x
      end ].

(** Nothing from "start parsing data" on reads or writes the file. *)
Lemma commutes_start_parsing_data (e : env) (f : option json_object) :
  commutes (set_SETTINGS_FILE f) (start_parsing_data e).
Proof.
  unfold start_parsing_data, after_enable_logging, parse_physical,
    parse_enable_logging, parse_flight_modes, parse_flight_mode_N,
    parse_DSM_config, parse_feedback_hz, parse_printf_options,
    parse_controllers, parse_controller_N,
    PARSE_BOOL, PARSE_INT, PARSE_INT_MIN_MAX, PARSE_POLARITY,
    PARSE_DOUBLE_MIN_MAX, assign.
  commute_go.
Qed.

(** From "start parsing data" on, the environment matters only through
    the values read after the three functions that fall off their end. *)
Lemma start_parsing_data_env (w : Z) (e : env) :
  start_parsing_data (with_to_file_ext_result w e) = start_parsing_data e.
Proof. reflexivity. Qed.

(** With no file on disk the load is the parse of the defaults; the
    disk write decides only whether the file exists afterwards. *)
Lemma load_missing_file (e : env) (st : state) :
  SETTINGS_FILE st = None ->
  fst (settings_load_from_file e st)
  = fst (fn (start_parsing_data e)
            (set_jobj default_settings (set_was_load_successful 0 st)))
  /\ same_globals
       (snd (fn (start_parsing_data e)
                (set_jobj default_settings (set_was_load_successful 0 st))))
       (snd (settings_load_from_file e st)).
Proof.
  intros Hfile.
  set (s0 := set_jobj default_settings (set_was_load_successful 0 st)).
  assert (Hread : exists f,
    read_in_file_contents e (set_was_load_successful 0 st)
    = (Next tt, set_SETTINGS_FILE f s0)).
  { pose proof (read_in_file_contents_missing e
                  (set_was_load_successful 0 st) Hfile) as H.
    unfold wp in H.
    destruct (read_in_file_contents e (set_was_load_successful 0 st))
      as [[[] | z] s1]; [| contradiction].
    destruct H as [f ->]. exists f. reflexivity. }
  assert (Hstep : forall s1,
    read_in_file_contents e (set_was_load_successful 0 st) = (Next tt, s1) ->
    settings_load_from_file e st = fn (start_parsing_data e) s1).
  { intros s1 H. unfold settings_load_from_file, fn, bind, modify.
    rewrite H. reflexivity. }
  destruct Hread as [f H]; rewrite (Hstep _ H).
  rewrite (commutes_fn (set_SETTINGS_FILE f) _ s0
             (commutes_start_parsing_data e f)).
  unfold same_globals; simpl; auto 10.
Qed.

Lemma never_loaded_flag (st : state) :
  never_loaded st -> was_load_successful st = 0.
Proof.
  induction 1 as [s0 file | e st st' r _ IH Hload Hr | st file _ IH]; auto.
  destruct (settings_load_from_file_spec e st) as [_ [[_ Hw] | [Hz _]]];
    rewrite Hload in *; simpl in *; [exact Hw | contradiction].
Qed.


(** C7 (amended). For every settings file, [settings_load_from_file]
    returns -1 if the key "enable_logging" is absent or not a boolean.
    If the key holds a boolean and the entries parsed before it (layout,
    thrust map, nominal voltage) are accepted, [settings.enable_logging]
    holds that boolean when the call ends, whatever the call returns.
    Whenever the load returns 0, [settings.enable_logging] is the file's
    boolean and [settings.feedback_hz] is the file's integer
    "feedback_hz". *)
Theorem enable_logging_and_feedback_hz_loaded
  (e : env) (st : state) (file : json_object) :
  SETTINGS_FILE st = Some file ->
  ((json_object_object_get_ex file "enable_logging" = None
    \/ (exists tmp,
          json_object_object_get_ex file "enable_logging" = Some tmp
          /\ json_object_is_type tmp json_type_boolean = false)) ->
   fst (settings_load_from_file e st) = -1)
  /\ (forall b st1,
        json_object_object_get_ex file "enable_logging" = Some (JBoolean b) ->
        parse_physical e (ready_to_parse file st) = (Next tt, st1) ->
        enable_logging (settings (snd (settings_load_from_file e st))) = b)
  /\ (fst (settings_load_from_file e st) = 0 ->
      exists b v,
        json_object_object_get_ex file "enable_logging" = Some (JBoolean b)
        /\ enable_logging (settings (snd (settings_load_from_file e st))) = b
        /\ json_object_object_get_ex file "feedback_hz" = Some (JInt v)
        /\ feedback_hz (settings (snd (settings_load_from_file e st))) = v).
Proof.
  intros Hfile.
  pose proof (settings_load_from_file_spec e st) as [_ Hspec].
  unfold parsed_object in Hspec. rewrite Hfile in Hspec.
  split; [| split].
  - intros Hbad.
    destruct Hspec as [[Hr _] | (_ & _ & b & v & Hb & _)]; [exact Hr |].
    destruct Hbad as [Hnone | (tmp & Htmp & Htype)]; rewrite Hb in *.
    + discriminate.
    + inversion Htmp; subst tmp. discriminate.
  - intros b st1 Hb Hphys.
    assert (Hnn : file <> JNull) by (intros ->; discriminate).
    pose proof (quiet_parse_physical e (ready_to_parse file st)) as Hq.
    unfold wp in Hq. rewrite Hphys in Hq. destruct Hq as (J1 & _).
    unfold settings_load_from_file.
    apply (wp_fn _ (fun _ st' => enable_logging (settings st') = b)).
    apply wp_bind, wp_modify.
    eapply wp_seq;
      [apply (read_in_file_contents_file e file); exact Hfile | | ]; simpl.
    2: { intros z s1 (_ & _ & Hn). contradiction. }
    intros _ s1 (-> & _).
    unfold start_parsing_data. apply wp_bind.
    unfold wp at 1. fold (ready_to_parse file st). rewrite Hphys.
    eapply wp_seq; [apply parse_enable_logging_spec | | ]; simpl.
    2: { intros z s2 (_ & _ & Hno). exfalso. apply (Hno b).
         rewrite J1. exact Hb. }
    intros _ s2 (b' & Hb' & ->).
    rewrite J1 in Hb'. simpl in Hb'. rewrite Hb in Hb'.
    inversion Hb'; subst b'.
    eapply wp_mono; [apply after_enable_logging_spec | | ]; simpl; auto.
    intros z s3 (_ & E3 & _). exact E3.
  - intros Hr.
    destruct Hspec as [[Hm _] | (_ & _ & b & v & Hb & Eb & Hv & _ & Ev)].
    + rewrite Hm in Hr. discriminate.
    + exists b, v. auto.
Qed.

(** C8. [settings_load_from_file] returns 0 or -1.  Unless the object it
    parses (the settings file; the defaults when the file is missing)
    holds an integer "feedback_hz" equal to 50, 100 or 200, it returns -1
    and the success flag stays 0; when it returns 0,
    [settings.feedback_hz] is that value. *)
Theorem load_requires_feedback_hz (e : env) (st : state) :
  (fst (settings_load_from_file e st) = 0
   \/ fst (settings_load_from_file e st) = -1)
  /\ (~ (exists v,
           json_object_object_get_ex (parsed_object st) "feedback_hz"
           = Some (JInt v)
           /\ (v = 50 \/ v = 100 \/ v = 200)) ->
      fst (settings_load_from_file e st) = -1
      /\ was_load_successful (snd (settings_load_from_file e st)) = 0)
  /\ (fst (settings_load_from_file e st) = 0 ->
      was_load_successful (snd (settings_load_from_file e st)) = 1
      /\ exists v,
           json_object_object_get_ex (parsed_object st) "feedback_hz"
           = Some (JInt v)
           /\ (v = 50 \/ v = 100 \/ v = 200)
           /\ feedback_hz (settings (snd (settings_load_from_file e st))) = v)
  /\ (fst (settings_load_from_file e st) = -1 ->
      was_load_successful (snd (settings_load_from_file e st)) = 0)
  /\ (forall file, SETTINGS_FILE st = Some file -> parsed_object st = file).
Proof.
  pose proof (settings_load_from_file_spec e st) as [_ Hspec].
  split; [| split; [| split; [| split]]].
  - destruct Hspec as [[Hr _] | [Hr _]]; auto.
  - intros Hno.
    destruct Hspec as [[Hr Hw] | (_ & _ & b & v & _ & _ & Hv & Hin & _)];
      [auto |].
    exfalso. apply Hno. exists v. auto.
  - intros Hz.
    destruct Hspec as [[Hr _] | (_ & Hw & b & v & _ & _ & Hv & Hin & Ev)].
    + rewrite Hr in Hz. discriminate.
    + split; [exact Hw |]. exists v. auto.
  - intros Hm.
    destruct Hspec as [[_ Hw] | (Hr & _)]; [exact Hw |].
    rewrite Hr in Hm. discriminate.
  - intros file Hfile. unfold parsed_object. rewrite Hfile. reflexivity.
Qed.

Lemma last_load_succeeded_flag (st : state) :
  last_load_succeeded st -> was_load_successful st = 1.
Proof.
  induction 1 as [e st Hz | st file _ IH]; [| exact IH].
  destruct (settings_load_from_file_spec e st) as [_ [[Hm _] | (_ & Hw & _)]].
  - rewrite Hm in Hz. discriminate.
  - exact Hw.
Qed.

(** C9 (amended). While no [settings_load_from_file] has completed
    successfully, [settings_get] and the four controller getters return
    -1 and leave the caller's object as it was.  While the most recent
    load is one that returned 0, each returns 0 and the caller's object
    holds the loaded value.  After a load that did not return 0, also
    one that follows a successful load, each returns -1 again and leaves
    the caller's object as it was. *)
Theorem getters_need_successful_load :
  (forall st : state,
     never_loaded st ->
     forall (set : settings_t) (ctrl : rc_filter_t),
       settings_get st set = (-1, set)
       /\ settings_get_roll_controller st ctrl = (-1, ctrl)
       /\ settings_get_pitch_controller st ctrl = (-1, ctrl)
       /\ settings_get_yaw_controller st ctrl = (-1, ctrl)
       /\ settings_get_altitude_controller st ctrl = (-1, ctrl))
  /\ (forall st : state,
        last_load_succeeded st ->
        forall (set : settings_t) (ctrl : rc_filter_t),
          settings_get st set = (0, settings st)
          /\ settings_get_roll_controller st ctrl = (0, roll_controller st)
          /\ settings_get_pitch_controller st ctrl = (0, pitch_controller st)
          /\ settings_get_yaw_controller st ctrl = (0, yaw_controller st)
          /\ settings_get_altitude_controller st ctrl
             = (0, altitude_controller st))
  /\ (forall (e : env) (st : state),
        fst (settings_load_from_file e st) <> 0 ->
        forall (set : settings_t) (ctrl : rc_filter_t),
          settings_get (snd (settings_load_from_file e st)) set = (-1, set)
          /\ settings_get_roll_controller
               (snd (settings_load_from_file e st)) ctrl = (-1, ctrl)
          /\ settings_get_pitch_controller
               (snd (settings_load_from_file e st)) ctrl = (-1, ctrl)
          /\ settings_get_yaw_controller
               (snd (settings_load_from_file e st)) ctrl = (-1, ctrl)
          /\ settings_get_altitude_controller
               (snd (settings_load_from_file e st)) ctrl = (-1, ctrl)).
Proof.
  split; [| split].
  - intros st Hnl set ctrl. apply never_loaded_flag in Hnl.
    unfold settings_get, settings_get_roll_controller,
      settings_get_pitch_controller, settings_get_yaw_controller,
      settings_get_altitude_controller.
    rewrite Hnl. repeat split; reflexivity.
  - intros st Hok set ctrl. apply last_load_succeeded_flag in Hok.
    unfold settings_get, settings_get_roll_controller,
      settings_get_pitch_controller, settings_get_yaw_controller,
      settings_get_altitude_controller.
    rewrite Hok. repeat split; reflexivity.
  - intros e st Hr set ctrl.
    destruct (settings_load_from_file_spec e st)
      as [_ [[_ Hw] | (Hz & _)]]; [| contradiction].
    unfold settings_get, settings_get_roll_controller,
      settings_get_pitch_controller, settings_get_yaw_controller,
      settings_get_altitude_controller.
    rewrite Hw. repeat split; reflexivity.
Qed.

(** A failed load after a successful one clears the flag again, so the
    getters return -1 once more. *)
Remark failed_load_clears_flag (e : env) (st : state) (set : settings_t) :
  fst (settings_load_from_file e st) = -1 ->
  settings_get (snd (settings_load_from_file e st)) set = (-1, set).
Proof.
  intros Hr.
  destruct (settings_load_from_file_spec e st)
    as [_ [[_ Hw] | (Hz & _)]].
  - unfold settings_get. rewrite Hw. reflexivity.
  - rewrite Hz in Hr. discriminate.
Qed.

(** C10. With no settings file on disk, [settings_load_from_file] builds
    the default object, in which "enable_logging" is false, and parses
    it: its result and its globals are those of running the parse on the
    defaults.  The result of the disk write has no influence on the
    value returned nor on the globals; in particular a failed write does
    not make the load return -1. *)
Theorem missing_file_parses_defaults (e : env) (w : Z) (st : state) :
  SETTINGS_FILE st = None ->
  json_object_object_get_ex default_settings "enable_logging"
  = Some (JBoolean false)
  /\ jobj (snd (settings_load_from_file e st)) = default_settings
  /\ fst (settings_load_from_file e st)
     = fst (fn (start_parsing_data e)
               (set_jobj default_settings (set_was_load_successful 0 st)))
  /\ same_globals
       (snd (fn (start_parsing_data e)
                (set_jobj default_settings (set_was_load_successful 0 st))))
       (snd (settings_load_from_file e st))
  /\ fst (settings_load_from_file (with_to_file_ext_result w e) st)
     = fst (settings_load_from_file e st)
  /\ same_globals
       (snd (settings_load_from_file e st))
       (snd (settings_load_from_file (with_to_file_ext_result w e) st))
  /\ (fst (settings_load_from_file e st) = 0 ->
      enable_logging (settings (snd (settings_load_from_file e st)))
      = false).
Proof.
  intros Hfile.
  pose proof (settings_load_from_file_spec e st) as [Hj Hspec].
  unfold parsed_object in Hj, Hspec. rewrite Hfile in Hj, Hspec.
  destruct (load_missing_file e st Hfile) as [R1 G1].
  destruct (load_missing_file (with_to_file_ext_result w e) st Hfile)
    as [R2 G2].
  rewrite start_parsing_data_env in R2, G2.
  split; [reflexivity |].
  split; [exact Hj |].
  split; [exact R1 |].
  split; [exact G1 |].
  split; [congruence |].
  split.
  - unfold same_globals in *.
    destruct G1 as (A1 & A2 & A3 & A4 & A5 & A6 & A7).
    destruct G2 as (B1 & B2 & B3 & B4 & B5 & B6 & B7).
    repeat split; congruence.
  - intros Hr.
    destruct Hspec as [[Hm _] | (_ & _ & b & v & Hb & Eb & _)].
    + rewrite Hm in Hr. discriminate.
    + rewrite Eb. change (Some (JBoolean false) = Some (JBoolean b)) in Hb.
      inversion Hb. reflexivity.
Qed.

End WithRcFilter.

Import Example.

Lemma enable_logging_and_feedback_hz_loaded_witness :
  fst (settings_load_from_file env_ok (with_file no_enable_logging)) = -1
  /\ enable_logging
       (settings
          (snd (settings_load_from_file env_ok (with_file logging_on_200hz))))
     = true
  /\ (exists b v,
        json_object_object_get_ex logging_on_200hz "enable_logging"
        = Some (JBoolean b)
        /\ enable_logging
             (settings
                (snd (settings_load_from_file env_ok
                        (with_file logging_on_200hz)))) = b
        /\ json_object_object_get_ex logging_on_200hz "feedback_hz"
           = Some (JInt v)
        /\ feedback_hz
             (settings
                (snd (settings_load_from_file env_ok
                        (with_file logging_on_200hz)))) = v).
Proof.
  split; [| split].
  - destruct (enable_logging_and_feedback_hz_loaded env_ok
                (with_file no_enable_logging) no_enable_logging eq_refl)
      as (Ha & _ & _).
    apply Ha. left. reflexivity.
  - destruct (enable_logging_and_feedback_hz_loaded env_ok
                (with_file logging_on_200hz) logging_on_200hz eq_refl)
      as (_ & Hb & _).
    apply (Hb true
             (snd (parse_physical env_ok
                     (ready_to_parse logging_on_200hz
                        (with_file logging_on_200hz))))).
    + reflexivity.
    + vm_compute. reflexivity.
  - destruct (enable_logging_and_feedback_hz_loaded env_ok
                (with_file logging_on_200hz) logging_on_200hz eq_refl)
      as (_ & _ & Hd).
    apply Hd. vm_compute. reflexivity.
Defined.

(** The file [only_enable_logging] holds the boolean [true] under
    "enable_logging", but the load stops at the missing "layout" and
    [settings.enable_logging] keeps its initial [false]: a boolean under
    the key is not stored in every case. *)
Lemma enable_logging_not_stored_without_layout :
  ~ (forall (L : RcFilterLib) (e : env) (st : @state L)
            (file : json_object) (b : bool),
       SETTINGS_FILE st = Some file ->
       json_object_object_get_ex file "enable_logging" = Some (JBoolean b) ->
       enable_logging (settings (snd (settings_load_from_file e st))) = b).
Proof.
  intros Hall.
  specialize (Hall lib env_ok (with_file only_enable_logging)
                only_enable_logging true eq_refl eq_refl).
  vm_compute in Hall. discriminate.
Qed.

Lemma load_requires_feedback_hz_witness :
  (fst (settings_load_from_file env_ok (with_file feedback_60hz)) = -1
   /\ was_load_successful
        (snd (settings_load_from_file env_ok (with_file feedback_60hz))) = 0)
  /\ (was_load_successful
        (snd (settings_load_from_file env_ok (with_file logging_on_200hz)))
      = 1
      /\ exists v,
           json_object_object_get_ex
             (parsed_object (with_file logging_on_200hz)) "feedback_hz"
           = Some (JInt v)
           /\ (v = 50 \/ v = 100 \/ v = 200)
           /\ feedback_hz
                (settings
                   (snd (settings_load_from_file env_ok
                           (with_file logging_on_200hz)))) = v).
Proof.
  split.
  - destruct (load_requires_feedback_hz env_ok (with_file feedback_60hz))
      as (_ & Hno & _).
    apply Hno. intros (v & Hv & Hin).
    vm_compute in Hv. inversion Hv; subst v.
    destruct Hin as [H | [H | H]]; discriminate.
  - destruct (load_requires_feedback_hz env_ok (with_file logging_on_200hz))
      as (_ & _ & Hyes & _).
    apply Hyes. vm_compute. reflexivity.
Defined.

Lemma getters_need_successful_load_witness :
  @settings_get lib fresh zero_settings = (-1, zero_settings)
  /\ @settings_get_roll_controller lib
       (snd (settings_load_from_file env_ok (with_file feedback_60hz)))
       None
     = (-1, None)
  /\ @settings_get lib (snd (settings_load_from_file env_ok fresh))
       zero_settings
     = (0, settings (snd (settings_load_from_file env_ok fresh)))
  /\ @settings_get lib
       (snd (settings_load_from_file env_ok
               (set_SETTINGS_FILE (Some feedback_60hz)
                  (snd (settings_load_from_file env_ok fresh)))))
       zero_settings
     = (-1, zero_settings).
Proof.
  destruct (@getters_need_successful_load lib) as (Hbefore & Hafter & Hagain).
  split; [| split; [| split]].
  - apply (Hbefore fresh (nl_initial zero_settings None) zero_settings None).
  - apply (Hbefore
             (snd (settings_load_from_file env_ok (with_file feedback_60hz)))
             (nl_failed_load env_ok (with_file feedback_60hz) _ (-1)
                (nl_initial zero_settings (Some feedback_60hz))
                ltac:(vm_compute; reflexivity)
                ltac:(discriminate))
             zero_settings None).
  - apply (Hafter (snd (settings_load_from_file env_ok fresh))
             (lls_loaded env_ok fresh ltac:(vm_compute; reflexivity))
             zero_settings None).
  - apply (Hagain env_ok
             (set_SETTINGS_FILE (Some feedback_60hz)
                (snd (settings_load_from_file env_ok fresh)))
             ltac:(vm_compute; discriminate)
             zero_settings None).
Defined.

(** A load returns 0; the file then changes to one with a loop frequency
    of 60 Hz and is loaded again, which fails; [settings_get] returns -1
    although a load has completed successfully before. *)
Lemma getters_fail_after_reload_fails :
  ~ (forall (L : RcFilterLib) (e e' : env) (st : @state L)
            (file : option json_object) (set : settings_t),
       fst (settings_load_from_file e st) = 0 ->
       fst (settings_get
              (snd (settings_load_from_file e'
                      (set_SETTINGS_FILE file
                         (snd (settings_load_from_file e st)))))
              set)
       = 0).
Proof.
  intros Hall.
  specialize (Hall lib env_ok env_ok fresh (Some feedback_60hz) zero_settings).
  assert (Hok : fst (settings_load_from_file env_ok fresh) = 0)
    by (vm_compute; reflexivity).
  specialize (Hall Hok).
  vm_compute in Hall. discriminate.
Qed.

Lemma missing_file_parses_defaults_witness :
  fst (settings_load_from_file env_write_fails fresh)
  = fst (settings_load_from_file env_ok fresh)
  /\ fst (settings_load_from_file env_ok fresh) = 0
  /\ enable_logging (settings (snd (settings_load_from_file env_ok fresh)))
     = false.
Proof.
  destruct (missing_file_parses_defaults env_ok (-1) fresh eq_refl)
    as (_ & _ & _ & _ & Hsame & _ & Hflag).
  split; [exact Hsame | split].
  - vm_compute. reflexivity.
  - apply Hflag. vm_compute. reflexivity.
Defined.

End SettingsFacts.

(* ================================================================== *)
(** * Further properties of settings.c                                 *)
(* ================================================================== *)

Module ParserFacts.
Import Json CStmt CStmtFacts Settings.
Local Open Scope stmt_scope.

#[local] Arguments json_object_get_int : simpl never.

Lemma strcmp_eqb (a b : string) :
  (strcmp a b =? 0) = String.eqb (c_str a) (c_str b).
Proof.
  unfold strcmp. destruct (String.eqb_spec (c_str a) (c_str b)) as [-> | Hne].
  - pose proof (String.compare_antisym (c_str b) (c_str b)) as Ha.
    destruct (String.compare (c_str b) (c_str b)); simpl in *; congruence.
  - destruct (String.compare (c_str a) (c_str b)) eqn:Hc; try reflexivity.
    apply String.compare_eq_iff in Hc. contradiction.
Qed.

(** A string literal of the source holds no NUL: as a C string it is
    itself. *)
Ltac c_str_literals :=
  repeat match goal with
         | |- context [c_str (String ?c ?r)] =>
             let v := eval vm_compute in (c_str (String c r)) in
             change (c_str (String c r)) with v
         end.

(** [strcmp] sees nothing behind the first NUL. *)
Lemma c_str_app_nul (a b : string) :
  c_str a = a -> c_str (a ++ String Ascii.zero b) = a.
Proof.
  induction a as [| c a IH]; simpl; [reflexivity |].
  destruct (Ascii.eqb c Ascii.zero); [discriminate |].
  intros H. inversion H as [H']. rewrite !H'. f_equal. exact (IH H').
Qed.

Lemma reads_as_inj (j : json_object) (a b : string) :
  reads_as j a -> reads_as j b -> a = b.
Proof.
  intros (s & -> & Ha) (s' & Hs & Hb). inversion Hs; subst s'. congruence.
Qed.

Lemma flight_mode_name_inj (m m' : flight_mode_t) :
  flight_mode_name m = flight_mode_name m' -> m = m'.
Proof. destruct m, m'; simpl; congruence. Qed.

Lemma layout_name_inj (l l' : rotor_layout_t) :
  layout_name l = layout_name l' -> l = l'.
Proof. destruct l, l'; simpl; congruence. Qed.

Lemma thrust_map_name_inj (t t' : thrust_map_t) :
  thrust_map_name t = thrust_map_name t' -> t = t'.
Proof. destruct t, t'; simpl; congruence. Qed.

Section WithRcFilter.
Context {L : RcFilterLib}.

(** The two ways a call of [__parse_flight_mode] can go. *)
Lemma parse_flight_mode_cases (j : json_object) (old : flight_mode_t) :
  (exists m,
     reads_as j (flight_mode_name m)
     /\ __parse_flight_mode j old = (0, m))
  \/ ((forall m, ~ reads_as j (flight_mode_name m))
      /\ __parse_flight_mode j old = (-1, old)).
Proof.
  destruct j as [| b | d | i | ms | l | s];
    try (right; split; [intros m (s & Hs & _); discriminate | reflexivity]).
  unfold __parse_flight_mode, fn, bind, modify, c_return; simpl.
  rewrite !strcmp_eqb. c_str_literals.
  destruct (String.eqb_spec (c_str s) "TEST_BENCH_4DOF") as [E | N1];
    [left; exists TEST_BENCH_4DOF; split; [exists s |]; auto |].
  destruct (String.eqb_spec (c_str s) "TEST_BENCH_6DOF") as [E | N2];
    [left; exists TEST_BENCH_6DOF; split; [exists s |]; auto |].
  destruct (String.eqb_spec (c_str s) "DIRECT_THROTTLE_4DOF") as [E | N3];
    [left; exists DIRECT_THROTTLE_4DOF; split; [exists s |]; auto |].
  destruct (String.eqb_spec (c_str s) "DIRECT_THROTTLE_6DOF") as [E | N4];
    [left; exists DIRECT_THROTTLE_6DOF; split; [exists s |]; auto |].
  destruct (String.eqb_spec (c_str s) "ALT_HOLD_4DOF") as [E | N5];
    [left; exists ALT_HOLD_4DOF; split; [exists s |]; auto |].
  destruct (String.eqb_spec (c_str s) "ALT_HOLD_6DOF") as [E | N6];
    [left; exists ALT_HOLD_6DOF; split; [exists s |]; auto |].
  right. split; [| reflexivity].
  intros m (s' & Hs & Hc). inversion Hs; subst s'.
  destruct m; simpl in Hc; congruence.
Qed.

Lemma parse_flight_mode_reads (tmp : json_object) (m old : flight_mode_t) :
  reads_as tmp (flight_mode_name m) ->
  __parse_flight_mode tmp old = (0, m).
Proof.
  intros Hm.
  destruct (parse_flight_mode_cases tmp old) as [(m' & Hm' & Hr) | [Hno _]].
  - rewrite (flight_mode_name_inj m m' (reads_as_inj _ _ _ Hm Hm')).
    exact Hr.
  - destruct (Hno m Hm).
Qed.

(** X1. [__parse_flight_mode] compares with [strcmp], which reads a
    string up to its first NUL.  It returns 0 exactly on the strings
    that read as one of the six flight-mode names, storing the
    enumerator of that name (the names are pairwise different, so no
    mode is shadowed by another); characters behind a NUL are ignored.
    On any other string, and on an object that is not a string, it
    returns -1 and leaves [*mode] as it was. *)
Theorem parse_flight_mode_names :
  (forall m s old,
     c_str s = flight_mode_name m ->
     __parse_flight_mode (JString s) old = (0, m))
  /\ (forall m rest old,
        __parse_flight_mode
          (JString (flight_mode_name m ++ String Ascii.zero rest)) old
        = (0, m))
  /\ (forall m m', flight_mode_name m = flight_mode_name m' -> m = m')
  /\ (forall j old,
        fst (__parse_flight_mode j old) = 0 ->
        exists m s,
          j = JString s /\ c_str s = flight_mode_name m
          /\ __parse_flight_mode j old = (0, m))
  /\ (forall j old,
        fst (__parse_flight_mode j old) <> 0 ->
        __parse_flight_mode j old = (-1, old)).
Proof.
  assert (Hname : forall m s old,
            c_str s = flight_mode_name m ->
            __parse_flight_mode (JString s) old = (0, m)).
  { intros m s old Hs. apply parse_flight_mode_reads. exists s. auto. }
  split; [exact Hname | split; [| split; [| split]]].
  - intros m rest old. apply Hname, c_str_app_nul.
    destruct m; reflexivity.
  - exact flight_mode_name_inj.
  - intros j old Hz.
    destruct (parse_flight_mode_cases j old)
      as [(m & (s & Hs & Hc) & Hr) | [_ Hr]].
    + exists m, s. auto.
    + rewrite Hr in Hz. discriminate.
  - intros j old Hnz.
    destruct (parse_flight_mode_cases j old) as [(m & _ & Hr) | [_ Hr]].
    + rewrite Hr in Hnz. contradiction.
    + exact Hr.
Qed.

(** What a call of [__parse_layout] does. *)
Lemma parse_layout_effect (e : env) (st : state) :
  (exists l tmp,
     json_object_object_get_ex (jobj st) "layout" = Some tmp
     /\ reads_as tmp (layout_name l)
     /\ __parse_layout e st = (parse_layout_falls_off e, store_layout l st))
  \/ ((forall l tmp,
         json_object_object_get_ex (jobj st) "layout" = Some tmp ->
         ~ reads_as tmp (layout_name l))
      /\ __parse_layout e st = (-1, st)).
Proof.
  unfold __parse_layout, fn_falls_off, bind, gets, assign, modify, c_return;
    simpl.
  destruct (json_object_object_get_ex (jobj st) "layout") as [tmp |];
    [| right; split; [intros l tmp; discriminate | reflexivity]].
  destruct tmp as [| b | d | i | ms | a | s];
    try (right; split;
         [intros l tmp Ht (s & -> & _); discriminate | reflexivity]).
  simpl. rewrite !strcmp_eqb. c_str_literals.
  destruct (String.eqb_spec (c_str s) "LAYOUT_6DOF_ROTORBITS") as [E | N1];
    [left; exists LAYOUT_6DOF_ROTORBITS, (JString s);
     split; [| split; [exists s |]]; auto |].
  destruct (String.eqb_spec (c_str s) "LAYOUT_4X") as [E | N2];
    [left; exists LAYOUT_4X, (JString s);
     split; [| split; [exists s |]]; auto |].
  destruct (String.eqb_spec (c_str s) "LAYOUT_4PLUS") as [E | N3];
    [left; exists LAYOUT_4PLUS, (JString s);
     split; [| split; [exists s |]]; auto |].
  destruct (String.eqb_spec (c_str s) "LAYOUT_6X") as [E | N4];
    [left; exists LAYOUT_6X, (JString s);
     split; [| split; [exists s |]]; auto |].
  destruct (String.eqb_spec (c_str s) "LAYOUT_8X") as [E | N5];
    [left; exists LAYOUT_8X, (JString s);
     split; [| split; [exists s |]]; auto |].
  right. split; [| reflexivity].
  intros l tmp Ht (s' & -> & Hc). inversion Ht; subst s'.
  destruct l; simpl in Hc; congruence.
Qed.

(** What a call of [__parse_thrust_map] does. *)
Lemma parse_thrust_map_effect (e : env) (st : state) :
  (exists t tmp,
     json_object_object_get_ex (jobj st) "thrust_map" = Some tmp
     /\ reads_as tmp (thrust_map_name t)
     /\ __parse_thrust_map e st
        = (parse_thrust_map_falls_off e,
           set_settings (set_thrust_map t (settings st)) st))
  \/ ((forall t tmp,
         json_object_object_get_ex (jobj st) "thrust_map" = Some tmp ->
         ~ reads_as tmp (thrust_map_name t))
      /\ __parse_thrust_map e st = (-1, st)).
Proof.
  unfold __parse_thrust_map, fn_falls_off, bind, gets, assign, modify,
    c_return; simpl.
  destruct (json_object_object_get_ex (jobj st) "thrust_map") as [tmp |];
    [| right; split; [intros l tmp; discriminate | reflexivity]].
  destruct tmp as [| b | d | i | ms | a | s];
    try (right; split;
         [intros l tmp Ht (s & -> & _); discriminate | reflexivity]).
  simpl. rewrite !strcmp_eqb. c_str_literals.
  destruct (String.eqb_spec (c_str s) "MN1806_1400KV_4S") as [E | N1];
    [left; exists MN1806_1400KV_4S, (JString s);
     split; [| split; [exists s |]]; auto |].
  destruct (String.eqb_spec (c_str s) "F20_2300KV_2S") as [E | N2];
    [left; exists F20_2300KV_2S, (JString s);
     split; [| split; [exists s |]]; auto |].
  destruct (String.eqb_spec (c_str s) "RX2206_4S") as [E | N3];
    [left; exists RX2206_4S, (JString s);
     split; [| split; [exists s |]]; auto |].
  right. split; [| reflexivity].
  intros t tmp Ht (s' & -> & Hc). inversion Ht; subst s'.
  destruct t; simpl in Hc; congruence.
Qed.

(** What a call of [__parse_kill_mode] does: whichever of the two names
    the file holds, the enumerator stored is the dedicated switch. *)
Lemma parse_kill_mode_effect (e : env) (st : state) :
  (exists k tmp,
     json_object_object_get_ex (jobj st) "dsm_kill_mode" = Some tmp
     /\ reads_as tmp (kill_mode_name k)
     /\ __parse_kill_mode e st
        = (parse_kill_mode_falls_off e,
           set_settings
             (set_dsm_kill_mode DSM_KILL_DEDICATED_SWITCH (settings st)) st))
  \/ ((forall k tmp,
         json_object_object_get_ex (jobj st) "dsm_kill_mode" = Some tmp ->
         ~ reads_as tmp (kill_mode_name k))
      /\ __parse_kill_mode e st = (-1, st)).
Proof.
  unfold __parse_kill_mode, fn_falls_off, bind, gets, assign, modify,
    c_return; simpl.
  destruct (json_object_object_get_ex (jobj st) "dsm_kill_mode") as [tmp |];
    [| right; split; [intros l tmp; discriminate | reflexivity]].
  destruct tmp as [| b | d | i | ms | a | s];
    try (right; split;
         [intros l tmp Ht (s & -> & _); discriminate | reflexivity]).
  simpl. rewrite !strcmp_eqb. c_str_literals.
  destruct (String.eqb_spec (c_str s) "DSM_KILL_DEDICATED_SWITCH")
    as [E | N1];
    [left; exists DSM_KILL_DEDICATED_SWITCH, (JString s);
     split; [| split; [exists s |]]; auto |].
  destruct (String.eqb_spec (c_str s) "DSM_KILL_NEGATIVE_THROTTLE")
    as [E | N2];
    [left; exists DSM_KILL_NEGATIVE_THROTTLE, (JString s);
     split; [| split; [exists s |]]; auto |].
  right. split; [| reflexivity].
  intros k tmp Ht (s' & -> & Hc). inversion Ht; subst s'.
  destruct k; simpl in Hc; congruence.
Qed.

Lemma parse_layout_reads (e : env) (st : state) (l : rotor_layout_t)
  (tmp : json_object) :
  json_object_object_get_ex (jobj st) "layout" = Some tmp ->
  reads_as tmp (layout_name l) ->
  __parse_layout e st = (parse_layout_falls_off e, store_layout l st).
Proof.
  intros Ht Hl.
  destruct (parse_layout_effect e st)
    as [(l' & tmp' & Ht' & Hl' & Hr) | [Hno _]].
  - rewrite Ht in Ht'. inversion Ht'; subst tmp'.
    rewrite (layout_name_inj l l' (reads_as_inj _ _ _ Hl Hl')). exact Hr.
  - destruct (Hno l tmp Ht Hl).
Qed.

Lemma parse_thrust_map_reads (e : env) (st : state) (t : thrust_map_t)
  (tmp : json_object) :
  json_object_object_get_ex (jobj st) "thrust_map" = Some tmp ->
  reads_as tmp (thrust_map_name t) ->
  __parse_thrust_map e st
  = (parse_thrust_map_falls_off e,
     set_settings (set_thrust_map t (settings st)) st).
Proof.
  intros Ht Hl.
  destruct (parse_thrust_map_effect e st)
    as [(t' & tmp' & Ht' & Hl' & Hr) | [Hno _]].
  - rewrite Ht in Ht'. inversion Ht'; subst tmp'.
    rewrite (thrust_map_name_inj t t' (reads_as_inj _ _ _ Hl Hl')). exact Hr.
  - destruct (Hno t tmp Ht Hl).
Qed.

Lemma parse_kill_mode_reads (e : env) (st : state) (k : dsm_kill_mode_t)
  (tmp : json_object) :
  json_object_object_get_ex (jobj st) "dsm_kill_mode" = Some tmp ->
  reads_as tmp (kill_mode_name k) ->
  __parse_kill_mode e st
  = (parse_kill_mode_falls_off e,
     set_settings
       (set_dsm_kill_mode DSM_KILL_DEDICATED_SWITCH (settings st)) st).
Proof.
  intros Ht Hl.
  destruct (parse_kill_mode_effect e st)
    as [(k' & tmp' & Ht' & Hl' & Hr) | [Hno _]].
  - exact Hr.
  - destruct (Hno k tmp Ht Hl).
Qed.

(** X2. [__parse_layout] accepts exactly the values of "layout" that
    are strings reading, up to their first NUL, as one of the five
    layout names.  On one of them it stores the layout together with
    its rotor count (4, 6 or 8) and touches nothing else; on a missing
    key, a value that is not a string or any other string it returns -1
    and changes nothing. *)
Theorem parse_layout_sets_rotor_count (e : env) (st : state) :
  (exists l s,
     json_object_object_get_ex (jobj st) "layout" = Some (JString s)
     /\ c_str s = layout_name l
     /\ fst (__parse_layout e st) = parse_layout_falls_off e
     /\ layout (settings (snd (__parse_layout e st))) = l
     /\ num_rotors (settings (snd (__parse_layout e st)))
        = rotors_of_layout l
     /\ (num_rotors (settings (snd (__parse_layout e st))) = 4
         \/ num_rotors (settings (snd (__parse_layout e st))) = 6
         \/ num_rotors (settings (snd (__parse_layout e st))) = 8)
     /\ snd (__parse_layout e st) = store_layout l st)
  \/ ((forall l s,
         json_object_object_get_ex (jobj st) "layout" = Some (JString s) ->
         c_str s <> layout_name l)
      /\ __parse_layout e st = (-1, st)).
Proof.
  destruct (parse_layout_effect e st)
    as [(l & tmp & Hl & (s & -> & Hs) & ->) | [Hno Hr]]; [left | right].
  - exists l, s. simpl. repeat split; auto.
    destruct l; simpl; auto.
  - split; [| exact Hr].
    intros l s Hl Hs. apply (Hno l (JString s) Hl). exists s. auto.
Qed.

(** X3. [__parse_kill_mode] never stores [DSM_KILL_NEGATIVE_THROTTLE]:
    it accepts the strings that read, up to their first NUL, as the
    name of either kill mode, and for both names the value left in
    [settings.dsm_kill_mode] is [DSM_KILL_DEDICATED_SWITCH]; on any
    other input it returns -1 and changes nothing. *)
Theorem parse_kill_mode_stores_dedicated_switch (e : env) (st : state) :
  (exists k s,
     json_object_object_get_ex (jobj st) "dsm_kill_mode" = Some (JString s)
     /\ c_str s = kill_mode_name k
     /\ fst (__parse_kill_mode e st) = parse_kill_mode_falls_off e
     /\ dsm_kill_mode (settings (snd (__parse_kill_mode e st)))
        = DSM_KILL_DEDICATED_SWITCH)
  \/ ((forall k s,
         json_object_object_get_ex (jobj st) "dsm_kill_mode"
         = Some (JString s) ->
         c_str s <> kill_mode_name k)
      /\ __parse_kill_mode e st = (-1, st)).
Proof.
  destruct (parse_kill_mode_effect e st)
    as [(k & tmp & Hk & (s & -> & Hs) & ->) | [Hno Hr]]; [left | right].
  - exists k, s. simpl. auto.
  - split; [| exact Hr].
    intros k s Hk Hs. apply (Hno k (JString s) Hk). exists s. auto.
Qed.


Lemma length_vector_store (v : rc_vector_t) (i : nat) (x : float) :
  List.length (vector_store v i x) = List.length v.
Proof.
  revert i. induction v as [| y v IH]; intros [| i]; simpl; auto.
Qed.

Lemma firstn_vector_store (v : rc_vector_t) (i : nat) (x : float) :
  (i < List.length v)%nat ->
  firstn (S i) (vector_store v i x) = (firstn i v ++ [x])%list.
Proof.
  revert i. induction v as [| y v IH]; intros [| i] Hi; simpl in *;
    try lia; auto.
  f_equal. apply IH. lia.
Qed.

Lemma skipn_nth_cons (l : list json_object) (i : nat) :
  (i < List.length l)%nat ->
  skipn i l = nth i l JNull :: skipn (S i) l.
Proof.
  revert i. induction l as [| x l IH]; intros [| i] Hi; simpl in *;
    try lia; auto.
  apply IH. lia.
Qed.

(** The loop invariant of the two [for] loops: with [n] iterations left
    at index [i], the entries below [i] are in place and the rest of the
    array is read or rejected. *)
Lemma read_doubles_from (l : list json_object) (n : nat) :
  forall (i : nat) (vec : rc_vector_t),
    (i + n = List.length l)%nat ->
    List.length vec = List.length l ->
    read_doubles (JArray l) n i vec
    = if forallb is_double (skipn i l)
      then Some (firstn i vec ++ map json_object_get_double (skipn i l))%list
      else None.
Proof.
  induction n as [| n IH]; intros i vec Hin Hlen; simpl.
  - rewrite skipn_all2 by lia. simpl.
    rewrite firstn_all2, app_nil_r by lia. reflexivity.
  - cbn [read_doubles json_object_array_get_idx].
    rewrite (skipn_nth_cons l i) by lia. cbn [forallb map].
    change (json_object_is_type (nth i l JNull) json_type_double)
      with (is_double (nth i l JNull)).
    destruct (is_double (nth i l JNull)); cbn [andb]; [| reflexivity].
    rewrite IH by (rewrite ?length_vector_store; lia).
    destruct (forallb is_double (skipn (S i) l)); [| reflexivity].
    rewrite firstn_vector_store by lia.
    rewrite <- app_assoc. reflexivity.
Qed.

(** Both loops as [__parse_controller] runs them: from index 0 over
    the whole array into a freshly allocated vector. *)
Lemma read_doubles_whole (l : list json_object) :
  read_doubles (JArray l)
    (Z.to_nat (json_object_array_length (JArray l))) 0
    (rc_vector_alloc (json_object_array_length (JArray l)))
  = if forallb is_double l
    then Some (map json_object_get_double l)
    else None.
Proof.
  simpl json_object_array_length. rewrite Nat2Z.id.
  rewrite (read_doubles_from l (List.length l) 0).
  - reflexivity.
  - reflexivity.
  - unfold rc_vector_alloc. rewrite Nat2Z.id. apply repeat_length.
Qed.

(** X4. The [for] loops of [__parse_controller] copy a JSON array into
    the vector entry by entry, in order, when every entry is of type
    double; a single entry of another type (an integer literal, say)
    makes them give up, on which the function returns -1. *)
Theorem read_doubles_copies_array (l : list json_object) :
  (forallb is_double l = true ->
   read_doubles (JArray l)
     (Z.to_nat (json_object_array_length (JArray l))) 0
     (rc_vector_alloc (json_object_array_length (JArray l)))
   = Some (map json_object_get_double l))
  /\ (forall x,
        In x l -> is_double x = false ->
        read_doubles (JArray l)
          (Z.to_nat (json_object_array_length (JArray l))) 0
          (rc_vector_alloc (json_object_array_length (JArray l)))
        = None)
  /\ (forall i : Z, is_double (JInt i) = false).
Proof.
  rewrite read_doubles_whole. split; [| split].
  - intros ->. reflexivity.
  - intros x Hin Hx.
    destruct (forallb is_double l) eqn:Hall; [| reflexivity].
    rewrite forallb_forall in Hall. rewrite (Hall x Hin) in Hx.
    discriminate.
  - reflexivity.
Qed.

Lemma read_doubles_copies_array_witness :
  read_doubles (JArray [JDouble 0.1; JDouble 0.2])
    (Z.to_nat (json_object_array_length (JArray [JDouble 0.1; JDouble 0.2])))
    0
    (rc_vector_alloc
       (json_object_array_length (JArray [JDouble 0.1; JDouble 0.2])))
  = Some [0.1%float; 0.2%float]
  /\ read_doubles (JArray [JDouble 0.1; JInt 1])
       (Z.to_nat (json_object_array_length (JArray [JDouble 0.1; JInt 1])))
       0
       (rc_vector_alloc
          (json_object_array_length (JArray [JDouble 0.1; JInt 1])))
     = None.
Proof.
  split.
  - apply (proj1 (read_doubles_copies_array [JDouble 0.1; JDouble 0.2])).
    reflexivity.
  - apply (proj1 (proj2 (read_doubles_copies_array [JDouble 0.1; JInt 1]))
             (JInt 1)).
    + simpl. auto.
    + reflexivity.
Defined.

(** Every way a call of [__parse_controller] can go.  The filter it is
    given is freed first; the function then returns -1, or it hands the
    two vectors to the library constructor that "CT_or_DT" selects and
    returns according to the constructor's result. *)
Lemma parse_controller_cases (j : json_object) (hz : Z) (f : rc_filter_t) :
  __parse_controller j hz f = (-1, rc_filter_free f)
  \/ exists num den,
       proper_transfer_function j num den
       /\ (((exists kind,
                json_object_object_get_ex j "CT_or_DT" = Some kind
                /\ reads_as kind "CT")
            /\ exists w,
                 json_object_object_get_ex j "crossover_freq_rad_per_sec"
                 = Some (JDouble w)
                 /\ __parse_controller j hz f
                    = constructor_result
                        (rc_filter_c2d_tustin (controller_dt hz)
                           (map json_object_get_double num)
                           (map json_object_get_double den) w
                           (rc_filter_free f)))
           \/ ((exists kind,
                  json_object_object_get_ex j "CT_or_DT" = Some kind
                  /\ reads_as kind "DT")
               /\ __parse_controller j hz f
                  = constructor_result
                      (rc_filter_alloc
                         (map json_object_get_double num)
                         (map json_object_get_double den)
                         (controller_dt hz) (rc_filter_free f)))).
Proof.
  unfold __parse_controller, fn.
  unfold bind at 1, modify at 1.
  destruct (json_object_object_get_ex j "gain") as [gain |] eqn:Hgain;
    [| left; reflexivity].
  destruct (json_object_object_get_ex j "numerator") as [na |] eqn:Hnum;
    [| left; reflexivity].
  destruct na as [| ? | ? | ? | ? | num | ?]; try (left; reflexivity).
  cbn [json_object_is_type json_object_get_type json_type_eqb negb].
  destruct (Z.ltb_spec (json_object_array_length (JArray num)) 1)
    as [Hn0 | Hn1]; [left; reflexivity |].
  rewrite read_doubles_whole.
  destruct (forallb is_double num) eqn:Hnd; [| left; reflexivity].
  destruct (json_object_object_get_ex j "denominator") as [da |] eqn:Hden;
    [| left; reflexivity].
  destruct da as [| ? | ? | ? | ? | den | ?]; try (left; reflexivity).
  cbn [json_object_is_type json_object_get_type json_type_eqb negb].
  destruct (Z.ltb_spec (json_object_array_length (JArray den)) 1)
    as [Hd0 | Hd1]; [left; reflexivity |].
  rewrite read_doubles_whole.
  destruct (forallb is_double den) eqn:Hdd; [| left; reflexivity].
  destruct (Z.ltb_spec (json_object_array_length (JArray den))
              (json_object_array_length (JArray num)))
    as [Himp | Hprop]; [left; reflexivity |].
  assert (Hwf : proper_transfer_function j num den).
  { unfold proper_transfer_function. simpl in Hn1, Hprop.
    repeat split; auto; try congruence; lia. }
  destruct (json_object_object_get_ex j "CT_or_DT") as [kind |] eqn:Hkind;
    [| left; reflexivity].
  destruct kind as [| ? | ? | ? | ? | ? | s]; try (left; reflexivity).
  cbn [json_object_is_type json_object_get_type json_type_eqb negb
       json_object_get_string].
  rewrite !strcmp_eqb. c_str_literals.
  destruct (String.eqb_spec (c_str s) "CT") as [Ect | Nct].
  - destruct (json_object_object_get_ex j "crossover_freq_rad_per_sec")
      as [wj |] eqn:Hw; [| left; reflexivity].
    destruct wj as [| ? | w | ? | ? | ? | ?]; try (left; reflexivity).
    right. exists num, den. split; [exact Hwf |]. left.
    split; [exists (JString s); split; [reflexivity | exists s; auto] |].
    exists w. split; [reflexivity |].
    cbn [json_object_is_type json_object_get_type json_type_eqb
         json_object_get_double].
    cbv beta iota zeta delta [bind modify call c_if c_return ret
                               constructor_result].
    fold (controller_dt hz).
    destruct (rc_filter_c2d_tustin (controller_dt hz)
                (map json_object_get_double num)
                (map json_object_get_double den) w (rc_filter_free f))
      as [r f']; simpl.
    destruct (r =? 0); reflexivity.
  - destruct (String.eqb_spec (c_str s) "DT") as [Edt | Ndt];
      [| left; reflexivity].
    right. exists num, den. split; [exact Hwf |]. right.
    split; [exists (JString s); split; [reflexivity | exists s; auto] |].
    cbv beta iota zeta delta [bind modify call c_if c_return ret
                               constructor_result].
    fold (controller_dt hz).
    destruct (rc_filter_alloc (map json_object_get_double num)
                (map json_object_get_double den) (controller_dt hz)
                (rc_filter_free f))
      as [r f']; simpl.
    destruct (r =? 0); reflexivity.
Qed.


(** X5. When [__parse_controller] returns 0, the controller object had
    a "gain" key and "numerator" and "denominator" arrays made of
    doubles only, the numerator not empty and not longer than the
    denominator; "CT_or_DT" was a string reading, up to its first NUL,
    as "CT" (with a double crossover frequency) or as "DT"; and the
    filter left in [*filter] is the one the matching library constructor
    built, from exactly those coefficients and [dt = 1.0/feedback_hz],
    on the freed old filter, returning 0. *)
Theorem parse_controller_success
  (j : json_object) (hz : Z) (f f' : rc_filter_t) :
  __parse_controller j hz f = (0, f') ->
  exists num den,
    proper_transfer_function j num den
    /\ (((exists s,
             json_object_object_get_ex j "CT_or_DT" = Some (JString s)
             /\ c_str s = "CT")
         /\ exists w,
              json_object_object_get_ex j "crossover_freq_rad_per_sec"
              = Some (JDouble w)
              /\ rc_filter_c2d_tustin (controller_dt hz)
                   (map json_object_get_double num)
                   (map json_object_get_double den) w (rc_filter_free f)
                 = (0, f'))
        \/ ((exists s,
               json_object_object_get_ex j "CT_or_DT" = Some (JString s)
               /\ c_str s = "DT")
            /\ rc_filter_alloc
                 (map json_object_get_double num)
                 (map json_object_get_double den)
                 (controller_dt hz) (rc_filter_free f)
               = (0, f'))).
Proof.
  intros Hok.
  assert (Hres : forall r : Z * rc_filter_t,
             constructor_result r = (0, f') -> r = (0, f')).
  { intros [r c]. unfold constructor_result; simpl.
    destruct (Z.eqb_spec r 0) as [-> | N]; intros H; inversion H; auto. }
  destruct (parse_controller_cases j hz f)
    as [Hfail | (num & den & Hwf & [(Hct & w & Hw & Hr) | (Hdt & Hr)])].
  - rewrite Hfail in Hok. discriminate.
  - exists num, den. split; [exact Hwf |]. left.
    destruct Hct as (kind & Hk & s & -> & Hs).
    split; [exists s; auto |].
    exists w. split; [exact Hw |]. apply Hres. congruence.
  - exists num, den. split; [exact Hwf |]. right.
    destruct Hdt as (kind & Hk & s & -> & Hs).
    split; [exists s; auto |].
    apply Hres. congruence.
Qed.

(** X6. [__parse_controller] returns 0 or -1 and never leaves the old
    filter in place.  Whenever the controller object fails one of the
    checks on gain, numerator and denominator (in particular when the
    numerator is longer than the denominator) the function returns -1
    with [*filter] freed and nothing built in its place. *)
Theorem parse_controller_rejects
  (j : json_object) (hz : Z) (f : rc_filter_t) :
  (fst (__parse_controller j hz f) = 0
   \/ fst (__parse_controller j hz f) = -1)
  /\ ((forall num den, ~ proper_transfer_function j num den) ->
      __parse_controller j hz f = (-1, rc_filter_free f))
  /\ (forall num den,
        json_object_object_get_ex j "numerator" = Some (JArray num) ->
        json_object_object_get_ex j "denominator" = Some (JArray den) ->
        (List.length den < List.length num)%nat ->
        __parse_controller j hz f = (-1, rc_filter_free f)).
Proof.
  assert (Hcode : forall r : Z * rc_filter_t,
             fst (constructor_result r) = 0
             \/ fst (constructor_result r) = -1).
  { intros [r c]. unfold constructor_result; simpl.
    destruct (r =? 0); auto. }
  split; [| split].
  - destruct (parse_controller_cases j hz f)
      as [-> | (num & den & _ & [(_ & w & _ & ->) | (_ & ->)])]; auto.
  - intros Hnone.
    destruct (parse_controller_cases j hz f)
      as [Hr | (num & den & Hwf & _)]; [exact Hr |].
    destruct (Hnone num den Hwf).
  - intros num den Hnum Hden Hlen.
    destruct (parse_controller_cases j hz f)
      as [Hr | (num' & den' & Hwf & _)]; [exact Hr |].
    destruct Hwf as (_ & Hn' & Hd' & _ & _ & Hle).
    rewrite Hnum in Hn'. rewrite Hden in Hd'.
    inversion Hn'; inversion Hd'; subst. lia.
Qed.

End WithRcFilter.

Import Example.

Lemma parse_flight_mode_names_witness :
  __parse_flight_mode (JString alt_hold_then_junk) TEST_BENCH_4DOF
  = (0, ALT_HOLD_6DOF)
  /\ __parse_flight_mode (JString "ALT_HOLD") TEST_BENCH_4DOF
     = (-1, TEST_BENCH_4DOF).
Proof.
  destruct parse_flight_mode_names as (_ & Hnul & _ & _ & Hno).
  split.
  - apply (Hnul ALT_HOLD_6DOF "junk" TEST_BENCH_4DOF).
  - apply (Hno (JString "ALT_HOLD") TEST_BENCH_4DOF).
    vm_compute. discriminate.
Defined.

Lemma parse_layout_sets_rotor_count_witness :
  num_rotors
    (settings (snd (__parse_layout env_ok (set_jobj names_with_nul fresh))))
  = 4.
Proof.
  destruct (parse_layout_sets_rotor_count env_ok
              (set_jobj names_with_nul fresh))
    as [(l & s & Hl & Hs & _ & _ & Hn & _) | [Hno _]].
  - vm_compute in Hl. inversion Hl; subst s.
    vm_compute in Hs. destruct l; try discriminate Hs. exact Hn.
  - exfalso.
    apply (Hno LAYOUT_4X ("LAYOUT_4X" ++ String Ascii.zero "8"));
      reflexivity.
Defined.

Lemma parse_kill_mode_stores_dedicated_switch_witness :
  dsm_kill_mode
    (settings (snd (__parse_kill_mode env_ok (set_jobj names_with_nul fresh))))
  = DSM_KILL_DEDICATED_SWITCH.
Proof.
  destruct (parse_kill_mode_stores_dedicated_switch env_ok
              (set_jobj names_with_nul fresh))
    as [(k & s & _ & _ & _ & Hk) | [Hno _]].
  - exact Hk.
  - exfalso.
    apply (Hno DSM_KILL_NEGATIVE_THROTTLE
             ("DSM_KILL_NEGATIVE_THROTTLE" ++ String Ascii.zero "!"));
      reflexivity.
Defined.

Lemma parse_controller_success_witness :
  exists num den,
    proper_transfer_function proper_controller num den
    /\ List.length num = 1%nat /\ List.length den = 2%nat.
Proof.
  destruct (@parse_controller_success lib proper_controller 100 None
              (snd (@__parse_controller lib proper_controller 100 None)))
    as (num & den & Hwf & _).
  - vm_compute. reflexivity.
  - exists num, den. split; [exact Hwf |].
    destruct Hwf as (_ & Hn & Hd & _).
    vm_compute in Hn, Hd. inversion Hn; inversion Hd. auto.
Defined.

Lemma parse_controller_rejects_witness :
  @__parse_controller lib improper_controller 100
     (Some ([1%float], [1%float], 1%float))
  = (-1, None).
Proof.
  apply (proj2 (proj2 (@parse_controller_rejects lib improper_controller 100
                         (Some ([1%float], [1%float], 1%float))))
           [JDouble 1; JDouble 0.25] [JDouble 0.5]).
  - reflexivity.
  - reflexivity.
  - simpl. lia.
Defined.

End ParserFacts.

Module LoaderFacts.
Import Json CStmt CStmtFacts Settings SettingsFacts ParserFacts.
Local Open Scope stmt_scope.

#[local] Arguments json_object_get_int : simpl never.

(** Within the 32-bit range [json_object_get_int] is the identity. *)
Lemma get_int_in_range (i lo hi : Z) :
  INT32_MIN < lo -> hi < INT32_MAX ->
  lo <= json_object_get_int (JInt i) <= hi ->
  json_object_get_int (JInt i) = i.
Proof.
  unfold json_object_get_int, INT32_MIN, INT32_MAX.
  destruct (Z.ltb_spec i (-2147483648)); [lia |].
  destruct (Z.ltb_spec 2147483647 i); lia.
Qed.

Section WithRcFilter.
Context {L : RcFilterLib}.

(** Rules for the statements of [settings_load_from_file] when nothing
    has to be shown about a return of -1. *)
Section Rules.
Variable R : Z -> state -> Prop.
Hypothesis R_fail : forall st, R (-1) st.

Lemma rule_PARSE_BOOL (name : string)
  (set : bool -> settings_t -> settings_t)
  (Q : unit -> state -> Prop) (st : state) :
  (forall b,
     json_object_object_get_ex (jobj st) name = Some (JBoolean b) ->
     Q tt (set_settings (set b (settings st)) st)) ->
  wp (PARSE_BOOL name set) Q R st.
Proof.
  intros HQ. unfold PARSE_BOOL, wp, bind, gets, assign, modify; simpl.
  destruct (json_object_object_get_ex (jobj st) name) as [tmp |];
    [| apply R_fail].
  destruct tmp; simpl; auto.
Qed.

Lemma rule_PARSE_INT_MIN_MAX (name : string)
  (set : Z -> settings_t -> settings_t) (min max : Z)
  (Q : unit -> state -> Prop) (st : state) :
  INT32_MIN < min -> max < INT32_MAX ->
  (forall v,
     json_object_object_get_ex (jobj st) name = Some (JInt v) ->
     min <= v <= max ->
     Q tt (set_settings (set v (settings st)) st)) ->
  wp (PARSE_INT_MIN_MAX name set min max) Q R st.
Proof.
  intros Hlo Hhi HQ.
  unfold PARSE_INT_MIN_MAX, wp, bind, gets, assign, modify, c_if; simpl.
  destruct (json_object_object_get_ex (jobj st) name) as [tmp |];
    [| apply R_fail].
  destruct tmp as [| ? | ? | i | ? | ? | ?]; simpl; auto.
  destruct (Z.ltb_spec (json_object_get_int (JInt i)) min); simpl;
    [apply R_fail |].
  destruct (Z.ltb_spec max (json_object_get_int (JInt i))); simpl;
    [apply R_fail |].
  assert (E : json_object_get_int (JInt i) = i)
    by (apply (get_int_in_range i min max); lia).
  rewrite E in *. apply HQ; auto.
Qed.

Lemma rule_PARSE_POLARITY (name : string)
  (set : Z -> settings_t -> settings_t)
  (Q : unit -> state -> Prop) (st : state) :
  (forall v,
     json_object_object_get_ex (jobj st) name = Some (JInt v) ->
     v = -1 \/ v = 1 ->
     Q tt (set_settings (set v (settings st)) st)) ->
  wp (PARSE_POLARITY name set) Q R st.
Proof.
  intros HQ.
  unfold PARSE_POLARITY, wp, bind, gets, assign, modify, c_if; simpl.
  destruct (json_object_object_get_ex (jobj st) name) as [tmp |];
    [| apply R_fail].
  destruct tmp as [| ? | ? | i | ? | ? | ?]; simpl; auto.
  destruct (Z.eqb_spec (json_object_get_int (JInt i)) (-1)) as [E1 | N1];
    simpl.
  - assert (E : json_object_get_int (JInt i) = i)
      by (apply (get_int_in_range i (-1) 1);
          unfold INT32_MIN, INT32_MAX; lia).
    rewrite E in *. apply HQ; auto.
  - destruct (Z.eqb_spec (json_object_get_int (JInt i)) 1) as [E2 | N2];
      simpl; [| apply R_fail].
    assert (E : json_object_get_int (JInt i) = i)
      by (apply (get_int_in_range i (-1) 1);
          unfold INT32_MIN, INT32_MAX; lia).
    rewrite E in *. apply HQ; auto.
Qed.

Lemma rule_PARSE_DOUBLE_MIN_MAX (name : string) (min max : float)
  (Q : unit -> state -> Prop) (st : state) :
  (forall d,
     json_object_object_get_ex (jobj st) name = Some (JDouble d) ->
     PrimFloat.ltb d min = false -> PrimFloat.ltb max d = false ->
     Q tt (set_settings (set_v_nominal d (settings st)) st)) ->
  wp (PARSE_DOUBLE_MIN_MAX name min max) Q R st.
Proof.
  intros HQ.
  unfold PARSE_DOUBLE_MIN_MAX, wp, bind, gets, assign, modify, c_if; simpl.
  destruct (json_object_object_get_ex (jobj st) name) as [tmp |];
    [| apply R_fail].
  destruct tmp as [| ? | d | ? | ? | ? | ?]; simpl; auto.
  destruct (PrimFloat.ltb d min) eqn:E1; simpl; [apply R_fail |].
  destruct (PrimFloat.ltb max d) eqn:E2; simpl; [apply R_fail |].
  apply HQ; auto.
Qed.

Lemma rule_parse_flight_mode_N (key : string)
  (member : settings_t -> flight_mode_t)
  (set : flight_mode_t -> settings_t -> settings_t)
  (Q : unit -> state -> Prop) (st : state) :
  (forall m tmp,
     json_object_object_get_ex (jobj st) key = Some tmp ->
     reads_as tmp (flight_mode_name m) ->
     Q tt (set_settings (set m (settings st)) st)) ->
  wp (parse_flight_mode_N key member set) Q R st.
Proof.
  intros HQ.
  unfold parse_flight_mode_N, wp, bind, gets, call, parse_flight_mode_into,
    c_if; simpl.
  destruct (json_object_object_get_ex (jobj st) key) as [tmp |] eqn:Htmp;
    [| apply R_fail].
  destruct (parse_flight_mode_cases tmp (member (settings st)))
    as [(m & Hm & ->) | [_ ->]]; simpl; eauto.
Qed.

Lemma rule_parse_controller_N (key : string)
  (parse : json_object -> state -> Z * state)
  (setc : rc_filter_t -> state -> state)
  (Q : unit -> state -> Prop) (st : state) :
  (forall tmp s, exists c, snd (parse tmp s) = setc c s) ->
  (forall c, Q tt (setc c st)) ->
  wp (parse_controller_N key parse) Q R st.
Proof.
  intros Hparse HQ.
  unfold parse_controller_N, wp, bind, gets, call, c_if; simpl.
  destruct (json_object_object_get_ex (jobj st) key) as [tmp |];
    [| apply R_fail].
  destruct (Hparse tmp st) as [c Hc].
  destruct (parse tmp st) as [r s']; simpl in *. subst s'.
  destruct (negb (r =? 0)); simpl; auto.
Qed.

Lemma rule_parse_layout (e : env) (k : stmt state unit)
  (Q : unit -> state -> Prop) (st : state) :
  (forall l tmp,
     json_object_object_get_ex (jobj st) "layout" = Some tmp ->
     reads_as tmp (layout_name l) ->
     wp k Q R (store_layout l st)) ->
  wp (r <- call (__parse_layout e) ;; c_if (r =? -1) (c_return (-1)) ;; k)
     Q R st.
Proof.
  intros HQ. apply wp_bind, wp_call.
  destruct (parse_layout_effect e st)
    as [(l & tmp & Ht & Hl & ->) | [_ ->]]; simpl.
  - apply wp_bind, wp_c_if; intros _; [apply wp_c_return, R_fail | eauto].
  - apply R_fail.
Qed.

Lemma rule_parse_thrust_map (e : env) (k : stmt state unit)
  (Q : unit -> state -> Prop) (st : state) :
  (forall t tmp,
     json_object_object_get_ex (jobj st) "thrust_map" = Some tmp ->
     reads_as tmp (thrust_map_name t) ->
     wp k Q R (set_settings (set_thrust_map t (settings st)) st)) ->
  wp (r <- call (__parse_thrust_map e) ;;
      c_if (r =? -1) (c_return (-1)) ;; k)
     Q R st.
Proof.
  intros HQ. apply wp_bind, wp_call.
  destruct (parse_thrust_map_effect e st)
    as [(t & tmp & Ht & Hl & ->) | [_ ->]]; simpl.
  - apply wp_bind, wp_c_if; intros _; [apply wp_c_return, R_fail | eauto].
  - apply R_fail.
Qed.

Lemma rule_parse_kill_mode (e : env) (k : stmt state unit)
  (Q : unit -> state -> Prop) (st : state) :
  (forall km tmp,
     json_object_object_get_ex (jobj st) "dsm_kill_mode" = Some tmp ->
     reads_as tmp (kill_mode_name km) ->
     wp k Q R
        (set_settings
           (set_dsm_kill_mode DSM_KILL_DEDICATED_SWITCH (settings st)) st)) ->
  wp (r <- call (__parse_kill_mode e) ;;
      c_if (r =? -1) (c_return (-1)) ;; k)
     Q R st.
Proof.
  intros HQ. apply wp_bind, wp_call.
  destruct (parse_kill_mode_effect e st)
    as [(km & tmp & Ht & Hl & ->) | [_ ->]]; simpl.
  - apply wp_bind, wp_c_if; intros _; [apply wp_c_return, R_fail | eauto].
  - apply R_fail.
Qed.

End Rules.


Lemma parse_controller_sets (tmp : json_object) (s : state) :
  (exists c, snd (parse_roll_controller tmp s) = set_roll_controller c s)
  /\ (exists c, snd (parse_pitch_controller tmp s) = set_pitch_controller c s)
  /\ (exists c, snd (parse_yaw_controller tmp s) = set_yaw_controller c s)
  /\ (exists c,
        snd (parse_altitude_controller tmp s) = set_altitude_controller c s).
Proof.
  unfold parse_roll_controller, parse_pitch_controller,
    parse_yaw_controller, parse_altitude_controller.
  repeat split;
    match goal with
    | |- context [__parse_controller ?t ?hz ?c] =>
        destruct (__parse_controller t hz c) as [r c']
    end; exists c'; reflexivity.
Qed.

(** One statement of the body, by its rule. *)
Ltac load_step HR :=
  lazymatch goal with
  | |- wp (bind (call (__parse_layout _)) _) _ _ _ =>
      apply (rule_parse_layout _ HR); intros ? ? ? ?
  | |- wp (bind (call (__parse_thrust_map _)) _) _ _ _ =>
      apply (rule_parse_thrust_map _ HR); intros ? ? ? ?
  | |- wp (bind (call (__parse_kill_mode _)) _) _ _ _ =>
      apply (rule_parse_kill_mode _ HR); intros ? ? ? ?
  | |- wp (PARSE_INT_MIN_MAX _ _ _ _) _ _ _ =>
      apply (rule_PARSE_INT_MIN_MAX _ HR);
      [reflexivity | reflexivity | intros ? ? ?]
  | |- wp (PARSE_POLARITY _ _) _ _ _ =>
      apply (rule_PARSE_POLARITY _ HR); intros ? ? ?
  | |- wp (PARSE_BOOL _ _) _ _ _ =>
      apply (rule_PARSE_BOOL _ HR); intros ? ?
  | |- wp (PARSE_DOUBLE_MIN_MAX _ _ _) _ _ _ =>
      apply (rule_PARSE_DOUBLE_MIN_MAX _ HR); intros ? ? ? ?
  | |- wp parse_enable_logging _ _ _ =>
      apply (rule_PARSE_BOOL _ HR "enable_logging" set_enable_logging);
      intros ? ?
  | |- wp (parse_flight_mode_N _ _ _) _ _ _ =>
      apply (rule_parse_flight_mode_N _ HR); intros ? ? ? ?
  | |- wp (parse_controller_N _ parse_roll_controller) _ _ _ =>
      apply (rule_parse_controller_N _ HR _ _ set_roll_controller);
      [intros ? ?; apply parse_controller_sets | intros ?]
  | |- wp (parse_controller_N _ parse_pitch_controller) _ _ _ =>
      apply (rule_parse_controller_N _ HR _ _ set_pitch_controller);
      [intros ? ?; apply parse_controller_sets | intros ?]
  | |- wp (parse_controller_N _ parse_yaw_controller) _ _ _ =>
      apply (rule_parse_controller_N _ HR _ _ set_yaw_controller);
      [intros ? ?; apply parse_controller_sets | intros ?]
  | |- wp (parse_controller_N _ parse_altitude_controller) _ _ _ =>
      apply (rule_parse_controller_N _ HR _ _ set_altitude_controller);
      [intros ? ?; apply parse_controller_sets | intros ?]
  | |- wp parse_feedback_hz _ _ _ =>
      eapply wp_mono;
      [ apply parse_feedback_hz_spec
      | intros _ ? (? & ? & ? & ->)
      | intros ? ? (-> & _); apply HR ]
  | |- wp (modify _) _ _ _ => apply wp_modify
  | |- wp (c_return _) _ _ _ => apply wp_c_return
  | |- wp (bind _ _) _ _ _ => apply wp_bind
  | |- wp (parse_physical _) _ _ _ => unfold parse_physical
  | |- wp parse_flight_modes _ _ _ => unfold parse_flight_modes
  | |- wp (parse_DSM_config _) _ _ _ => unfold parse_DSM_config
  | |- wp parse_printf_options _ _ _ => unfold parse_printf_options
  | |- wp parse_controllers _ _ _ => unfold parse_controllers
  | |- wp (after_enable_logging _) _ _ _ => unfold after_enable_logging
  | |- wp (start_parsing_data _) _ _ _ => unfold start_parsing_data
  end;
  cbn [jobj settings roll_controller pitch_controller yaw_controller
       altitude_controller was_load_successful SETTINGS_FILE
       set_settings store_layout set_roll_controller set_pitch_controller
       set_yaw_controller set_altitude_controller set_was_load_successful]
    in *.

(** When the parse returns 0, every range check has passed on the value
    now in [settings], and that value is the one in the object. *)
Lemma start_parsing_data_checks (e : env) (st : state) :
  wp (start_parsing_data e) (fun _ _ => False)
    (fun z st' =>
       z = 0 ->
       valid_settings (settings st') /\ mirrors (jobj st) (settings st'))
    st.
Proof.
  destruct st as [j s r p y a w f].
  set (R := fun (z : Z) (st' : state) =>
              z = 0 ->
              valid_settings (settings st')
              /\ mirrors (jobj (Build_state j s r p y a w f)) (settings st')).
  assert (HR : forall st', R (-1) st') by (intros st' H; discriminate).
  change (wp (start_parsing_data e) (fun _ _ => False) R
            (Build_state j s r p y a w f)).
  repeat load_step HR.
  intros _. unfold valid_settings, mirrors.
  cbn -[reads_as json_object_object_get_ex].
  repeat split; eauto; try lia.
Qed.


(** What a load that returns 0 leaves in [settings]. *)
Lemma load_success_settings (e : env) (st : state) :
  fst (settings_load_from_file e st) = 0 ->
  valid_settings (settings (snd (settings_load_from_file e st)))
  /\ mirrors (parsed_object st)
       (settings (snd (settings_load_from_file e st))).
Proof.
  unfold settings_load_from_file.
  apply (wp_fn _
    (fun z st' =>
       z = 0 ->
       valid_settings (settings st')
       /\ mirrors (parsed_object st) (settings st'))).
  apply wp_bind, wp_modify.
  unfold parsed_object.
  destruct (SETTINGS_FILE st) as [file |] eqn:Hfile.
  - eapply wp_seq;
      [apply (read_in_file_contents_file e file); exact Hfile | | ]; simpl.
    2: { intros z s1 (-> & _) H. discriminate. }
    intros _ s1 (-> & _).
    eapply wp_mono; [apply start_parsing_data_checks | | ]; simpl; auto.
  - eapply wp_seq;
      [apply (read_in_file_contents_missing e); exact Hfile | | ]; simpl.
    2: { intros z s1 []. }
    intros _ s1 [f0 ->].
    eapply wp_mono; [apply start_parsing_data_checks | | ]; simpl; auto.
Qed.

(** X7. After a load that returned 0 every scalar member of [settings]
    satisfies the range the loader checks: the rotor count is the one of
    the layout, [v_nominal] is neither below 7.0 nor above 18.0, there
    are 1 to 3 DSM modes, every DSM channel is between 1 and 9, every
    polarity is -1 or 1, the kill mode is the dedicated switch and
    [feedback_hz] is 50, 100 or 200. *)
Theorem successful_load_is_valid (e : env) (st : state) :
  fst (settings_load_from_file e st) = 0 ->
  valid_settings (settings (snd (settings_load_from_file e st))).
Proof. intros Hz. apply (load_success_settings e st Hz). Qed.

(** X8. After a load that returned 0 every scalar member of [settings]
    other than [dsm_kill_mode] holds the value the parsed object (the
    file, or the defaults when there was no file) holds under the
    member's key: a string that reads, up to its first NUL, as the name
    of the stored enumerator; integers, doubles and booleans stored
    unchanged.  Under "dsm_kill_mode" the object holds a string that
    reads as the name of one of the two kill modes, which need not be
    the one stored. *)
Theorem successful_load_mirrors_file (e : env) (st : state) :
  fst (settings_load_from_file e st) = 0 ->
  mirrors (parsed_object st)
    (settings (snd (settings_load_from_file e st))).
Proof. intros Hz. apply (load_success_settings e st Hz). Qed.

End WithRcFilter.

Import Example.

Lemma successful_load_is_valid_witness :
  valid_settings
    (settings
       (snd (settings_load_from_file env_ok (with_file logging_on_200hz)))).
Proof.
  apply (successful_load_is_valid env_ok (with_file logging_on_200hz)).
  vm_compute. reflexivity.
Defined.

Lemma successful_load_mirrors_file_witness :
  mirrors logging_on_200hz
    (settings
       (snd (settings_load_from_file env_ok (with_file logging_on_200hz)))).
Proof.
  apply (successful_load_mirrors_file env_ok (with_file logging_on_200hz)).
  vm_compute. reflexivity.
Defined.


Section WithRcFilter.
Context {L : RcFilterLib}.

(** Rules for the statements of [settings_load_from_file] on an object
    that passes their checks. *)
Section Accepting.
Variables (Q : unit -> state -> Prop) (R : Z -> state -> Prop).

Lemma ok_PARSE_BOOL (name : string)
  (set : bool -> settings_t -> settings_t) (b : bool) (st : state) :
  json_object_object_get_ex (jobj st) name = Some (JBoolean b) ->
  Q tt (set_settings (set b (settings st)) st) ->
  wp (PARSE_BOOL name set) Q R st.
Proof.
  intros Hb HQ. unfold PARSE_BOOL, wp, bind, gets, assign, modify; simpl.
  rewrite Hb; simpl. exact HQ.
Qed.

Lemma ok_PARSE_INT_MIN_MAX (name : string)
  (set : Z -> settings_t -> settings_t) (min max v : Z) (st : state) :
  json_object_object_get_ex (jobj st) name = Some (JInt v) ->
  INT32_MIN <= v <= INT32_MAX ->
  min <= v <= max ->
  Q tt (set_settings (set v (settings st)) st) ->
  wp (PARSE_INT_MIN_MAX name set min max) Q R st.
Proof.
  intros Hv H32 Hr HQ.
  unfold PARSE_INT_MIN_MAX, wp, bind, gets, assign, modify, c_if; simpl.
  rewrite Hv; simpl.
  assert (E : json_object_get_int (JInt v) = v).
  { unfold json_object_get_int.
    destruct (Z.ltb_spec v INT32_MIN); [lia |].
    destruct (Z.ltb_spec INT32_MAX v); [lia | reflexivity]. }
  rewrite E.
  destruct (Z.ltb_spec v min); [lia |].
  destruct (Z.ltb_spec max v); [lia |]. simpl. exact HQ.
Qed.

Lemma ok_PARSE_POLARITY (name : string)
  (set : Z -> settings_t -> settings_t) (v : Z) (st : state) :
  json_object_object_get_ex (jobj st) name = Some (JInt v) ->
  v = -1 \/ v = 1 ->
  Q tt (set_settings (set v (settings st)) st) ->
  wp (PARSE_POLARITY name set) Q R st.
Proof.
  intros Hv Hpol HQ.
  unfold PARSE_POLARITY, wp, bind, gets, assign, modify, c_if; simpl.
  rewrite Hv; simpl.
  destruct Hpol as [-> | ->]; exact HQ.
Qed.

Lemma ok_PARSE_DOUBLE_MIN_MAX (name : string) (min max d : float)
  (st : state) :
  json_object_object_get_ex (jobj st) name = Some (JDouble d) ->
  PrimFloat.ltb d min = false ->
  PrimFloat.ltb max d = false ->
  Q tt (set_settings (set_v_nominal d (settings st)) st) ->
  wp (PARSE_DOUBLE_MIN_MAX name min max) Q R st.
Proof.
  intros Hd H1 H2 HQ.
  unfold PARSE_DOUBLE_MIN_MAX, wp, bind, gets, assign, modify, c_if; simpl.
  rewrite Hd; simpl. rewrite H1, H2; simpl. exact HQ.
Qed.

Lemma ok_parse_flight_mode_N (key : string)
  (member : settings_t -> flight_mode_t)
  (set : flight_mode_t -> settings_t -> settings_t) (m : flight_mode_t)
  (tmp : json_object) (st : state) :
  json_object_object_get_ex (jobj st) key = Some tmp ->
  reads_as tmp (flight_mode_name m) ->
  Q tt (set_settings (set m (settings st)) st) ->
  wp (parse_flight_mode_N key member set) Q R st.
Proof.
  intros Ht Hm HQ.
  unfold parse_flight_mode_N, wp, bind, gets, call, parse_flight_mode_into,
    c_if; simpl.
  rewrite Ht, (parse_flight_mode_reads tmp m _ Hm). simpl. exact HQ.
Qed.

Lemma ok_parse_feedback_hz (v : Z) (st : state) :
  json_object_object_get_ex (jobj st) "feedback_hz" = Some (JInt v) ->
  v = 50 \/ v = 100 \/ v = 200 ->
  Q tt (set_settings (set_feedback_hz v (settings st)) st) ->
  wp parse_feedback_hz Q R st.
Proof.
  intros Hv Hin HQ.
  unfold parse_feedback_hz, PARSE_INT, wp, bind, gets, assign, modify, c_if;
    simpl.
  rewrite Hv; simpl.
  destruct Hin as [-> | [-> | ->]]; exact HQ.
Qed.

Lemma ok_parse_controller_N (key : string)
  (parse : json_object -> state -> Z * state)
  (setc : rc_filter_t -> state -> state) (tmp : json_object) (st : state) :
  json_object_object_get_ex (jobj st) key = Some tmp ->
  fst (parse tmp st) = 0 ->
  (forall s, exists c, snd (parse tmp s) = setc c s) ->
  (forall c, Q tt (setc c st)) ->
  wp (parse_controller_N key parse) Q R st.
Proof.
  intros Htmp Hz Hset HQ.
  unfold parse_controller_N, wp, bind, gets, call, c_if; simpl.
  rewrite Htmp.
  destruct (Hset st) as [c Hc].
  destruct (parse tmp st) as [r s']; simpl in *. subst r s'. simpl.
  apply HQ.
Qed.

Lemma ok_parse_layout (e : env) (k : stmt state unit) (l : rotor_layout_t)
  (tmp : json_object) (st : state) :
  json_object_object_get_ex (jobj st) "layout" = Some tmp ->
  reads_as tmp (layout_name l) ->
  parse_layout_falls_off e <> -1 ->
  wp k Q R (store_layout l st) ->
  wp (r <- call (__parse_layout e) ;; c_if (r =? -1) (c_return (-1)) ;; k)
     Q R st.
Proof.
  intros Ht Hl Hoff HQ. apply wp_bind, wp_call.
  rewrite (parse_layout_reads e st l tmp Ht Hl); simpl.
  apply wp_bind, wp_c_if; intros H; [| exact HQ].
  apply Z.eqb_eq in H. contradiction.
Qed.

Lemma ok_parse_thrust_map (e : env) (k : stmt state unit) (t : thrust_map_t)
  (tmp : json_object) (st : state) :
  json_object_object_get_ex (jobj st) "thrust_map" = Some tmp ->
  reads_as tmp (thrust_map_name t) ->
  parse_thrust_map_falls_off e <> -1 ->
  wp k Q R (set_settings (set_thrust_map t (settings st)) st) ->
  wp (r <- call (__parse_thrust_map e) ;;
      c_if (r =? -1) (c_return (-1)) ;; k)
     Q R st.
Proof.
  intros Ht Hl Hoff HQ. apply wp_bind, wp_call.
  rewrite (parse_thrust_map_reads e st t tmp Ht Hl); simpl.
  apply wp_bind, wp_c_if; intros H; [| exact HQ].
  apply Z.eqb_eq in H. contradiction.
Qed.

Lemma ok_parse_kill_mode (e : env) (k : stmt state unit)
  (km : dsm_kill_mode_t) (tmp : json_object) (st : state) :
  json_object_object_get_ex (jobj st) "dsm_kill_mode" = Some tmp ->
  reads_as tmp (kill_mode_name km) ->
  parse_kill_mode_falls_off e <> -1 ->
  wp k Q R
     (set_settings
        (set_dsm_kill_mode DSM_KILL_DEDICATED_SWITCH (settings st)) st) ->
  wp (r <- call (__parse_kill_mode e) ;;
      c_if (r =? -1) (c_return (-1)) ;; k)
     Q R st.
Proof.
  intros Ht Hk Hoff HQ. apply wp_bind, wp_call.
  rewrite (parse_kill_mode_reads e st km tmp Ht Hk); simpl.
  apply wp_bind, wp_c_if; intros H; [| exact HQ].
  apply Z.eqb_eq in H. contradiction.
Qed.

End Accepting.


(** The value a controller parse returns is the one
    [__parse_controller] returns on the loop frequency and the filter
    the state holds. *)
Lemma fst_parse_controller (tmp : json_object) (s : state) :
  fst (parse_roll_controller tmp s)
  = fst (__parse_controller tmp (feedback_hz (settings s))
           (roll_controller s))
  /\ fst (parse_pitch_controller tmp s)
     = fst (__parse_controller tmp (feedback_hz (settings s))
              (pitch_controller s))
  /\ fst (parse_yaw_controller tmp s)
     = fst (__parse_controller tmp (feedback_hz (settings s))
              (yaw_controller s))
  /\ fst (parse_altitude_controller tmp s)
     = fst (__parse_controller tmp (feedback_hz (settings s))
              (altitude_controller s)).
Proof.
  unfold parse_roll_controller, parse_pitch_controller,
    parse_yaw_controller, parse_altitude_controller.
  repeat split;
    match goal with
    | |- context [__parse_controller ?t ?hz ?c] =>
        destruct (__parse_controller t hz c) as [r c']
    end; reflexivity.
Qed.

(** One statement of the body, on an object that passes its check. *)
Ltac accept_controller :=
  [> eassumption
   | first [ rewrite (proj1 (fst_parse_controller _ _))
           | rewrite (proj1 (proj2 (fst_parse_controller _ _)))
           | rewrite (proj1 (proj2 (proj2 (fst_parse_controller _ _))))
           | rewrite (proj2 (proj2 (proj2 (fst_parse_controller _ _)))) ];
     assumption
   | intros ?; apply parse_controller_sets
   | intros ? ].

Ltac accept_step :=
  lazymatch goal with
  | |- wp (bind (call (__parse_layout _)) _) _ _ _ =>
      eapply ok_parse_layout; [eassumption | eassumption | assumption |]
  | |- wp (bind (call (__parse_thrust_map _)) _) _ _ _ =>
      eapply ok_parse_thrust_map; [eassumption | eassumption | assumption |]
  | |- wp (bind (call (__parse_kill_mode _)) _) _ _ _ =>
      eapply ok_parse_kill_mode; [eassumption | eassumption | assumption |]
  | |- wp (PARSE_INT_MIN_MAX _ _ _ _) _ _ _ =>
      eapply ok_PARSE_INT_MIN_MAX;
      [eassumption | unfold INT32_MIN, INT32_MAX; lia | lia |]
  | |- wp (PARSE_POLARITY _ _) _ _ _ =>
      eapply ok_PARSE_POLARITY; [eassumption | assumption |]
  | |- wp (PARSE_BOOL _ _) _ _ _ =>
      eapply ok_PARSE_BOOL; [eassumption |]
  | |- wp (PARSE_DOUBLE_MIN_MAX _ _ _) _ _ _ =>
      eapply ok_PARSE_DOUBLE_MIN_MAX; [eassumption | assumption | assumption |]
  | |- wp parse_enable_logging _ _ _ =>
      eapply (ok_PARSE_BOOL _ _ "enable_logging" set_enable_logging);
      [eassumption |]
  | |- wp (parse_flight_mode_N _ _ _) _ _ _ =>
      eapply ok_parse_flight_mode_N; [eassumption | eassumption |]
  | |- wp parse_feedback_hz _ _ _ =>
      eapply ok_parse_feedback_hz; [eassumption | assumption |]
  | |- wp (parse_controller_N _ parse_roll_controller) _ _ _ =>
      eapply (ok_parse_controller_N _ _ _ _ set_roll_controller);
      accept_controller
  | |- wp (parse_controller_N _ parse_pitch_controller) _ _ _ =>
      eapply (ok_parse_controller_N _ _ _ _ set_pitch_controller);
      accept_controller
  | |- wp (parse_controller_N _ parse_yaw_controller) _ _ _ =>
      eapply (ok_parse_controller_N _ _ _ _ set_yaw_controller);
      accept_controller
  | |- wp (parse_controller_N _ parse_altitude_controller) _ _ _ =>
      eapply (ok_parse_controller_N _ _ _ _ set_altitude_controller);
      accept_controller
  | |- wp (modify _) _ _ _ => apply wp_modify
  | |- wp (c_return _) _ _ _ => apply wp_c_return
  | |- wp (bind _ _) _ _ _ => apply wp_bind
  | |- wp (parse_physical _) _ _ _ => unfold parse_physical
  | |- wp parse_flight_modes _ _ _ => unfold parse_flight_modes
  | |- wp (parse_DSM_config _) _ _ _ => unfold parse_DSM_config
  | |- wp parse_printf_options _ _ _ => unfold parse_printf_options
  | |- wp parse_controllers _ _ _ => unfold parse_controllers
  | |- wp (after_enable_logging _) _ _ _ => unfold after_enable_logging
  | |- wp (start_parsing_data _) _ _ _ => unfold start_parsing_data
  end;
  cbn [jobj settings roll_controller pitch_controller yaw_controller
       altitude_controller was_load_successful SETTINGS_FILE
       set_settings store_layout set_roll_controller set_pitch_controller
       set_yaw_controller set_altitude_controller set_was_load_successful].

(** The parse returns 0 on every object that holds valid members and
    four controllers accepted at the loop frequency of those members and
    the filters the state holds, and it leaves exactly those members in
    [settings]. *)
Lemma start_parsing_data_accepts
  (e : env) (st : state) (s : settings_t) :
  mirrors (jobj st) s ->
  valid_settings s ->
  controllers_accepted (jobj st) (feedback_hz s) st ->
  falls_off_not_minus_1 e ->
  wp (start_parsing_data e) (fun _ _ => False)
    (fun z st' =>
       z = 0 /\ settings st' = s /\ was_load_successful st' = 1
       /\ jobj st' = jobj st)
    st.
Proof.
  intros Hmir Hval Hctl (Hoff1 & Hoff2 & Hoff3).
  destruct st as [j s0 r p y a w f].
  unfold controllers_accepted in Hctl.
  cbn [jobj roll_controller pitch_controller yaw_controller
       altitude_controller] in *.
  destruct Hctl
    as ((cr & Hcr & Acr) & (cp & Hcp & Acp) & (cy & Hcy & Acy)
        & (ca & Hca & Aca)).
  unfold mirrors in Hmir. cbv zeta in Hmir.
  destruct Hmir
    as ((t1 & M1 & N1) & (t2 & M2 & N2) & M3 & M4 & (t5 & M5 & N5)
        & (t6 & M6 & N6) & (t7 & M7 & N7) & M8 & M9 & M10 & M11 & M12
        & M13 & M14 & M15 & M16 & M17 & M18 & (km & t19 & M19 & N19)
        & M20 & M21 & M22 & M23 & M24 & M25 & M26 & M27 & M28 & M29 & M30).
  destruct Hval
    as (V1 & V2 & V3 & V4 & V5 & V6 & V7 & V8 & V9 & V10 & V11 & V12
        & V13 & V14 & V15 & V16 & V17 & V18).
  repeat accept_step.
  repeat split.
  rewrite <- V15, <- V1. reflexivity.
Qed.


(** The load of an existing file is the parse started with [jobj] set
    to it and the flag cleared (on [NULL] both return -1 at once). *)
Lemma load_of_file (e : env) (st : state) (file : json_object) :
  SETTINGS_FILE st = Some file ->
  settings_load_from_file e st
  = fn (start_parsing_data e) (ready_to_parse file st).
Proof.
  intros Hfile.
  cbv [settings_load_from_file fn bind modify read_in_file_contents
       gets c_if ready_to_parse c_return ret].
  cbn [SETTINGS_FILE set_was_load_successful].
  rewrite Hfile. destruct file; reflexivity.
Qed.

(** What "read in file contents" does when there is no file. *)
Lemma read_missing_file (e : env) (st : state) :
  SETTINGS_FILE st = None ->
  read_in_file_contents e st
  = (Next tt,
     set_SETTINGS_FILE
       (if to_file_ext_result e =? 0
        then Some default_settings
        else left_by_failed_write e)
       (set_jobj default_settings st)).
Proof.
  intros Hfile.
  cbv [read_in_file_contents bind gets call __load_default_settings
       __write_settings_to_disk fn json_object_to_file_ext c_if modify
       c_return ret].
  rewrite Hfile.
  destruct (to_file_ext_result e =? 0); reflexivity.
Qed.

Lemma set_SETTINGS_FILE_same (st : state) :
  set_SETTINGS_FILE (SETTINGS_FILE st) st = st.
Proof. destruct st; reflexivity. Qed.

(** The parse leaves the file on disk alone. *)
Lemma start_parsing_data_keeps_file (e : env) (st : state) :
  SETTINGS_FILE (snd (fn (start_parsing_data e) st)) = SETTINGS_FILE st.
Proof.
  pose proof (commutes_fn (set_SETTINGS_FILE (SETTINGS_FILE st)) _ st
                (commutes_start_parsing_data e (SETTINGS_FILE st))) as H.
  rewrite set_SETTINGS_FILE_same in H.
  apply (f_equal snd) in H. simpl in H. rewrite H. reflexivity.
Qed.

(** X9. A settings file that mirrors a valid [settings] value (under
    each scalar member's key the member's value, enumerators by a string
    that reads as their name; under "dsm_kill_mode" either name) and
    holds four controllers on which [__parse_controller] returns 0 when
    called with that loop frequency and the current filters is loaded
    with result 0, and the load leaves exactly that value in [settings]
    (provided none of the three values read after a missing [return] is
    -1).  This needs a kill mode of [DSM_KILL_DEDICATED_SWITCH], which
    [valid_settings] includes. *)
Theorem valid_file_loads
  (e : env) (st : state) (file : json_object) (s : settings_t) :
  SETTINGS_FILE st = Some file ->
  mirrors file s ->
  valid_settings s ->
  controllers_accepted file (feedback_hz s) st ->
  falls_off_not_minus_1 e ->
  fst (settings_load_from_file e st) = 0
  /\ settings (snd (settings_load_from_file e st)) = s
  /\ was_load_successful (snd (settings_load_from_file e st)) = 1.
Proof.
  intros Hfile Hmir Hval Hctl Hoff.
  rewrite (load_of_file e st file Hfile).
  apply (wp_fn (start_parsing_data e)
           (fun z st' =>
              z = 0 /\ settings st' = s /\ was_load_successful st' = 1)).
  eapply wp_mono;
    [apply (start_parsing_data_accepts e (ready_to_parse file st) s);
     assumption | | ]; simpl; intuition.
Qed.


(** X11. [settings_load_from_file] never changes a settings file that
    exists, whatever it returns.  When there is none and
    [json_object_to_file_ext] returns 0, the file holds the default
    object after the call; the parse that follows does not touch the
    disk. *)
Theorem load_disk_effect (e : env) (st : state) :
  (forall file,
     SETTINGS_FILE st = Some file ->
     SETTINGS_FILE (snd (settings_load_from_file e st)) = Some file)
  /\ (SETTINGS_FILE st = None ->
      to_file_ext_result e = 0 ->
      SETTINGS_FILE (snd (settings_load_from_file e st))
      = Some default_settings).
Proof.
  split.
  - intros file Hfile.
    rewrite (load_of_file e st file Hfile), start_parsing_data_keeps_file.
    exact Hfile.
  - intros Hfile Hw.
    assert (E : settings_load_from_file e st
                = fn (start_parsing_data e)
                    (set_SETTINGS_FILE (Some default_settings)
                       (set_jobj default_settings
                          (set_was_load_successful 0 st)))).
    { unfold settings_load_from_file, fn. unfold bind at 1, modify at 1.
      unfold bind at 1. rewrite read_missing_file by exact Hfile.
      rewrite Hw. reflexivity. }
    rewrite E, start_parsing_data_keeps_file. reflexivity.
Qed.

(** X12. When the settings file exists but [json_object_from_file]
    yields [NULL] (the file cannot be read or parsed),
    [settings_load_from_file] returns -1 having only cleared the success
    flag and set [jobj] to [NULL]: [settings], the four controllers and
    the file are exactly as before. *)
Theorem unreadable_file_is_rejected (e : env) (st : state) :
  SETTINGS_FILE st = Some JNull ->
  settings_load_from_file e st
  = (-1, set_jobj JNull (set_was_load_successful 0 st))
  /\ settings (snd (settings_load_from_file e st)) = settings st
  /\ roll_controller (snd (settings_load_from_file e st))
     = roll_controller st
  /\ pitch_controller (snd (settings_load_from_file e st))
     = pitch_controller st
  /\ yaw_controller (snd (settings_load_from_file e st))
     = yaw_controller st
  /\ altitude_controller (snd (settings_load_from_file e st))
     = altitude_controller st.
Proof.
  intros Hfile.
  assert (E : settings_load_from_file e st
              = (-1, set_jobj JNull (set_was_load_successful 0 st))).
  { cbv [settings_load_from_file fn bind modify read_in_file_contents
         gets c_if c_return ret].
    cbn [SETTINGS_FILE set_was_load_successful].
    rewrite Hfile. reflexivity. }
  rewrite E. simpl. repeat split; reflexivity.
Qed.

(** X13. After any call of [settings_load_from_file] that did not return
    0 (also one that follows a successful load) [settings_get] and the
    four controller getters return -1 and leave the caller's object as
    it was: the flag is cleared at the start of every load and set again
    only at its successful end. *)
Theorem getters_fail_after_failed_load
  (e : env) (st : state) (set : settings_t) (ctrl : rc_filter_t) :
  fst (settings_load_from_file e st) <> 0 ->
  settings_get (snd (settings_load_from_file e st)) set = (-1, set)
  /\ settings_get_roll_controller
       (snd (settings_load_from_file e st)) ctrl = (-1, ctrl)
  /\ settings_get_pitch_controller
       (snd (settings_load_from_file e st)) ctrl = (-1, ctrl)
  /\ settings_get_yaw_controller
       (snd (settings_load_from_file e st)) ctrl = (-1, ctrl)
  /\ settings_get_altitude_controller
       (snd (settings_load_from_file e st)) ctrl = (-1, ctrl).
Proof.
  intros Hr.
  destruct (settings_load_from_file_spec e st)
    as [_ [[_ Hw] | (Hz & _)]]; [| contradiction].
  unfold settings_get, settings_get_roll_controller,
    settings_get_pitch_controller, settings_get_yaw_controller,
    settings_get_altitude_controller.
  rewrite Hw. repeat split; reflexivity.
Qed.


(** The parse, cut in front of "parse feedback_hz". *)
Lemma start_parsing_data_split (e : env) (st : state) :
  start_parsing_data e st
  = bind (before_feedback_hz e)
      (fun _ =>
         parse_feedback_hz ;;
         parse_printf_options ;;
         parse_controllers ;;
         modify (set_was_load_successful 1) ;;
         c_return 0) st.
Proof.
  unfold start_parsing_data, after_enable_logging, before_feedback_hz.
  unfold bind.
  destruct (parse_physical e st) as [[[] | z] s1]; [| reflexivity].
  destruct (parse_enable_logging s1) as [[[] | z] s2]; [| reflexivity].
  destruct (parse_flight_modes s2) as [[[] | z] s3]; [| reflexivity].
  destruct (parse_DSM_config e s3) as [[[] | z] s4]; reflexivity.
Qed.

(** The blocks in front of "parse feedback_hz" leave [jobj] alone. *)
Lemma before_feedback_hz_jobj (e : env) (st : state) :
  wp (before_feedback_hz e)
    (fun _ st' => jobj st' = jobj st) (fun _ _ => True) st.
Proof.
  unfold before_feedback_hz.
  eapply wp_seq; [apply quiet_parse_physical | | ]; simpl; auto.
  intros _ s1 (J1 & _).
  eapply wp_seq; [apply parse_enable_logging_spec | | ]; simpl; auto.
  intros _ s2 (b & _ & ->).
  eapply wp_seq; [apply quiet_parse_flight_modes | | ]; simpl; auto.
  intros _ s3 (J3 & _).
  eapply wp_mono; [apply quiet_parse_DSM_config | | ]; simpl; auto.
  intros _ s4 (J4 & _). simpl in *. congruence.
Qed.

(** X14. A loop frequency the loader rejects is stored all the same:
    when everything in front of "parse feedback_hz" is accepted and the
    file holds an integer "feedback_hz" other than 50, 100 and 200,
    [settings_load_from_file] returns -1 with that integer, saturated to
    32 bits, left in [settings.feedback_hz]. *)
Theorem rejected_feedback_hz_is_stored
  (e : env) (st st1 : state) (file : json_object) (v : Z) :
  SETTINGS_FILE st = Some file ->
  before_feedback_hz e (ready_to_parse file st) = (Next tt, st1) ->
  json_object_object_get_ex file "feedback_hz" = Some (JInt v) ->
  v <> 50 -> v <> 100 -> v <> 200 ->
  settings_load_from_file e st
  = (-1,
     set_settings
       (set_feedback_hz (json_object_get_int (JInt v)) (settings st1)) st1)
  /\ feedback_hz (settings (snd (settings_load_from_file e st)))
     = json_object_get_int (JInt v).
Proof.
  intros Hfile Hpre Hv N50 N100 N200.
  pose proof (before_feedback_hz_jobj e (ready_to_parse file st)) as Hj.
  unfold wp in Hj. rewrite Hpre in Hj. simpl in Hj.
  assert (E : settings_load_from_file e st
              = (-1,
                 set_settings
                   (set_feedback_hz (json_object_get_int (JInt v))
                      (settings st1)) st1)).
  { rewrite (load_of_file e st file Hfile).
    unfold fn. rewrite start_parsing_data_split.
    unfold bind at 1. rewrite Hpre.
    unfold bind at 1.
    unfold parse_feedback_hz, PARSE_INT.
    cbv [bind gets assign modify c_if c_return ret].
    rewrite Hj, Hv.
    cbn [json_object_is_type json_object_get_type json_type_eqb
         settings set_settings].
    assert (Hhz : feedback_hz
                    (set_feedback_hz (json_object_get_int (JInt v))
                       (settings st1))
                  = json_object_get_int (JInt v)) by reflexivity.
    rewrite Hhz.
    pose proof (get_int_exact v) as Hex.
    destruct (Z.eqb_spec (json_object_get_int (JInt v)) 50) as [E1 | _];
      [exfalso; apply N50; rewrite <- Hex; auto |].
    destruct (Z.eqb_spec (json_object_get_int (JInt v)) 100) as [E2 | _];
      [exfalso; apply N100; rewrite <- Hex; auto |].
    destruct (Z.eqb_spec (json_object_get_int (JInt v)) 200) as [E3 | _];
      [exfalso; apply N200; rewrite <- Hex; auto |].
    reflexivity. }
  rewrite E. split; reflexivity.
Qed.

(** X15. The range check of [PARSE_DOUBLE_MIN_MAX] lets NaN through,
    whatever the bounds: both comparisons are false on NaN, so a NaN
    under the key is stored in [settings.v_nominal] and the statement
    falls through to the next one. *)
Theorem PARSE_DOUBLE_MIN_MAX_accepts_nan
  (name : string) (min max : float) (st : state) :
  json_object_object_get_ex (jobj st) name = Some (JDouble nan) ->
  PARSE_DOUBLE_MIN_MAX name min max st
  = (Next tt, set_settings (set_v_nominal nan (settings st)) st).
Proof.
  intros Hd.
  assert (H1 : PrimFloat.ltb nan min = false).
  { rewrite ltb_spec. unfold SpecFloat.SFltb.
    change (Prim2SF nan) with SpecFloat.S754_nan. reflexivity. }
  assert (H2 : PrimFloat.ltb max nan = false).
  { rewrite ltb_spec. unfold SpecFloat.SFltb.
    change (Prim2SF nan) with SpecFloat.S754_nan.
    destruct (Prim2SF max) as [[] | [] | | [] ? ?]; reflexivity. }
  unfold PARSE_DOUBLE_MIN_MAX.
  cbv [bind gets assign modify c_if c_return ret].
  rewrite Hd.
  cbn [json_object_is_type json_object_get_type json_type_eqb
       json_object_get_double].
  rewrite H1, H2. reflexivity.
Qed.

End WithRcFilter.

Import Example.

Lemma env_ok_falls_off :
  falls_off_not_minus_1 env_ok /\ falls_off_not_minus_1 env_write_fails.
Proof.
  unfold falls_off_not_minus_1; simpl. repeat split; discriminate.
Qed.

(** With a library that refuses a time step that is not positive: the
    controllers of the file are accepted at 200 Hz, and would not be at
    a negative frequency. *)
Lemma valid_file_loads_witness :
  (fst (settings_load_from_file env_ok
          (@initial_state picky_lib zero_settings (Some logging_on_200hz)))
   = 0
   /\ settings
        (snd (settings_load_from_file env_ok
                (@initial_state picky_lib zero_settings
                   (Some logging_on_200hz))))
      = logging_on_200hz_members
   /\ was_load_successful
        (snd (settings_load_from_file env_ok
                (@initial_state picky_lib zero_settings
                   (Some logging_on_200hz))))
      = 1)
  /\ ~ controllers_accepted logging_on_200hz (-200)
        (@initial_state picky_lib zero_settings (Some logging_on_200hz)).
Proof.
  split.
  - apply (@valid_file_loads picky_lib env_ok
             (@initial_state picky_lib zero_settings (Some logging_on_200hz))
             logging_on_200hz logging_on_200hz_members).
    + reflexivity.
    + unfold mirrors; cbv zeta.
      repeat first
        [ split
        | reflexivity
        | exists DSM_KILL_NEGATIVE_THROTTLE
        | eexists; split; [reflexivity | eexists; split; reflexivity] ].
    + unfold valid_settings; simpl.
      repeat split; solve [reflexivity | lia | auto | discriminate].
    + unfold controllers_accepted.
      repeat first
        [ split
        | eexists; split; [reflexivity | vm_compute; reflexivity] ].
    + apply env_ok_falls_off.
  - intros ((tmp & Ht & Hz) & _).
    vm_compute in Ht. inversion Ht; subst tmp.
    vm_compute in Hz. discriminate.
Defined.


Lemma load_disk_effect_witness :
  SETTINGS_FILE
    (snd (settings_load_from_file env_ok (with_file feedback_60hz)))
  = Some feedback_60hz
  /\ SETTINGS_FILE (snd (settings_load_from_file env_ok fresh))
     = Some default_settings.
Proof.
  split.
  - apply (proj1 (load_disk_effect env_ok (with_file feedback_60hz))).
    reflexivity.
  - apply (proj2 (load_disk_effect env_ok fresh)); reflexivity.
Defined.

Lemma unreadable_file_is_rejected_witness :
  settings_load_from_file env_ok (with_file JNull)
  = (-1, set_jobj JNull (set_was_load_successful 0 (with_file JNull))).
Proof.
  apply (unreadable_file_is_rejected env_ok (with_file JNull)).
  reflexivity.
Defined.

Lemma getters_fail_after_failed_load_witness :
  settings_get
    (snd (settings_load_from_file env_ok
            (set_SETTINGS_FILE (Some feedback_60hz)
               (snd (settings_load_from_file env_ok fresh)))))
    zero_settings
  = (-1, zero_settings).
Proof.
  apply (getters_fail_after_failed_load env_ok
           (set_SETTINGS_FILE (Some feedback_60hz)
              (snd (settings_load_from_file env_ok fresh)))
           zero_settings None).
  vm_compute. discriminate.
Defined.

Lemma rejected_feedback_hz_is_stored_witness :
  feedback_hz
    (settings (snd (settings_load_from_file env_ok (with_file feedback_60hz))))
  = 60
  /\ feedback_hz
       (settings
          (snd (settings_load_from_file env_ok
                  (with_file feedback_too_large))))
     = INT32_MAX.
Proof.
  split.
  - apply (rejected_feedback_hz_is_stored env_ok (with_file feedback_60hz)
             (snd (before_feedback_hz env_ok
                     (ready_to_parse feedback_60hz
                        (with_file feedback_60hz))))
             feedback_60hz 60);
      [ reflexivity | vm_compute; reflexivity | vm_compute; reflexivity
      | discriminate .. ].
  - apply (rejected_feedback_hz_is_stored env_ok
             (with_file feedback_too_large)
             (snd (before_feedback_hz env_ok
                     (ready_to_parse feedback_too_large
                        (with_file feedback_too_large))))
             feedback_too_large 4294967346);
      [ reflexivity | vm_compute; reflexivity | vm_compute; reflexivity
      | discriminate .. ].
Defined.

Lemma PARSE_DOUBLE_MIN_MAX_accepts_nan_witness :
  PARSE_DOUBLE_MIN_MAX "v_nominal" 7.0 18.0
    (set_jobj (JObject [("v_nominal", JDouble nan)]) fresh)
  = (Next tt,
     set_settings
       (set_v_nominal nan
          (settings (set_jobj (JObject [("v_nominal", JDouble nan)]) fresh)))
       (set_jobj (JObject [("v_nominal", JDouble nan)]) fresh)).
Proof.
  apply (PARSE_DOUBLE_MIN_MAX_accepts_nan "v_nominal" 7.0 18.0
           (set_jobj (JObject [("v_nominal", JDouble nan)]) fresh)).
  reflexivity.
Defined.

End LoaderFacts.
